(** * Risk-scoring API: a shallow embedding of the request pipeline,
      the four detectors, the geo helpers, the rate limiter and the health
      probe, with the properties of the specification proved or refuted.

    Sources embedded (paths relative to the repository root):
    - [config/settings.py]          : [Settings]
    - [api/validators.py]           : [validate_timestamp], [validate_ip_address],
                                      [validate_location]
    - [api/models.py]               : the request and response records
    - [api/main.py]                 : [check_rate_limit], [get_location_from_ip],
                                      [health_check], [analyze_risk]
    - [ml_models/*.py]              : the four [predict_risk] methods,
                                      [IPRiskModel.extract_features],
                                      [save_model] and [load_model]
    - [utils/geo_utils.py]          : [GeoLocationAnalyzer]

    Conventions.
    - Python [int] is [Z].
    - Python [float] is IEEE binary64: [spec_float] values of the Standard
      Library with [prec = 53] and [emax = 1024], computed by [SFadd],
      [SFsub], [SFmul], [SFdiv] and [SFsqrt].  Where the code calls the C
      math library (the haversine distance: [sin], [cos], [atan2], the
      float power) the values and the exceptions of those calls are an
      input of the embedding, like the other libraries.
    - A Python [str] is the string of its UTF-8 bytes.
    - What the numeric libraries (scikit-learn, TensorFlow, user_agents,
      ipaddress, email validation, local time) return is not decided by the
      repository: it is an input of the embedding, either a field of the
      fitted model or a [Variable] of the section.
    - [try: ... except Exception: return 50] is an [option] computation
      whose [None] is mapped to [50].
    - The request body has the fields and the types of the request model
      of [api/models.py]; the checks that model makes on values (history
      length, email syntax, login status) are part of the embedding. *)

From Stdlib Require Import ZArith List String Ascii Bool Lia QArith Lqa FMapPositive.
From Stdlib Require Import Floats.SpecFloat Sorted.
From stdpp Require Import gmap strings.

Open Scope Z_scope.

(** ** Clamping, as [max(0, min(100, x))] *)

Definition clamp (x : Z) : Z := Z.max 0 (Z.min 100 x).

(** ** Python floats (binary64) *)

Module PyFloat.

Definition prec : Z := 53.
Definition emax : Z := 1024.

(** [float(z)] for an integer [z] (round to nearest even). *)
Definition float_of_int (z : Z) : spec_float :=
  binary_normalize prec emax z 0 false.

Definition fmul : spec_float -> spec_float -> spec_float := SFmul prec emax.
Definition fadd : spec_float -> spec_float -> spec_float := SFadd prec emax.
Definition fdiv : spec_float -> spec_float -> spec_float := SFdiv prec emax.

(** [int(f)]: truncation toward zero; [None] stands for the
    [OverflowError] / [ValueError] raised on infinities and NaN. *)
Definition py_int (f : spec_float) : option Z :=
  match f with
  | S754_zero _ => Some 0
  | S754_finite s m e =>
      let a := if 0 <=? e then Z.shiftl (Zpos m) e
               else Z.shiftr (Zpos m) (- e) in
      Some (if s then - a else a)
  | S754_infinity _ | S754_nan => None
  end.

(** [int * float]: the integer operand is converted first. *)
Definition int_times_float (z : Z) (w : spec_float) : spec_float :=
  fmul (float_of_int z) w.

(** Structural equality test on floats (used to index tables). *)
Definition sf_eqb (x y : spec_float) : bool :=
  match x, y with
  | S754_zero a, S754_zero b => Bool.eqb a b
  | S754_infinity a, S754_infinity b => Bool.eqb a b
  | S754_nan, S754_nan => true
  | S754_finite a m e, S754_finite b n f =>
      Bool.eqb a b && Pos.eqb m n && Z.eqb e f
  | _, _ => false
  end.

End PyFloat.

(** ** [config/settings.py] *)

Module Settings.

Definition RATE_LIMIT_REQUESTS : Z := 100.
(** seconds *)
Definition RATE_LIMIT_PERIOD : Q := 60%Q.
(** seconds *)
Definition REDIS_CACHE_TTL : Q := 300%Q.
Definition MODELS_VERSION : string := "v1.0.0".
Definition VERSION : string := "1.0.0".

(** The binary64 values of the literals [0.30], [0.20] and [0.25]. *)
Definition IP_WEIGHT : spec_float := S754_finite false 5404319552844595 (-54).
Definition DATETIME_WEIGHT : spec_float := S754_finite false 7205759403792794 (-55).
Definition USERAGENT_WEIGHT : spec_float := S754_finite false 4503599627370496 (-54).
Definition GEOLOCATION_WEIGHT : spec_float := S754_finite false 4503599627370496 (-54).

End Settings.

(** ** Score fusion, [api/main.py] lines 340-346

  [int(scores[0] * IP_WEIGHT + scores[1] * DATETIME_WEIGHT
       + scores[2] * USERAGENT_WEIGHT + scores[3] * GEOLOCATION_WEIGHT)]:
  four products, added left to right, truncated by [int]. *)

Module Fusion.
Import PyFloat.

Definition weighted_sum (s0 s1 s2 s3 : Z) : spec_float :=
  fadd (fadd (fadd (int_times_float s0 Settings.IP_WEIGHT)
                   (int_times_float s1 Settings.DATETIME_WEIGHT))
             (int_times_float s2 Settings.USERAGENT_WEIGHT))
       (int_times_float s3 Settings.GEOLOCATION_WEIGHT).

Definition overall_score (s0 s1 s2 s3 : Z) : option Z :=
  py_int (weighted_sum s0 s1 s2 s3).

(** The exact weighted value, times one hundred. *)
Definition exact100 (s0 s1 s2 s3 : Z) : Z := 30 * s0 + 20 * s1 + 25 * s2 + 25 * s3.

(** [round] of the exact weighted value [n / 100], to the nearest integer
    (the two candidates for a tie coincide here only when [n] is a
    multiple of 50 that is not a multiple of 100; [round_half_even]
    follows Python). *)
Definition round_half_even (n : Z) : Z :=
  let q := n / 100 in
  let r := n mod 100 in
  if r <? 50 then q
  else if 50 <? r then q + 1
  else if Z.even q then q else q + 1.

(** *** Exhaustive evaluation over the 101^4 score vectors

    The partial sums take few distinct values; each stage is tabulated
    with its exact value as a tag, and the next stage runs over the
    table. *)

Definition tagged : Type := Z * spec_float.

Definition tagged_eqb (p q : tagged) : bool :=
  Z.eqb (fst p) (fst q) && sf_eqb (snd p) (snd q).

Definition table : Type := PositiveMap.t (list tagged).

Definition key (n : Z) : positive := Z.to_pos (n + 1).

Definition tmem (p : tagged) (t : table) : bool :=
  match PositiveMap.find (key (fst p)) t with
  | Some l => existsb (tagged_eqb p) l
  | None => false
  end.

Definition tadd (p : tagged) (t : table) : table :=
  match PositiveMap.find (key (fst p)) t with
  | Some l => if existsb (tagged_eqb p) l then t
              else PositiveMap.add (key (fst p)) (p :: l) t
  | None => PositiveMap.add (key (fst p)) (p :: nil) t
  end.

Definition telems (t : table) : list tagged :=
  flat_map snd (PositiveMap.elements t).

Definition score_range : list Z := List.map Z.of_nat (seq 0 101).

Definition terms (w : Z) (wf : spec_float) : list tagged :=
  List.map (fun s => (w * s, int_times_float s wf)) score_range.

Definition plus (p q : tagged) : tagged :=
  (fst p + fst q, fadd (snd p) (snd q)).

Definition stage (src ts : list tagged) : table :=
  fold_left (fun t p => fold_left (fun t q => tadd (plus p q) t) ts t)
            src (PositiveMap.empty _).

Definition covers (src ts : list tagged) (t : table) : bool :=
  forallb (fun p => forallb (fun q => tmem (plus p q) t) ts) src.

Definition terms_ip := terms 30 Settings.IP_WEIGHT.
Definition terms_datetime := terms 20 Settings.DATETIME_WEIGHT.
Definition terms_useragent := terms 25 Settings.USERAGENT_WEIGHT.
Definition terms_geolocation := terms 25 Settings.GEOLOCATION_WEIGHT.

Definition table_two : table :=
  Eval vm_compute in stage terms_ip terms_datetime.
Definition table_three : table :=
  Eval vm_compute in stage (telems table_two) terms_useragent.

(** The truncated float sum is not negative, and it is the floor of the
    exact value or one less; in particular [int] does not raise. *)
Definition final_ok (p : tagged) : bool :=
  match py_int (snd p) with
  | Some z => (0 <=? z) && ((z =? fst p / 100) || (z =? fst p / 100 - 1))
  | None => false
  end.

End Fusion.

(** ** Python strings

  A string is held as the sequence of its UTF-8 bytes; [lower] is
  [str.lower] on the ASCII letters (the other bytes are left as they
  are), [contains n h] is [n in h], [before_dot s] is [s.split('.')[0]],
  and [len] counts characters, not bytes. *)

Module PyStr.

Definition lower_char (c : ascii) : ascii :=
  let n := nat_of_ascii c in
  if (65 <=? n)%nat && (n <=? 90)%nat then ascii_of_nat (n + 32) else c.

Fixpoint lower (s : string) : string :=
  match s with
  | EmptyString => EmptyString
  | String c s' => String (lower_char c) (lower s')
  end.

Fixpoint contains (needle hay : string) : bool :=
  String.prefix needle hay ||
  match hay with
  | EmptyString => false
  | String _ h => contains needle h
  end.

Definition startswith (s p : string) : bool := String.prefix p s.

Fixpoint before_dot (s : string) : string :=
  match s with
  | EmptyString => EmptyString
  | String c s' => if Ascii.eqb c "." then EmptyString else String c (before_dot s')
  end.

Definition string_in (s : string) (l : list string) : bool :=
  existsb (String.eqb s) l.

(** A continuation byte [10xxxxxx] of a multi-byte character *)
Definition is_continuation (c : ascii) : bool :=
  let n := nat_of_ascii c in (128 <=? n)%nat && (n <? 192)%nat.

(** [len(s)]: the number of characters (code points), that is of bytes
    that are not continuation bytes. *)
Fixpoint len (s : string) : nat :=
  match s with
  | EmptyString => 0%nat
  | String c s' => if is_continuation c then len s' else S (len s')
  end.

(** [s.isascii()] *)
Fixpoint is_ascii (s : string) : bool :=
  match s with
  | EmptyString => true
  | String c s' => (nat_of_ascii c <? 128)%nat && is_ascii s'
  end.

End PyStr.

(** ** Python list helpers *)

Module PyList.

(** [l[-n:]] *)
Definition last_n {A : Type} (n : nat) (l : list A) : list A :=
  skipn (List.length l - n) l.

(** [max(l, key=k)]: the first element whose key is maximal. *)
Fixpoint max_by {A : Type} (k : A -> Z) (l : list A) : option A :=
  match l with
  | nil => None
  | x :: l' =>
      match max_by k l' with
      | None => Some x
      | Some y => if k x <? k y then Some y else Some x
      end
  end.

(** [sorted(l, key=k)]: a stable insertion sort. *)
Fixpoint insert_by {A : Type} (k : A -> Z) (x : A) (l : list A) : list A :=
  match l with
  | nil => x :: nil
  | y :: l' => if k y <=? k x then y :: insert_by k x l' else x :: y :: l'
  end.

Definition sorted_by {A : Type} (k : A -> Z) (l : list A) : list A :=
  fold_left (fun acc x => insert_by k x acc) l nil.

(** The differences [l[i] - l[i-1]] for [i] from 1. *)
Fixpoint intervals (l : list Z) : list Z :=
  match l with
  | x :: ((y :: _) as l') => (y - x) :: intervals l'
  | _ => nil
  end.

(** [sum(1 for x in l if p x)] *)
Definition count {A : Type} (p : A -> bool) (l : list A) : Z :=
  Z.of_nat (List.length (List.filter p l)).

(** [len(set(l))] *)
Definition distinct_strings (l : list string) : Z :=
  Z.of_nat (size (list_to_set l : gset string)).

Definition distinct_ints (l : list Z) : Z :=
  Z.of_nat (size (list_to_set l : gset Z)).

End PyList.

(** ** [api/models.py]: the request and response records *)

Record Location := mkLocation {
  country : string;
  city : string;
  latitude : spec_float;
  longitude : spec_float
}.

(** The two values [LoginHistoryItem.validate_login_status] accepts. *)
Definition success : string := "success".
Definition failure : string := "failure".

Record LoginHistoryItem := mkLoginHistoryItem {
  h_ip : string;
  h_userAgent : string;
  h_timestamp : Z;
  h_location : Location;
  h_loginStatus : string
}.

Record CurrentSession := mkCurrentSession {
  ip : string;
  userAgent : string;
  timestamp : Z;
  acceptLanguage : option string;
  screenResolution : option string;
  timezone : option string;
  platform : option string;
  webglRenderer : option string;
  fonts : option (list string);
  canvasFingerprint : option string;
  audioFingerprint : option string;
  plugins : option (list string);
  touchSupport : option bool;
  deviceMemory : option Z;
  hardwareConcurrency : option Z;
  referrer : option string;
  isCookieEnabled : option bool;
  isJavaEnabled : option bool;
  browserVersion : option string
}.

Record AnalyzeRequest := mkAnalyzeRequest {
  currentSession : CurrentSession;
  loginHistory : list LoginHistoryItem;
  userId : string
}.

Record RiskScores := mkRiskScores {
  score_ip : Z;
  score_datetime : Z;
  score_userAgent : Z;
  score_geolocation : Z;
  score_overall : Z
}.

Record ResponseMeta := mkResponseMeta {
  requestId : string;
  meta_userId : string;
  meta_timestamp : Z;
  processingTime : Z;
  modelsVersion : string
}.

Record AnalyzeResponse := mkAnalyzeResponse {
  meta : ResponseMeta;
  scores : RiskScores
}.

Record HealthResponse := mkHealthResponse {
  status : string;
  health_timestamp : Z;
  version : string;
  models_loaded : bool;
  redis_connected : bool;
  mongodb_connected : bool
}.

(** The dictionary the pipeline hands to every detector:
  [{**current_session_dict, 'location': location, 'login_history': ...}]. *)
Record ModelInput := mkModelInput {
  mi_session : CurrentSession;
  mi_location : Location;
  mi_login_history : list LoginHistoryItem
}.

(** ** [ml_models/base_model.py] *)

Record BaseRiskModel (F : Type) := mkBaseRiskModel {
  is_loaded : bool;
  model : option F
}.
Arguments mkBaseRiskModel {F} _ _.
Arguments is_loaded {F} _.
Arguments model {F} _.

(** [not self.is_loaded and self.model is None] *)
Definition not_loaded {F : Type} (m : BaseRiskModel F) : bool :=
negb (is_loaded m) && match model m with None => true | Some _ => false end.

(** [model.is_loaded or model.model is not None] *)
Definition loaded_or_trained {F : Type} (m : BaseRiskModel F) : bool :=
is_loaded m || match model m with None => false | Some _ => true end.

(** [try: body  except Exception: return 50] *)
Definition or_default_50 (body : option Z) : Z :=
match body with Some s => s | None => 50 end.

(** Float helpers shared by the detectors. *)
Definition fsub : spec_float -> spec_float -> spec_float := SFsub PyFloat.prec PyFloat.emax.
Definition float_lit (z : Z) : spec_float := PyFloat.float_of_int z.

(** ** [ml_models/ip_model.py] *)

(** What the scaler and the one-class SVM return for the feature vector
    of [data]: [prediction] and [decision_score], unless a call raises. *)
Inductive svm_result :=
| SVMRaises
| SVMResult (prediction : Z) (decision_score : spec_float).

(** What [ipaddress.ip_address] returns: [ip_text] is [str(ip_obj)]. *)
Record IPAddress := mkIPAddress {
  is_private : bool;
  ip_text : string
}.

Module IPRiskModel.

(** The fitted scaler and SVM, as a function of
    [data = {'ip', 'timestamp', 'login_history'}]. *)
Definition Fitted : Type := string -> Z -> list LoginHistoryItem -> svm_result.

Record t := mk {
  base : BaseRiskModel Fitted;
  known_bad_ips : gset string
}.

(** [IPRiskModel(path)]: nothing loaded, no known bad address. *)
Definition init : t := mk (mkBaseRiskModel false None) ∅.

Section WithLibraries.

(** [ipaddress.ip_address]; [None] when it raises [ValueError]. *)
Variable ip_address : string -> option IPAddress.

(** Lines 149-161: the VPN / datacenter base score. *)
Definition base_score (ip : string) : Z :=
  match ip_address ip with
  | Some ip_obj =>
      if negb (is_private ip_obj) then
        if PyStr.string_in (PyStr.before_dot (ip_text ip_obj)) ("104" :: "172" :: nil)
        then 70 else 0
      else 0
  | None => 50
  end.

(** Lines 163-169: the SVM decision as a risk score; [int] may raise. *)
Definition risk_score (prediction : Z) (decision_score : spec_float) : option Z :=
  if prediction =? 1 then
    match PyFloat.py_int (fsub (float_lit 30) (PyFloat.fmul decision_score (float_lit 10))) with
    | Some v => Some (Z.max 0 (Z.min 30 v))
    | None => None
    end
  else
    match PyFloat.py_int (fsub (float_lit 70) (PyFloat.fmul decision_score (float_lit 20))) with
    | Some v => Some (Z.max 31 (Z.min 100 v))
    | None => None
    end.

(** Lines 175-184: addresses seen in the last hour among the last ten
    logins. *)
Definition recent_ips (current_time : Z) (login_history : list LoginHistoryItem) : list string :=
  List.map h_ip
    (List.filter (fun item => current_time - h_timestamp item <? 3600000)
                 (PyList.last_n 10 login_history)).

Definition frequent_ip_change (final_score : Z) (current_time : Z)
    (login_history : list LoginHistoryItem) : Z :=
  match login_history with
  | nil => final_score
  | _ =>
      if 3 <? PyList.distinct_strings (recent_ips current_time login_history)
      then Z.min 100 (final_score + 20)
      else final_score
  end.

(** The body of the [try] block; [None] is an exception. *)
Definition predict_risk_body (m : t) (fitted : option Fitted)
    (current_session : ModelInput) (login_history : list LoginHistoryItem) : option Z :=
  let data_ip := ip (mi_session current_session) in
  let data_timestamp := timestamp (mi_session current_session) in
  match fitted with
  | None => None
  | Some f =>
      match f data_ip data_timestamp login_history with
      | SVMRaises => None
      | SVMResult prediction decision_score =>
          if bool_decide (data_ip ∈ known_bad_ips m) then Some 90
          else
            match risk_score prediction decision_score with
            | None => None
            | Some rs =>
                let final_score := Z.max (base_score data_ip) rs in
                Some (frequent_ip_change final_score data_timestamp login_history)
            end
      end
  end.

Definition predict_risk (m : t) (current_session : ModelInput)
    (login_history : list LoginHistoryItem) : Z :=
  if not_loaded (base m) then 50
  else or_default_50 (predict_risk_body m (model (base m)) current_session login_history).

End WithLibraries.

End IPRiskModel.

(** ** [ml_models/datetime_model.py] *)

(** What the scaler and the isolation forest return: [prediction] and
    [anomaly_score] (from [score_samples]), unless a call raises. *)
Inductive iforest_result :=
| IForestRaises
| IForestResult (prediction : Z) (anomaly_score : spec_float).

Module DateTimeRiskModel.

(** The fitted scaler and forest, as a function of
    [data = {'timestamp', 'login_history'}]. *)
Definition Fitted : Type := Z -> list LoginHistoryItem -> iforest_result.

Definition t : Type := BaseRiskModel Fitted.

Definition init : t := mkBaseRiskModel false None.

Section WithLibraries.

(** [datetime.fromtimestamp(ts / 1000).hour] in the server's time zone;
    [None] when the conversion raises. *)
Variable local_hour : Z -> option Z.

(** Lines 156-162: the base risk before rules, clamped. *)
Definition model_base_risk (prediction : Z) (anomaly_score : spec_float) : option Z :=
  match
    (if prediction =? 1
     then PyFloat.py_int (fsub (float_lit 15) (PyFloat.fmul anomaly_score (float_lit 15)))
     else PyFloat.py_int (fsub (float_lit 50) (PyFloat.fmul anomaly_score (float_lit 30))))
  with
  | Some v => Some (Z.max 0 (Z.min 100 v))
  | None => None
  end.

(** Line 168: night-time login. *)
Definition night_rule (hour : Z) (base_risk : Z) : Z :=
  if (2 <=? hour) && (hour <=? 5) then Z.min 100 (base_risk + 20) else base_risk.

(** Lines 173-174: history logins less than five minutes before the
    session's timestamp. *)
Definition recent_count (ts : Z) (login_history : list LoginHistoryItem) : Z :=
  PyList.count (fun item => ts - h_timestamp item <? 300000) login_history.

Definition burst_rule (ts : Z) (login_history : list LoginHistoryItem) (base_risk : Z) : Z :=
  if 5 <? recent_count ts login_history then Z.min 100 (base_risk + 30)
  else if 3 <? recent_count ts login_history then Z.min 100 (base_risk + 15)
  else base_risk.

(** Lines 181-184: failures among the last ten history items. *)
Definition recent_failures (login_history : list LoginHistoryItem) : Z :=
  PyList.count (fun item => String.eqb (h_loginStatus item) "failure")
               (PyList.last_n 10 login_history).

Definition failure_rule (login_history : list LoginHistoryItem) (base_risk : Z) : Z :=
  if 3 <? recent_failures login_history then Z.min 100 (base_risk + 20) else base_risk.

(** Lines 187-195: the gaps between the last six history items, sorted by
    time. *)
Definition recent_intervals (login_history : list LoginHistoryItem) : list Z :=
  PyList.intervals
    (List.map h_timestamp (PyList.sorted_by h_timestamp (PyList.last_n 6 login_history))).

Definition cadence_rule (login_history : list LoginHistoryItem) (base_risk : Z) : Z :=
  if (5 <? Z.of_nat (List.length login_history))
     && (PyList.distinct_ints (recent_intervals login_history) =? 1)
  then Z.min 100 (base_risk + 25)
  else base_risk.

(** Lines 164-196: the rule layer on a clamped base risk. *)
Definition rule_layer (hour ts : Z) (login_history : list LoginHistoryItem) (base_risk : Z) : Z :=
  let r1 := night_rule hour base_risk in
  let r2 :=
    match login_history with
    | nil => r1
    | _ => failure_rule login_history (burst_rule ts login_history r1)
    end in
  cadence_rule login_history r2.

Definition predict_risk_body (fitted : option Fitted)
    (current_session : ModelInput) (login_history : list LoginHistoryItem) : option Z :=
  let ts := timestamp (mi_session current_session) in
  match fitted with
  | None => None
  | Some f =>
      match f ts login_history with
      | IForestRaises => None
      | IForestResult prediction anomaly_score =>
          match model_base_risk prediction anomaly_score with
          | None => None
          | Some base_risk =>
              match local_hour ts with
              | None => None
              | Some hour => Some (rule_layer hour ts login_history base_risk)
              end
          end
      end
  end.

Definition predict_risk (m : t) (current_session : ModelInput)
    (login_history : list LoginHistoryItem) : Z :=
  if not_loaded m then 50
  else or_default_50 (predict_risk_body (model m) current_session login_history).

End WithLibraries.

End DateTimeRiskModel.

(** ** [ml_models/useragent_model.py] *)

(** What the scaler, the autoencoder and numpy return: the reconstruction
    error [mse], the stored [threshold], and [exp_value], the value of
    [np.exp(-excess * 5)] when that branch is taken; or a call raises
    (an unfitted scaler, a missing [threshold] attribute, ...). *)
Inductive autoencoder_result :=
| AERaises
| AEResult (mse threshold exp_value : spec_float).

(** What [user_agents.parse] reports: [browser_major] is
    [int(ua.browser.version_string.split('.')[0])], [None] when that
    raises. *)
Record ParsedUserAgent := mkParsedUserAgent {
  is_bot : bool;
  browser_family : string;
  browser_major : option Z
}.

Module UserAgentRiskModel.

(** The fitted scaler and autoencoder, as a function of
    [data = {'userAgent', 'currentSession'}]. *)
Definition Fitted : Type := string -> ModelInput -> autoencoder_result.

Definition t : Type := BaseRiskModel Fitted.

Definition init : t := mkBaseRiskModel false None.

Definition outdated_browsers : gmap string Z :=
  list_to_map (("Chrome", 80) :: ("Firefox", 75) :: ("Safari", 13) :: ("Edge", 80) :: nil).

Section WithLibraries.

(** [user_agents.parse]; [None] when it raises. *)
Variable parse : string -> option ParsedUserAgent.

(** Lines 197-204: base risk from the reconstruction error, clamped. *)
Definition model_base_risk (mse threshold exp_value : spec_float) : option Z :=
  match
    (if SFleb mse threshold
     then PyFloat.py_int (PyFloat.fmul (float_lit 30) (PyFloat.fdiv mse threshold))
     else match PyFloat.py_int (PyFloat.fmul (float_lit 70) (fsub (float_lit 1) exp_value)) with
          | Some v => Some (30 + v)
          | None => None
          end)
  with
  | Some v => Some (Z.max 0 (Z.min 100 v))
  | None => None
  end.

(** Lines 210-212 *)
Definition bot_rule (ua : ParsedUserAgent) (base_risk : Z) : Z :=
  if is_bot ua then Z.max base_risk 80 else base_risk.

(** Lines 214-216 *)
Definition headless_rule (ua_str : string) (base_risk : Z) : Z :=
  if existsb (fun pattern => PyStr.contains pattern ua_str)
             ("headless" :: "phantom" :: "selenium" :: nil)
  then Z.max base_risk 85 else base_risk.

(** Lines 218-220 *)
Definition puppeteer_rule (ua_str : string) (base_risk : Z) : Z :=
  if PyStr.contains "puppeteer" ua_str || PyStr.contains "HeadlessChrome" ua_str
  then Z.max base_risk 90 else base_risk.

(** Lines 222-231; a failing [int] skips the rule. *)
Definition outdated_rule (ua : ParsedUserAgent) (base_risk : Z) : Z :=
  match browser_major ua with
  | None => base_risk
  | Some major_version =>
      match outdated_browsers !! browser_family ua with
      | Some minimum =>
          if major_version <? minimum then Z.min 100 (base_risk + 20) else base_risk
      | None => base_risk
      end
  end.

(** Lines 233-235 *)
Definition short_rule (ua_str : string) (base_risk : Z) : Z :=
  if Z.of_nat (PyStr.len ua_str) <? 20 then Z.max base_risk 75 else base_risk.

(** Lines 237-240 *)
Definition touch_rule (touch : option bool) (ua_str : string) (base_risk : Z) : Z :=
  if match touch with Some true => true | _ => false end
     && PyStr.contains "Windows NT" ua_str
     && negb (PyStr.contains "Mobile" ua_str)
  then Z.min 100 (base_risk + 15) else base_risk.

(** Lines 242-247 *)
Definition history_rule (login_history : list LoginHistoryItem) (base_risk : Z) : Z :=
  match login_history with
  | nil => base_risk
  | _ =>
      if 5 <? PyList.distinct_strings (List.map h_userAgent (PyList.last_n 10 login_history))
      then Z.min 100 (base_risk + 10) else base_risk
  end.

(** Lines 206-249: the rule layer on a clamped base risk. *)
Definition rule_layer (ua : ParsedUserAgent) (ua_str : string) (touch : option bool)
    (login_history : list LoginHistoryItem) (base_risk : Z) : Z :=
  history_rule login_history
    (touch_rule touch ua_str
      (short_rule ua_str
        (outdated_rule ua
          (puppeteer_rule ua_str
            (headless_rule ua_str
              (bot_rule ua base_risk)))))).

Definition predict_risk_body (fitted : option Fitted)
    (current_session : ModelInput) (login_history : list LoginHistoryItem) : option Z :=
  let user_agent := userAgent (mi_session current_session) in
  match fitted with
  | None => None
  | Some f =>
      match f user_agent current_session with
      | AERaises => None
      | AEResult mse threshold exp_value =>
          match model_base_risk mse threshold exp_value with
          | None => None
          | Some base_risk =>
              let ua_str := PyStr.lower user_agent in
              match parse user_agent with
              | None => None
              | Some ua =>
                  Some (rule_layer ua ua_str (touchSupport (mi_session current_session))
                                   login_history base_risk)
              end
          end
      end
  end.

Definition predict_risk (m : t) (current_session : ModelInput)
    (login_history : list LoginHistoryItem) : Z :=
  if not_loaded m then 50
  else or_default_50 (predict_risk_body (model m) current_session login_history).

End WithLibraries.

End UserAgentRiskModel.

(** ** Python floats of the geographic code

    The arithmetic of the haversine formula is binary64 arithmetic,
    computed here by [SFadd], [SFsub], [SFmul], [SFdiv] and [SFsqrt].
    [math.sin], [math.cos], [math.atan2] and the float power [x ** y] go
    through the C library of the platform: what they return, and whether
    they raise, is an input of the embedding ([MathLib]).  [math.sqrt]
    is correctly rounded and raises [ValueError] on a negative argument;
    [math.radians(x)] is [x * (pi / 180)]. *)

Record MathLib := mkMathLib {
  math_sin : spec_float -> option spec_float;
  math_cos : spec_float -> option spec_float;
  math_atan2 : spec_float -> spec_float -> option spec_float;
  float_pow : spec_float -> spec_float -> option spec_float
}.

Module PyMath.

Definition zero : spec_float := S754_zero false.
Definition one : spec_float := float_lit 1.
Definition two : spec_float := float_lit 2.

(** [float('inf')] *)
Definition inf : spec_float := S754_infinity false.

Definition is_nan (x : spec_float) : bool :=
  match x with S754_nan => true | _ => false end.

(** [x > k], [x < k] and [x == k] on floats; all three are [False] when
    an operand is NaN. *)
Definition float_gt (x k : spec_float) : bool := SFltb k x.
Definition float_lt (x k : spec_float) : bool := SFltb x k.
Definition float_le (x k : spec_float) : bool := SFleb x k.
Definition float_eq (x k : spec_float) : bool := SFeqb x k.

(** The conversion of an [int] operand of a float operation; [None] is
    the [OverflowError] of an integer too large for a float. *)
Definition float_of_int_checked (z : Z) : option spec_float :=
  match PyFloat.float_of_int z with
  | S754_infinity _ => None
  | f => Some f
  end.

(** [x / y] on floats; [None] is [ZeroDivisionError]. *)
Definition truediv (x y : spec_float) : option spec_float :=
  if float_eq y zero then None else Some (PyFloat.fdiv x y).

(** The double [pi / 180] *)
Definition deg_to_rad : spec_float := S754_finite false 5030569068109113 (-58).

Definition radians (x : spec_float) : spec_float := PyFloat.fmul x deg_to_rad.

(** [math.sqrt]; [None] is [ValueError: math domain error]. *)
Definition sqrt (x : spec_float) : option spec_float :=
  match SFsqrt PyFloat.prec PyFloat.emax x with
  | S754_nan => if is_nan x then Some S754_nan else None
  | r => Some r
  end.

End PyMath.

(** ** [utils/geo_utils.py] *)

Module GeoLocationAnalyzer.

Definition earth_radius_km : spec_float := float_lit 6371.
Definition max_commercial_flight_speed_kmh : spec_float := float_lit 900.

(** The double [3600000.0] *)
Definition ms_per_hour : spec_float := float_lit 3600000.

Section WithLibraries.

Variable math : MathLib.

(** The local [a] of [haversine_distance]. *)
Definition haversine_a (lat1 lon1 lat2 lon2 : spec_float) : option spec_float :=
  let lat1 := PyMath.radians lat1 in
  let lon1 := PyMath.radians lon1 in
  let lat2 := PyMath.radians lat2 in
  let lon2 := PyMath.radians lon2 in
  let dlat := fsub lat2 lat1 in
  let dlon := fsub lon2 lon1 in
  sin_dlat ← math_sin math (PyFloat.fdiv dlat PyMath.two);
  sin_dlat_2 ← float_pow math sin_dlat PyMath.two;
  cos_lat1 ← math_cos math lat1;
  cos_lat2 ← math_cos math lat2;
  sin_dlon ← math_sin math (PyFloat.fdiv dlon PyMath.two);
  sin_dlon_2 ← float_pow math sin_dlon PyMath.two;
  Some (PyFloat.fadd sin_dlat_2 (PyFloat.fmul (PyFloat.fmul cos_lat1 cos_lat2) sin_dlon_2)).

(** [None] is an exception: of a library call, or the [ValueError] of
    [sqrt(a)] or [sqrt(1-a)] on a negative argument. *)
Definition haversine_distance (lat1 lon1 lat2 lon2 : spec_float) : option spec_float :=
  a ← haversine_a lat1 lon1 lat2 lon2;
  sqrt_a ← PyMath.sqrt a;
  sqrt_1_a ← PyMath.sqrt (fsub PyMath.one a);
  angle ← math_atan2 math sqrt_a sqrt_1_a;
  let c := PyFloat.fmul PyMath.two angle in
  Some (PyFloat.fmul earth_radius_km c).

Definition calculate_travel_speed (lat1 lon1 lat2 lon2 : spec_float) (time_diff_ms : Z)
    : option spec_float :=
  if time_diff_ms <=? 0 then Some PyMath.inf
  else
    distance_km ← haversine_distance lat1 lon1 lat2 lon2;
    time_diff ← PyMath.float_of_int_checked time_diff_ms;
    let time_diff_hours := PyFloat.fdiv time_diff ms_per_hour in
    PyMath.truediv distance_km time_diff_hours.

Definition is_impossible_travel (lat1 lon1 lat2 lon2 : spec_float) (time_diff_ms : Z)
    : option bool :=
  speed ← calculate_travel_speed lat1 lon1 lat2 lon2 time_diff_ms;
  Some (PyMath.float_gt speed max_commercial_flight_speed_kmh).

End WithLibraries.

End GeoLocationAnalyzer.

(** ** [ml_models/geolocation_model.py] *)

(** What the scaler, the stored core samples and numpy return: no core
    samples, or the minimal distance [distances] with [exp_value], the
    value of [np.exp(-distances)] when that branch is taken; or a call
    raises. *)
Inductive dbscan_result :=
| DBSCANRaises
| DBSCANNoCoreSamples
| DBSCANDistance (distances exp_value : spec_float).

Module GeolocationRiskModel.

(** The fitted scaler and clustering, as a function of
    [data = {'location', 'timestamp', 'login_history'}]. *)
Definition Fitted : Type := Location -> Z -> list LoginHistoryItem -> dbscan_result.

Definition t : Type := BaseRiskModel Fitted.

Definition init : t := mkBaseRiskModel false None.

Definition max_travel_speed_kmh : spec_float := float_lit 900.
Definition earth_radius_km : spec_float := float_lit 6371.

Definition high_risk_countries : list string :=
  "North Korea" :: "Iran" :: "Syria" :: "Cuba" :: "Crimea" :: nil.

(** Lines 182-189: the location the detector scores, whatever the session
    carries: [40.7128], [-74.0060]. *)
Definition default_location : Location :=
  mkLocation "United States" "New York"
    (S754_finite false 5729817215912798 (-47)) (S754_finite true 5207709281612202 (-46)).

(** The literal [0.3] *)
Definition lit_0_3 : spec_float := S754_finite false 5404319552844595 (-54).

(** Lines 202-215: base risk from the distance to the core samples,
    clamped. *)
Definition model_base_risk (r : dbscan_result) : option Z :=
  match
    match r with
    | DBSCANRaises => None
    | DBSCANNoCoreSamples => Some 50
    | DBSCANDistance distances exp_value =>
        if SFltb distances lit_0_3
        then PyFloat.py_int (PyFloat.fmul (float_lit 30) (PyFloat.fdiv distances lit_0_3))
        else match PyFloat.py_int (PyFloat.fmul (float_lit 70) (fsub (float_lit 1) exp_value)) with
             | Some v => Some (30 + v)
             | None => None
             end
    end
  with
  | Some v => Some (Z.max 0 (Z.min 100 v))
  | None => None
  end.

(** Lines 230-240: the physics floor and the fast-travel raise. *)
Definition travel_rule (speed : spec_float) (base_risk : Z) : Z :=
  if PyMath.float_gt speed max_travel_speed_kmh then
    let base_risk := Z.max base_risk 85 in
    if PyMath.float_gt speed (float_lit 2000) then 95 else base_risk
  else if PyMath.float_gt speed (float_lit 500) then Z.min 100 (base_risk + 20)
  else base_risk.

(** Lines 242-253: countries of the last ten logins within 24 hours. *)
Definition recent_countries (current_time : Z) (login_history : list LoginHistoryItem)
    : list string :=
  List.filter (fun c => negb (String.eqb c ""))
    (List.map (fun item => country (h_location item))
      (List.filter (fun item => current_time - h_timestamp item <? 86400000)
                   (PyList.last_n 10 login_history))).

Definition country_rule (current_time : Z) (login_history : list LoginHistoryItem)
    (base_risk : Z) : Z :=
  if 3 <? PyList.distinct_strings (recent_countries current_time login_history)
  then Z.min 100 (base_risk + 15) else base_risk.

(** Lines 255-257 *)
Definition high_risk_rule (location : Location) (base_risk : Z) : Z :=
  if PyStr.string_in (country location) high_risk_countries
  then Z.max base_risk 70 else base_risk.

Section WithLibraries.

Variable math : MathLib.

Definition haversine_a (lat1 lon1 lat2 lon2 : spec_float) : option spec_float :=
  let lat1 := PyMath.radians lat1 in
  let lon1 := PyMath.radians lon1 in
  let lat2 := PyMath.radians lat2 in
  let lon2 := PyMath.radians lon2 in
  let dlat := fsub lat2 lat1 in
  let dlon := fsub lon2 lon1 in
  sin_dlat ← math_sin math (PyFloat.fdiv dlat PyMath.two);
  sin_dlat_2 ← float_pow math sin_dlat PyMath.two;
  cos_lat1 ← math_cos math lat1;
  cos_lat2 ← math_cos math lat2;
  sin_dlon ← math_sin math (PyFloat.fdiv dlon PyMath.two);
  sin_dlon_2 ← float_pow math sin_dlon PyMath.two;
  Some (PyFloat.fadd sin_dlat_2 (PyFloat.fmul (PyFloat.fmul cos_lat1 cos_lat2) sin_dlon_2)).

Definition haversine_distance (lat1 lon1 lat2 lon2 : spec_float) : option spec_float :=
  a ← haversine_a lat1 lon1 lat2 lon2;
  sqrt_a ← PyMath.sqrt a;
  sqrt_1_a ← PyMath.sqrt (fsub PyMath.one a);
  angle ← math_atan2 math sqrt_a sqrt_1_a;
  let c := PyFloat.fmul PyMath.two angle in
  Some (PyFloat.fmul earth_radius_km c).

(** Lines 45-58: the distance is computed first, then
    [abs(time2 - time1) / 3600000.0] and the test [time_diff_hours == 0]. *)
Definition calculate_travel_speed (loc1 loc2 : Location) (time1 time2 : Z)
    : option spec_float :=
  distance ←
    haversine_distance (latitude loc1) (longitude loc1) (latitude loc2) (longitude loc2);
  time_diff ← PyMath.float_of_int_checked (Z.abs (time2 - time1));
  let time_diff_hours := PyFloat.fdiv time_diff GeoLocationAnalyzer.ms_per_hour in
  if PyMath.float_eq time_diff_hours PyMath.zero then Some PyMath.inf
  else Some (PyFloat.fdiv distance time_diff_hours).

(** The speed the detector computes for a non-empty history. *)
Definition detector_speed (location : Location) (ts : Z) (last_login : LoginHistoryItem)
    : option spec_float :=
  calculate_travel_speed location (h_location last_login) ts (h_timestamp last_login).

(** Lines 217-259: the rule layer on a clamped base risk; [None] is an
    exception of the speed computation.  Every history item carries a
    location (the request model requires it), so the test [if last_loc]
    passes whenever the history is not empty. *)
Definition rule_layer (location : Location) (ts : Z)
    (login_history : list LoginHistoryItem) (base_risk : Z) : option Z :=
  r ←
    match PyList.max_by h_timestamp login_history with
    | None => Some base_risk
    | Some last_login =>
        speed ← detector_speed location ts last_login;
        Some (country_rule ts login_history (travel_rule speed base_risk))
    end;
  Some (high_risk_rule location r).

Definition predict_risk_body (fitted : option Fitted)
    (current_session : ModelInput) (login_history : list LoginHistoryItem) : option Z :=
  let location := default_location in
  let ts := timestamp (mi_session current_session) in
  match fitted with
  | None => None
  | Some f =>
      match model_base_risk (f location ts login_history) with
      | None => None
      | Some base_risk => rule_layer location ts login_history base_risk
      end
  end.

Definition predict_risk (m : t) (current_session : ModelInput)
    (login_history : list LoginHistoryItem) : Z :=
  if not_loaded m then 50
  else or_default_50 (predict_risk_body (model m) current_session login_history).

End WithLibraries.

End GeolocationRiskModel.

(** ** [api/validators.py] *)

Module Validators.

Definition min_ts : Z := 1577836800000.
Definition max_ts : Z := 1893456000000.

Definition validate_timestamp (timestamp : Z) : bool :=
  (min_ts <=? timestamp) && (timestamp <=? max_ts).

Section WithLibraries.

Variable ip_address : string -> option IPAddress.

Definition validate_ip_address (ip : string) : bool :=
  match ip_address ip with Some _ => true | None => false end.

(** [re.sub(...)], [re.sub(...)], [strip()] on one string *)
Variable sanitize_str : string -> string.

Definition sanitize_location (l : Location) : Location :=
  mkLocation (sanitize_str (country l)) (sanitize_str (city l)) (latitude l) (longitude l).

Definition sanitize_item (item : LoginHistoryItem) : LoginHistoryItem :=
  mkLoginHistoryItem (sanitize_str (h_ip item)) (sanitize_str (h_userAgent item))
    (h_timestamp item) (sanitize_location (h_location item))
    (sanitize_str (h_loginStatus item)).

Definition sanitize_session (s : CurrentSession) : CurrentSession :=
  let str := option_map sanitize_str in
  let strs := option_map (List.map sanitize_str) in
  mkCurrentSession (sanitize_str (ip s)) (sanitize_str (userAgent s)) (timestamp s)
    (str (acceptLanguage s)) (str (screenResolution s)) (str (timezone s))
    (str (platform s)) (str (webglRenderer s)) (strs (fonts s))
    (str (canvasFingerprint s)) (str (audioFingerprint s)) (strs (plugins s))
    (touchSupport s) (deviceMemory s) (hardwareConcurrency s)
    (str (referrer s)) (isCookieEnabled s) (isJavaEnabled s) (str (browserVersion s)).

End WithLibraries.

End Validators.

(** ** The Redis commands the rate limiter calls

    The server is not part of the repository; [INCR] and [EXPIRE] follow
    their documented behaviour: a key whose time to live has elapsed is
    absent, [INCR] of an absent key stores [1] without a time to live,
    [INCR] of a present key keeps its time to live, and [EXPIRE] sets the
    key to vanish [seconds] after the call. *)

Record RedisEntry := mkRedisEntry {
  value : Z;
  expires_at : option Q
}.

Definition Qltb (a b : Q) : bool := negb (Qle_bool b a).

Module Redis.

Definition live (now : Q) (e : RedisEntry) : bool :=
  match expires_at e with
  | None => true
  | Some t => Qltb now t
  end.

Definition get (now : Q) (db : gmap string RedisEntry) (key : string) : option RedisEntry :=
  match db !! key with
  | Some e => if live now e then Some e else None
  | None => None
  end.

Definition incr (now : Q) (db : gmap string RedisEntry) (key : string)
    : Z * gmap string RedisEntry :=
  match get now db key with
  | Some e => (value e + 1, <[key := mkRedisEntry (value e + 1) (expires_at e)]> db)
  | None => (1, <[key := mkRedisEntry 1 None]> db)
  end.

Definition expire (now : Q) (db : gmap string RedisEntry) (key : string) (seconds : Q)
    : gmap string RedisEntry :=
  match get now db key with
  | Some e => <[key := mkRedisEntry (value e) (Some (now + seconds)%Q)]> db
  | None => db
  end.

End Redis.

(** ** [api/main.py] *)

(** The objects stored in the [models] dictionary; a method call on one
    of them dispatches on its class. *)
Inductive RiskModel :=
| IPModel (m : IPRiskModel.t)
| DateTimeModel (m : DateTimeRiskModel.t)
| UserAgentModel (m : UserAgentRiskModel.t)
| GeolocationModel (m : GeolocationRiskModel.t).

(** A key written by [SETEX]: the cached scores and the time to live, in
    seconds, handed to the command. *)
Record CachedScores := mkCachedScores {
  cached : RiskScores;
  cached_ttl : Q
}.

(** The module-level state: the Redis server behind [redis_client], the
    in-process [rate_limit_cache] and the [models] dictionary.  The keys
    of the server are kept in two maps: [redis_db] holds the counters
    (keys ["rate_limit:..."]), [redis_results] the cached results (keys
    ["risk_score:..."]); the two prefixes differ, so no command of the
    code on a key of one kind meets a key of the other.  MongoDB is
    written and never read; it is not part of the state. *)
Record AppState := mkAppState {
  redis_db : gmap string RedisEntry;
  redis_results : gmap string CachedScores;
  rate_limit_cache : gmap string (list Q);
  models : gmap string RiskModel
}.

(** What one request sees of the outside: the clock ([time.time()], in
    seconds), whether the Redis calls succeed ([redis_available]:
    [get_redis_client] and [INCR] of the rate limiter; [redis_expire_ok]:
    its [EXPIRE], when called; [redis_setex_ok]: [get_redis_client] and
    [SETEX] of the result cache), the peer address, and the values that
    only fill the response's [meta]. *)
Record RequestContext := mkRequestContext {
  now : Q;
  redis_available : bool;
  redis_expire_ok : bool;
  redis_setex_ok : bool;
  client_host : string;
  request_id : string;
  processing_time : Z
}.

Inductive ApiResult :=
| RequestValidationError
| HTTPException (status_code : Z) (detail : string)
| Response (r : AnalyzeResponse).

Module Api.

(** [api/auth.py]: authentication is disabled, every call gets this key. *)
Definition verify_api_key : string := "no-auth-required".

Definition rate_limit_key (api_key client_ip : string) : string :=
  "rate_limit:" +:+ api_key +:+ ":" +:+ client_ip.

(** [f"risk_score:{request_data.userId}:{request_data.currentSession.ip}"] *)
Definition result_cache_key (request_data : AnalyzeRequest) : string :=
  "risk_score:" +:+ userId request_data +:+ ":" +:+ ip (currentSession request_data).

(** The [try] branch of [check_rate_limit]. *)
Definition check_rate_limit_redis (now : Q) (cache_key : string)
    (db : gmap string RedisEntry) : bool * gmap string RedisEntry :=
  let '(current, db1) := Redis.incr now db cache_key in
  let db2 := if current =? 1 then Redis.expire now db1 cache_key Settings.RATE_LIMIT_PERIOD
             else db1 in
  (current <=? Settings.RATE_LIMIT_REQUESTS, db2).

(** The [except] branch of [check_rate_limit]. *)
Definition check_rate_limit_memory (current_time : Q) (cache_key : string)
    (cache : gmap string (list Q)) : bool * gmap string (list Q) :=
  let entries := match cache !! cache_key with Some l => l | None => nil end in
  let kept :=
    List.filter (fun t => Qltb (current_time - t)%Q Settings.RATE_LIMIT_PERIOD) entries in
  let entries' := kept ++ current_time :: nil in
  (Z.of_nat (List.length entries') <=? Settings.RATE_LIMIT_REQUESTS,
   <[cache_key := entries']> cache).

(** [check_rate_limit].  The bare [except] runs the fallback when
    [get_redis_client] or [INCR] raises, Redis being unchanged, and also
    when [INCR] has stored the count 1 and [EXPIRE] raises. *)
Definition check_rate_limit (api_key : string) (ctx : RequestContext) (st : AppState)
    : bool * AppState :=
  let cache_key := rate_limit_key api_key (client_host ctx) in
  if redis_available ctx then
    if (fst (Redis.incr (now ctx) (redis_db st) cache_key) =? 1)
       && negb (redis_expire_ok ctx)
    then
      let db1 := snd (Redis.incr (now ctx) (redis_db st) cache_key) in
      let '(ok, cache) :=
        check_rate_limit_memory (now ctx) cache_key (rate_limit_cache st) in
      (ok, mkAppState db1 (redis_results st) cache (models st))
    else
      let '(ok, db) := check_rate_limit_redis (now ctx) cache_key (redis_db st) in
      (ok, mkAppState db (redis_results st) (rate_limit_cache st) (models st))
  else
    let '(ok, cache) := check_rate_limit_memory (now ctx) cache_key (rate_limit_cache st) in
    (ok, mkAppState (redis_db st) (redis_results st) cache (models st)).

(** The literals are [0.0], [37.4056], [-122.0775], [40.7128] and
    [-74.0060]. *)
Definition get_location_from_ip (ip : string) : Location :=
  if PyStr.startswith ip "192.168" || PyStr.startswith ip "10." then
    mkLocation "Private Network" "Local" (S754_zero false) (S754_zero false)
  else if PyStr.startswith ip "8.8" then
    mkLocation "United States" "Mountain View"
      (S754_finite false 5264370194424057 (-47)) (S754_finite true 8590440367348777 (-46))
  else
    mkLocation "United States" "New York"
      (S754_finite false 5729817215912798 (-47)) (S754_finite true 5207709281612202 (-46)).

(** [model.is_loaded or model.model is not None] on any stored object *)
Definition model_ready (m : RiskModel) : bool :=
  match m with
  | IPModel m => loaded_or_trained (IPRiskModel.base m)
  | DateTimeModel m => loaded_or_trained m
  | UserAgentModel m => loaded_or_trained m
  | GeolocationModel m => loaded_or_trained m
  end.

(** [health_check]: the two pings have been tried, [time_ms] is
    [int(time.time() * 1000)]. *)
Definition health_check (redis_ping mongodb_ping : bool) (time_ms : Z) (st : AppState)
    : HealthResponse :=
  let redis_connected := redis_ping in
  let mongodb_connected := mongodb_ping in
  let models_loaded := forallb model_ready (snd <$> map_to_list (models st)) in
  mkHealthResponse (if models_loaded then "healthy" else "degraded")
    time_ms Settings.VERSION models_loaded redis_connected mongodb_connected.

(** The module-level globals before [startup_event]: [models = {}],
    [rate_limit_cache = {}], and a Redis server without keys. *)
Definition initial_state : AppState := mkAppState ∅ ∅ ∅ ∅.

(** [BaseRiskModel.load_model] on a fresh detector: [file] is what
    [joblib.load] returns, [None] when the file is missing or unreadable
    (the caller logs and goes on). *)
Definition load_model {F : Type} (file : option F) (m : BaseRiskModel F) : BaseRiskModel F :=
  match file with
  | Some f => mkBaseRiskModel true (Some f)
  | None => m
  end.

(** [startup_event], lines 95-111. *)
Definition startup_event
    (ip_file : option IPRiskModel.Fitted)
    (datetime_file : option DateTimeRiskModel.Fitted)
    (useragent_file : option UserAgentRiskModel.Fitted)
    (geolocation_file : option GeolocationRiskModel.Fitted)
    (st : AppState) : AppState :=
  let ms :=
    <["geolocation" := GeolocationModel (load_model geolocation_file GeolocationRiskModel.init)]>
    (<["useragent" := UserAgentModel (load_model useragent_file UserAgentRiskModel.init)]>
    (<["datetime" := DateTimeModel (load_model datetime_file DateTimeRiskModel.init)]>
    (<["ip" := IPModel (IPRiskModel.mk (load_model ip_file (IPRiskModel.base IPRiskModel.init))
                                       (IPRiskModel.known_bad_ips IPRiskModel.init))]>
      (models st)))) in
  mkAppState (redis_db st) (redis_results st) (rate_limit_cache st) ms.

(** [RiskScores(...)]: the field constraints [ge=0, le=100]; [None] is the
    validation error. *)
Definition make_risk_scores (s_ip s_datetime s_userAgent s_geolocation s_overall : Z)
    : option RiskScores :=
  if forallb (fun s => (0 <=? s) && (s <=? 100))
       (s_ip :: s_datetime :: s_userAgent :: s_geolocation :: s_overall :: nil)
  then Some (mkRiskScores s_ip s_datetime s_userAgent s_geolocation s_overall)
  else None.

(** The four detectors are in the [models] dictionary. *)
Definition registered (st : AppState) : Prop :=
  is_Some (models st !! "ip") /\ is_Some (models st !! "datetime") /\
  is_Some (models st !! "useragent") /\ is_Some (models st !! "geolocation").

Section WithLibraries.

Variable ip_address : string -> option IPAddress.
Variable sanitize_str : string -> string.
Variable parse : string -> option ParsedUserAgent.
Variable local_hour : Z -> option Z.

(** pydantic's [EmailStr] check *)
Variable is_email : string -> bool.

(** The math functions of the platform *)
Variable math : MathLib.

(** [m.predict_risk(current_session, login_history)] *)
Definition predict_risk (m : RiskModel) (current_session : ModelInput)
    (login_history : list LoginHistoryItem) : Z :=
  match m with
  | IPModel m => IPRiskModel.predict_risk ip_address m current_session login_history
  | DateTimeModel m => DateTimeRiskModel.predict_risk local_hour m current_session login_history
  | UserAgentModel m => UserAgentRiskModel.predict_risk parse m current_session login_history
  | GeolocationModel m =>
      GeolocationRiskModel.predict_risk math m current_session login_history
  end.

(** [LoginHistoryItem.validate_login_status]: [v in ['success', 'failure']] *)
Definition validate_login_status (v : string) : bool :=
  PyStr.string_in v ("success" :: "failure" :: nil).

(** The request body as FastAPI validates it before the handler runs:
    [validate_login_status] on every history item,
    [AnalyzeRequest.validate_history_length] and [userId: EmailStr]. *)
Definition request_model_valid (request_data : AnalyzeRequest) : bool :=
  forallb (fun item => validate_login_status (h_loginStatus item)) (loginHistory request_data)
  && negb (1000 <? Z.of_nat (List.length (loginHistory request_data)))
  && is_email (userId request_data).

(** Lines 284-355 of [analyze_risk]: everything after the checks, inside
    the handler's [try]; [None] is an exception, answered with status
    500. *)
Definition score_request (request_data : AnalyzeRequest) (st : AppState)
    : option RiskScores :=
  let current_session_dict :=
    Validators.sanitize_session sanitize_str (currentSession request_data) in
  let login_history_dict :=
    List.map (Validators.sanitize_item sanitize_str) (loginHistory request_data) in
  let location := get_location_from_ip (ip current_session_dict) in
  let model_input := mkModelInput current_session_dict location login_history_dict in
  match models st !! "ip", models st !! "datetime",
        models st !! "useragent", models st !! "geolocation" with
  | Some m_ip, Some m_datetime, Some m_useragent, Some m_geolocation =>
      let s0 := predict_risk m_ip model_input login_history_dict in
      let s1 := predict_risk m_datetime model_input login_history_dict in
      let s2 := predict_risk m_useragent model_input login_history_dict in
      let s3 := predict_risk m_geolocation model_input login_history_dict in
      match Fusion.overall_score s0 s1 s2 s3 with
      | Some overall_score =>
          make_risk_scores (clamp s0) (clamp s1) (clamp s2) (clamp s3) (clamp overall_score)
      | None => None
      end
  | _, _, _, _ => None
  end.

(** Lines 371-381: the result cache, in its own [try]; a failure is
    logged and changes nothing. *)
Definition cache_result (request_data : AnalyzeRequest) (ctx : RequestContext)
    (risk_scores : RiskScores) (st : AppState) : AppState :=
  if redis_setex_ok ctx then
    mkAppState (redis_db st)
      (<[result_cache_key request_data
         := mkCachedScores risk_scores Settings.REDIS_CACHE_TTL]>
         (redis_results st))
      (rate_limit_cache st) (models st)
  else st.

(** [analyze_risk].  The write to MongoDB that follows the scoring is
    wrapped in its own [try] and changes neither the response nor the
    state. *)
Definition analyze_risk (request_data : AnalyzeRequest) (ctx : RequestContext)
    (st : AppState) : ApiResult * AppState :=
  if negb (request_model_valid request_data) then (RequestValidationError, st)
  else
    let api_key := verify_api_key in
    let '(allowed, st1) := check_rate_limit api_key ctx st in
    if negb allowed then (HTTPException 429 "Rate limit exceeded", st1)
    else if negb (Validators.validate_ip_address ip_address (ip (currentSession request_data)))
    then (HTTPException 400 "Invalid IP address", st1)
    else if negb (Validators.validate_timestamp (timestamp (currentSession request_data)))
    then (HTTPException 400 "Invalid timestamp", st1)
    else
      match score_request request_data st1 with
      | Some risk_scores =>
          (Response
             (mkAnalyzeResponse
                (mkResponseMeta (request_id ctx) (userId request_data)
                   (timestamp (currentSession request_data)) (processing_time ctx)
                   Settings.MODELS_VERSION)
                risk_scores),
           cache_result request_data ctx risk_scores st1)
      | None =>
          (HTTPException 500 "Internal server error during risk analysis", st1)
      end.

(** The request passes every check of the handler. *)
Definition accepted (request_data : AnalyzeRequest) (ctx : RequestContext) (st : AppState)
    : Prop :=
  request_model_valid request_data = true /\
  fst (check_rate_limit verify_api_key ctx st) = true /\
  Validators.validate_ip_address ip_address (ip (currentSession request_data)) = true /\
  Validators.validate_timestamp (timestamp (currentSession request_data)) = true.

End WithLibraries.

(** A validation error, as the client sees it: status 422 from the
    request model, status 400 from the handler's own checks. *)
Definition is_validation_error (r : ApiResult) : bool :=
  match r with
  | RequestValidationError => true
  | HTTPException code _ => code =? 400
  | Response _ => false
  end.

Definition is_rate_limited (r : ApiResult) : bool :=
  match r with
  | HTTPException code _ => code =? 429
  | _ => false
  end.

End Api.

(** ** What the specification says, where it differs from the code

    Each definition follows the words of the specification; the facts
    below compare it with the code. *)

Module Spec.

(** "overall = round(0.30 ip + 0.20 datetime + 0.25 userAgent
    + 0.25 geolocation), then clamped" *)
Definition overall (s_ip s_datetime s_userAgent s_geolocation : Z) : Z :=
  clamp (Fusion.round_half_even (Fusion.exact100 s_ip s_datetime s_userAgent s_geolocation)).

(** "+15 if 3-5 in the last 5 minutes" *)
Definition burst_raise (recent_count : Z) : Z :=
  if 5 <? recent_count then 30
  else if 3 <=? recent_count then 15
  else 0.


End Spec.

(** ** What the code does, in closed form *)

Module Closed.

(** The raises of the temporal rule layer. *)
Definition night_raise (hour : Z) : Z :=
  if (2 <=? hour) && (hour <=? 5) then 20 else 0.

Definition burst_raise (recent_count : Z) : Z :=
  if 5 <? recent_count then 30
  else if 3 <? recent_count then 15
  else 0.

Definition failure_raise (recent_failures : Z) : Z :=
  if 3 <? recent_failures then 20 else 0.

(** A non-empty list whose elements are all the same. *)
Definition all_equal (l : list Z) : bool :=
  match l with
  | nil => false
  | x :: l' => forallb (Z.eqb x) l'
  end.

Definition cadence_raise (login_history : list LoginHistoryItem) : Z :=
  if (5 <? Z.of_nat (List.length login_history))
     && all_equal (DateTimeRiskModel.recent_intervals login_history)
  then 25 else 0.

Definition temporal_raises (hour ts : Z) (login_history : list LoginHistoryItem) : Z :=
  night_raise hour
  + burst_raise (DateTimeRiskModel.recent_count ts login_history)
  + failure_raise (DateTimeRiskModel.recent_failures login_history)
  + cadence_raise login_history.

(** The decisions of a counter that admits the first hundred requests. *)
Definition first_hundred (n : nat) : list bool :=
  List.map (fun i => Z.of_nat i <? Settings.RATE_LIMIT_REQUESTS) (seq 0 n).

End Closed.

(** ** Runs of the rate limiter on one key

    [run_shared] answers every request from Redis, [run_memory] answers
    every request from the in-process fallback; [times] are the clock
    readings of the successive requests. *)

Module Runs.

Fixpoint run_shared (cache_key : string) (times : list Q) (db : gmap string RedisEntry)
    : list bool :=
  match times with
  | nil => nil
  | t :: times' =>
      let '(ok, db') := Api.check_rate_limit_redis t cache_key db in
      ok :: run_shared cache_key times' db'
  end.

Fixpoint run_memory (cache_key : string) (times : list Q) (cache : gmap string (list Q))
    : list bool :=
  match times with
  | nil => nil
  | t :: times' =>
      let '(ok, cache') := Api.check_rate_limit_memory t cache_key cache in
      ok :: run_memory cache_key times' cache'
  end.

End Runs.

(** ** A concrete deployment for the examples

    The libraries' answers on the inputs of the examples: the server's
    clock is UTC, the sanitiser leaves these strings as they are, the
    parser reports Chrome 120 (HeadlessChrome 120 for a headless agent)
    and no bot, and the addresses below are the ones [ipaddress] is asked
    about. *)

Module Example.

Definition ip_address (s : string) : option IPAddress :=
  if String.eqb s "73.45.123.45" then Some (mkIPAddress false "73.45.123.45")
  else if String.eqb s "104.16.1.1" then Some (mkIPAddress false "104.16.1.1")
  else if String.eqb s "192.168.1.1" then Some (mkIPAddress true "192.168.1.1")
  else None.

Definition sanitize_str (s : string) : string := s.

Definition parse (s : string) : option ParsedUserAgent :=
  if PyStr.contains "HeadlessChrome" s
  then Some (mkParsedUserAgent false "HeadlessChrome" (Some 120))
  else Some (mkParsedUserAgent false "Chrome" (Some 120)).

Definition local_hour (ts : Z) : option Z := Some ((ts / 3600000) mod 24).

Definition is_email (s : string) : bool := PyStr.contains "@" s.

Definition desktop_agent : string :=
  "Mozilla/5.0 (Windows NT 10.0; Win64; x64) AppleWebKit/537.36 (KHTML, like Gecko) Chrome/120.0.0.0 Safari/537.36".

Definition headless_agent : string :=
  "Mozilla/5.0 (X11; Linux x86_64) AppleWebKit/537.36 (KHTML, like Gecko) HeadlessChrome/120.0.0.0 Safari/537.36".

(** 2023-11-14 14:13:20 UTC *)
Definition afternoon : Z := 1699971200000.

Definition session (address agent : string) (ts : Z) : CurrentSession :=
  mkCurrentSession address agent ts None None None None None (Some nil) None None
    (Some nil) None None None None None None None.

(** [(40.7128, -74.0060)] *)
Definition new_york : Location :=
  mkLocation "United States" "New York"
    (S754_finite false 5729817215912798 (-47)) (S754_finite true 5207709281612202 (-46)).

(** [(51.5074, -0.1278)] *)
Definition london : Location :=
  mkLocation "United Kingdom" "London"
    (S754_finite false 7249022107713221 (-47)) (S754_finite true 4604480259023595 (-55)).

(** [(-40.71280018, 105.9940001)], in the Indian Ocean, next to the
    antipode of New York *)
Definition far_south : Location :=
  mkLocation "Australia" "At sea"
    (S754_finite true 5729817241245546 (-47)) (S754_finite false 7458664677404192 (-46)).

(** What CPython on x86-64 Linux (glibc) returns at the arguments the
    examples reach: [math.sin], [math.cos], [x ** 2] and [math.atan2] on
    the way from New York to itself, to each city of the analyzer's table
    and to [far_south], from London and from [far_south] to New York, and
    from (0, 0) to itself.  An argument that is not listed is outside the
    examples. *)
Definition sin_table : list (spec_float * spec_float) :=
  (S754_zero false, S754_zero false)
  :: (S754_finite true 6787872607826324 (-56), S754_finite true 6777838064994934 (-56))
  :: (S754_finite true 5807021683243417 (-53), S754_finite true 5413018789368274 (-53))
  :: (S754_finite false 6787872607826324 (-56), S754_finite false 6777838064994934 (-56))
  :: (S754_finite false 5807021683243417 (-53), S754_finite false 5413018789368274 (-53))
  :: (S754_finite true 6400267275276998 (-53), S754_finite true 5875105659996210 (-53))
  :: (S754_finite false 7074237755958572 (-52), S754_finite false 4503599627370496 (-52))
  :: (S754_finite false 6400267275276998 (-53), S754_finite false 5875105659996210 (-53))
  :: (S754_finite true 7074237755958572 (-52), S754_finite true 4503599627370496 (-52))
  :: (S754_finite true 6334241042109592 (-57), S754_finite true 6332201789379742 (-57))
  :: (S754_finite false 8396974796770632 (-52), S754_finite false 8621487363350904 (-53))
  :: (S754_finite true 5862310781407604 (-53), S754_finite true 5457107712662706 (-53))
  :: (S754_finite false 8851258764413394 (-52), S754_finite false 8315076144028732 (-53))
  :: (S754_finite true 4875879069264759 (-55), S754_finite true 4861009092475515 (-55))
  :: (S754_finite false 5080748994563502 (-52), S754_finite false 8139108494475301 (-53))
  :: (S754_finite true 6187709997472574 (-54), S754_finite true 6066751401026661 (-54))
  :: (S754_finite false 6988788820248106 (-52), S754_finite false 9005578040266357 (-53))
  :: (S754_finite true 7389654432598880 (-58), S754_finite true 7388844912998861 (-58))
  :: (S754_finite true 7610842266312302 (-54), S754_finite true 7386438266702549 (-54))
  :: (S754_finite false 5120993547108372 (-56), S754_finite false 5116683894674552 (-56))
  :: (S754_finite false 6001956234632645 (-53), S754_finite false 5567545263385229 (-53))
  :: (S754_finite true 6802838550803954 (-55), S754_finite true 6762488366911261 (-55))
  :: (S754_finite false 5772723420542332 (-52), S754_finite false 8633679631277565 (-53))
  :: (S754_finite true 8135436296946048 (-60), S754_finite true 8135368783428643 (-60))
  :: (S754_finite false 7483498126511624 (-52), S754_finite false 8970033690625118 (-53))
  :: nil.

Definition cos_table : list (spec_float * spec_float) :=
  (S754_finite false 6400267261128522 (-53), S754_finite false 6827354687175770 (-53))
  :: (S754_zero false, S754_finite false 4503599627370496 (-52))
  :: (S754_finite false 8097235413085103 (-53), S754_finite false 5606202901410215 (-53))
  :: (S754_finite true 6400267289425473 (-53), S754_finite false 6827354668718582 (-53))
  :: (S754_finite false 5608487130864823 (-53), S754_finite false 7316780818210318 (-53))
  :: (S754_finite true 5324354301686685 (-53), S754_finite false 7478820558082622 (-53))
  :: (S754_finite false 7924655452992285 (-54), S754_finite false 8149636237221926 (-53))
  :: (S754_finite false 6801832436990332 (-58), S754_finite false 9004691344548176 (-53))
  :: (S754_finite false 5938413859091092 (-53), S754_finite false 7119501396494942 (-53))
  :: (S754_finite false 7680515647905615 (-53), S754_finite false 5926249468810598 (-53))
  :: (S754_finite false 5997695971453090 (-54), S754_finite false 8512576959799808 (-53))
  :: (S754_finite false 6273151068988740 (-53), S754_finite false 6909585840190470 (-53))
  :: nil.

Definition pow_2_table : list (spec_float * spec_float) :=
  (S754_zero false, S754_zero false)
  :: (S754_finite true 6777838064994934 (-56), S754_finite false 5100263415524417 (-59))
  :: (S754_finite true 5413018789368274 (-53), S754_finite false 6506078434676871 (-54))
  :: (S754_finite false 6777838064994934 (-56), S754_finite false 5100263415524417 (-59))
  :: (S754_finite false 5413018789368274 (-53), S754_finite false 6506078434676871 (-54))
  :: (S754_finite true 5875105659996210 (-53), S754_finite false 7664283988821797 (-54))
  :: (S754_finite false 4503599627370496 (-52), S754_finite false 4503599627370496 (-52))
  :: (S754_finite false 5875105659996210 (-53), S754_finite false 7664283988821797 (-54))
  :: (S754_finite true 4503599627370496 (-52), S754_finite false 4503599627370496 (-52))
  :: (S754_finite true 6332201789379742 (-57), S754_finite false 8903273563159787 (-62))
  :: (S754_finite false 8621487363350904 (-53), S754_finite false 8252292666590591 (-53))
  :: (S754_finite true 5457107712662706 (-53), S754_finite false 6612493794211980 (-54))
  :: (S754_finite false 8315076144028732 (-53), S754_finite false 7676136535405634 (-53))
  :: (S754_finite true 4861009092475515 (-55), S754_finite false 5246782874197471 (-58))
  :: (S754_finite false 8139108494475301 (-53), S754_finite false 7354682094988796 (-53))
  :: (S754_finite true 6066751401026661 (-54), S754_finite false 8172456614077051 (-56))
  :: (S754_finite false 9005578040266357 (-53), S754_finite false 9003957117595678 (-53))
  :: (S754_finite true 7388844912998861 (-58), S754_finite false 6061265839057877 (-63))
  :: (S754_finite true 7386438266702549 (-54), S754_finite false 6057318010267183 (-55))
  :: (S754_finite false 5116683894674552 (-56), S754_finite false 5813228582512307 (-60))
  :: (S754_finite false 5567545263385229 (-53), S754_finite false 6882841021536756 (-54))
  :: (S754_finite true 6762488366911261 (-55), S754_finite false 5077188548764392 (-57))
  :: (S754_finite false 8633679631277565 (-53), S754_finite false 8275649496296235 (-53))
  :: (S754_finite true 8135368783428643 (-60), S754_finite false 7347925073107357 (-67))
  :: (S754_finite false 8970033690625118 (-53), S754_finite false 8933021479301492 (-53))
  :: nil.

Definition atan2_table : list ((spec_float * spec_float) * spec_float) :=
  ((S754_zero false, S754_finite false 4503599627370496 (-52)),
      S754_zero false)
  :: ((S754_finite false 7626634131185335 (-54), S754_finite false 8160162459894191 (-53)),
      S754_finite false 7875074723917356 (-54))
  :: ((S754_finite false 6776735659656639 (-53), S754_finite false 5933421627842132 (-53)),
      S754_finite false 7670987288339366 (-53))
  :: ((S754_finite false 8561248485975502 (-53), S754_finite false 5598093524045076 (-54)),
      S754_finite false 5651150003423454 (-52))
  :: ((S754_finite false 6849025381290260 (-53), S754_finite false 5849828180472353 (-53)),
      S754_finite false 7781503447907776 (-53))
  :: ((S754_finite false 8405799232743927 (-53), S754_finite false 6472148846684008 (-54)),
      S754_finite false 5419198923366862 (-52))
  :: ((S754_finite false 5735990368160241 (-54), S754_finite false 8538398095585607 (-53)),
      S754_finite false 5837623893998672 (-54))
  :: ((S754_finite false 7966939924218617 (-54), S754_finite false 8078465539666524 (-53)),
      S754_finite false 8252580743789631 (-54))
  :: ((S754_finite false 7500420442984674 (-53), S754_finite false 4987317073644333 (-53)),
      S754_finite false 8863004946588712 (-53))
  :: ((S754_finite false 6840302265187723 (-53), S754_finite false 5860025881809260 (-53)),
      S754_finite false 7768083839105470 (-53))
  :: nil.

Definition lookup {K : Type} (eqb : K -> K -> bool) (table : list (K * spec_float)) (k : K)
    : option spec_float :=
  match List.find (fun entry => eqb (fst entry) k) table with
  | Some entry => Some (snd entry)
  | None => None
  end.

Definition math : MathLib :=
  mkMathLib
    (lookup PyFloat.sf_eqb sin_table)
    (lookup PyFloat.sf_eqb cos_table)
    (fun y x =>
       lookup (fun p q => PyFloat.sf_eqb (fst p) (fst q) && PyFloat.sf_eqb (snd p) (snd q))
              atan2_table (y, x))
    (fun x y => if PyFloat.sf_eqb y PyMath.two then lookup PyFloat.sf_eqb pow_2_table x
                else None).

Definition login (ts : Z) (loc : Location) (st : string) : LoginHistoryItem :=
  mkLoginHistoryItem "73.45.123.45" desktop_agent ts loc st.

Definition request (address agent : string) (ts : Z) (history : list LoginHistoryItem)
    : AnalyzeRequest :=
  mkAnalyzeRequest (session address agent ts) history "user@example.com".

Definition context (t : Q) (redis_up : bool) : RequestContext :=
  mkRequestContext t redis_up redis_up redis_up "203.0.113.7" "req_0123456789ab" 12.

(** A request at second 0 during which Redis answers [INCR] and fails on
    [EXPIRE] and [SETEX]. *)
Definition expire_fails : RequestContext :=
  mkRequestContext 0%Q true false false "203.0.113.7" "req_0123456789ab" 12.

(** No model file on disk: every detector stays unloaded. *)
Definition unloaded_state : AppState :=
  Api.startup_event None None None None Api.initial_state.

(** [-0.5], [0.875], [0.0] and [1.0] *)
Definition minus_half : spec_float := S754_finite true 4503599627370496 (-53).
Definition f_0_875 : spec_float := S754_finite false 7881299347898368 (-53).
Definition f_zero : spec_float := S754_zero false.
Definition f_one : spec_float := S754_finite false 4503599627370496 (-52).

(** An SVM that calls every input an outlier with decision score 0.875:
    [int(70 - 0.875 * 20) = 52]. *)
Definition svm_outlier : IPRiskModel.Fitted :=
  fun _ _ _ => SVMResult (-1) f_0_875.

(** A forest that calls every input normal with anomaly score -0.5:
    [int(15 + 0.5 * 15) = 22]. *)
Definition forest_normal : DateTimeRiskModel.Fitted :=
  fun _ _ => IForestResult 1 minus_half.

(** An autoencoder that reconstructs every input exactly:
    [int(30 * (0.0 / 1.0)) = 0]. *)
Definition autoencoder_exact : UserAgentRiskModel.Fitted :=
  fun _ _ => AEResult f_zero f_one f_one.

(** A clustering without core samples: base risk 50. *)
Definition dbscan_no_core : GeolocationRiskModel.Fitted :=
  fun _ _ _ => DBSCANNoCoreSamples.

(** 2023-11-14 03:13:20 UTC *)
Definition night : Z := 1699931600000.

(** Three logins in the three minutes before [ts], one a minute. *)
Definition three_recent (ts : Z) : list LoginHistoryItem :=
  login (ts - 180000) new_york success :: login (ts - 120000) new_york success
  :: login (ts - 60000) new_york success :: nil.

(** Six logins in the minute before [ts], ten seconds apart, four of them
    failed. *)
Definition burst (ts : Z) : list LoginHistoryItem :=
  login (ts - 60000) new_york failure :: login (ts - 50000) new_york failure
  :: login (ts - 40000) new_york failure :: login (ts - 30000) new_york failure
  :: login (ts - 20000) new_york success :: login (ts - 10000) new_york success :: nil.

(** A detector whose forest is [forest_normal], trained in process. *)
Definition datetime_trained : DateTimeRiskModel.t :=
  mkBaseRiskModel false (Some forest_normal).

Definition input (address agent : string) (ts : Z) (loc : Location)
    (history : list LoginHistoryItem) : ModelInput :=
  mkModelInput (session address agent ts) loc history.

(** A detector whose autoencoder is [autoencoder_exact], trained in
    process. *)
Definition useragent_trained : UserAgentRiskModel.t :=
  mkBaseRiskModel false (Some autoencoder_exact).

(** A detector whose clustering is [dbscan_no_core], trained in
    process. *)
Definition geolocation_trained : GeolocationRiskModel.t :=
  mkBaseRiskModel false (Some dbscan_no_core).

(** Scenario S5: the last login, 42 minutes before the session, is in
    New York; the session's address geolocates to London. *)
Definition s5_history : list LoginHistoryItem :=
  login (afternoon - 2520000) new_york success :: nil.

Definition s5_input : ModelInput :=
  input "73.45.123.45" desktop_agent afternoon london s5_history.

(** A login at the very millisecond of the session. *)
Definition same_instant_history : list LoginHistoryItem :=
  login afternoon new_york success :: nil.

(** A history whose one item carries a login status the request model
    does not know. *)
Definition pending_history : list LoginHistoryItem :=
  login (afternoon - 2520000) new_york "pending" :: nil.

(** The shared counter of the example peer has reached the limit and
    its window is still open at time 0. *)
Definition exhausted_state : AppState :=
  mkAppState
    {[ Api.rate_limit_key Api.verify_api_key "203.0.113.7" := mkRedisEntry 100 (Some 60%Q) ]}
    ∅ ∅ (models unloaded_state).

(** One request at second 0, ninety-nine at second 59, two at second 61. *)
Definition straddling_times : list Q :=
  0%Q :: repeat 59%Q 99 ++ 61%Q :: 61%Q :: nil.

(** No model file on disk, and [train] has run on the address detector in
    this process: its scaler is fitted and its model set, [is_loaded]
    stays [False]. *)
Definition ip_trained_state : AppState :=
  mkAppState ∅ ∅ ∅
    (<["ip" := IPModel (IPRiskModel.mk (mkBaseRiskModel false (Some svm_outlier)) ∅)]>
       (models unloaded_state)).

End Example.

(** ** The fallback limiter read as a sliding window

    [decisions seen times]: each request is admitted when at most a
    hundred of the requests so far, itself included, were made less than
    60 seconds before it. *)

Module Sliding.

Definition within (t x : Q) : bool := Qltb (t - x)%Q Settings.RATE_LIMIT_PERIOD.

Fixpoint decisions (seen times : list Q) : list bool :=
  match times with
  | nil => nil
  | t :: times' =>
      (Z.of_nat (List.length (List.filter (within t) (seen ++ t :: nil)))
       <=? Settings.RATE_LIMIT_REQUESTS)
      :: decisions (seen ++ t :: nil) times'
  end.

End Sliding.

(** ** [ml_models/ip_model.py], [extract_features] (lines 33-93) *)

(** What [ipaddress.ip_address] returns, with the attributes the feature
    extraction reads; [obj_text] is [str(ip_obj)]. *)
Record IPObject := mkIPObject {
  obj_is_private : bool;
  obj_is_loopback : bool;
  obj_is_multicast : bool;
  obj_is_reserved : bool;
  obj_version : Z;
  obj_text : string
}.

(** The dictionary [data]: [data_timestamp] is [data.get('timestamp', 0)],
    [data_login_history] is [None] when the key is absent. *)
Record IPData := mkIPData {
  data_ip : string;
  data_timestamp : Z;
  data_login_history : option (list LoginHistoryItem)
}.

Module IPFeatures.

(** [1 if b else 0] *)
Definition flag (b : bool) : Z := if b then 1 else 0.

Definition is_datacenter (ip_obj : IPObject) : bool :=
  let octet := PyStr.before_dot (obj_text ip_obj) in
  if obj_version ip_obj =? 4 then
    PyStr.string_in octet ("104" :: "172" :: "192" :: nil)
    || (String.eqb octet "10" && negb (obj_is_private ip_obj))
  else false.

Definition recent_ips (current_time : Z) (login_history : list LoginHistoryItem)
    : list string :=
  List.map h_ip
    (List.filter (fun item => current_time - h_timestamp item <? 86400000) login_history).

Section WithLibraries.

(** [ipaddress.ip_address]; [None] when it raises [ValueError]. *)
Variable ip_object : string -> option IPObject.

(** The row of the returned array; the [except] branch gives ten zeros. *)
Definition extract_features (known_bad_ips : gset string) (data : IPData) : list Z :=
  let ip := data_ip data in
  match ip_object ip with
  | None => repeat 0 10
  | Some ip_obj =>
      flag (obj_is_private ip_obj)
      :: flag (obj_is_loopback ip_obj)
      :: flag (obj_is_multicast ip_obj)
      :: flag (obj_is_reserved ip_obj)
      :: flag (obj_version ip_obj =? 6)
      :: flag (is_datacenter ip_obj)
      :: match data_login_history data with
         | Some login_history =>
             PyList.distinct_strings (List.map h_ip login_history)
             :: flag (PyStr.string_in ip (List.map h_ip login_history)) :: nil
         | None => 0 :: 0 :: nil
         end
      ++ flag (bool_decide (ip ∈ known_bad_ips))
      :: match data_login_history data with
         | Some login_history =>
             PyList.distinct_strings (recent_ips (data_timestamp data) login_history)
         | None => 0
         end
      :: nil
  end.

End WithLibraries.

End IPFeatures.

(** A location dictionary whose keys may be missing. *)
Record LocationDict := mkLocationDict {
  ld_country : option string;
  ld_city : option string;
  ld_latitude : option spec_float;
  ld_longitude : option spec_float
}.

Definition location_dict (l : Location) : LocationDict :=
  mkLocationDict (Some (country l)) (Some (city l)) (Some (latitude l)) (Some (longitude l)).

(** ** [api/validators.py], [validate_location] (lines 49-69) *)

Module LocationValidator.

(** [not location.get(key)]: the key is missing or the string is empty. *)
Definition missing (s : option string) : bool :=
  match s with
  | Some s => String.eqb s ""
  | None => true
  end.

Definition validate_location (location : LocationDict) : bool :=
  match ld_latitude location, ld_longitude location with
  | Some lat, Some lon =>
      if negb (PyMath.float_le (float_lit (-90)) lat && PyMath.float_le lat (float_lit 90))
         || negb (PyMath.float_le (float_lit (-180)) lon
                  && PyMath.float_le lon (float_lit 180))
      then false
      else if missing (ld_country location) || missing (ld_city location) then false
      else true
  | _, _ => false
  end.

End LocationValidator.

(** ** [utils/geo_utils.py], the other methods of [GeoLocationAnalyzer] *)

Record LocationPattern := mkLocationPattern {
  unique_countries : Z;
  unique_cities : Z;
  max_distance : spec_float;
  total_distance : spec_float;
  suspicious_pattern : bool
}.

Module GeoPatterns.

(** [self.major_cities], in the order of the dictionary: the doubles of
    [(40.7128, -74.0060)], [(51.5074, -0.1278)], [(35.6762, 139.6503)],
    [(-33.8688, 151.2093)], [(25.2048, 55.2708)], [(1.3521, 103.8198)],
    [(37.7749, -122.4194)], [(48.8566, 2.3522)], [(19.0760, 72.8777)]
    and [(39.9042, 116.4074)]. *)
Definition major_cities : list (string * (spec_float * spec_float)) :=
  ("New York",
   (S754_finite false 5729817215912798 (-47), S754_finite true 5207709281612202 (-46)))
  :: ("London",
      (S754_finite false 7249022107713221 (-47), S754_finite true 4604480259023595 (-55)))
  :: ("Tokyo",
      (S754_finite false 5020978782062353 (-47), S754_finite false 4913508117517015 (-45)))
  :: ("Sydney",
      (S754_finite true 4766609845608933 (-47), S754_finite false 5320204274491825 (-45)))
  :: ("Dubai",
      (S754_finite false 7094520492996742 (-48), S754_finite false 7778673571389663 (-47)))
  :: ("Singapore",
      (S754_finite false 6089317056167648 (-52), S754_finite false 7305668946776241 (-46)))
  :: ("San Francisco",
      (S754_finite false 5316344548873680 (-47), S754_finite true 8614499440983120 (-46)))
  :: ("Paris",
      (S754_finite false 6875955173580918 (-47), S754_finite false 5296683521750440 (-51)))
  :: ("Mumbai",
      (S754_finite false 5369416655732474 (-48), S754_finite false 5128312227556544 (-46)))
  :: ("Beijing",
      (S754_finite false 5616016882828680 (-47), S754_finite false 8191442550987004 (-46)))
  :: nil.

(** Lines 176-178 *)
Definition validate_coordinates (lat lon : spec_float) : bool :=
  (PyMath.float_le (float_lit (-90)) lat && PyMath.float_le lat (float_lit 90))
  && (PyMath.float_le (float_lit (-180)) lon && PyMath.float_le lon (float_lit 180)).

(** [max(m, d)]: the first argument unless the second is larger. *)
Definition py_max (m d : spec_float) : spec_float :=
  if PyMath.float_gt d m then d else m.

(** Lines 145-149: a long, a short and a long step in a row. *)
Fixpoint long_short_long (distances : list spec_float) : bool :=
  match distances with
  | a :: ((b :: c :: _) as rest) =>
      (PyMath.float_gt c (float_lit 1000) && PyMath.float_gt a (float_lit 1000)
       && PyMath.float_lt b (float_lit 100))
      || long_short_long rest
  | _ => false
  end.

Definition present (keys : list (option string)) : list string :=
  omap (fun k => k) keys.

Section WithLibraries.

Variable math : MathLib.

(** One turn of the loop of lines 164-168; [None] is an exception of the
    distance. *)
Definition nearer (lat lon : spec_float) (acc : spec_float * option string)
    (entry : string * (spec_float * spec_float)) : option (spec_float * option string) :=
  let '(city, (city_lat, city_lon)) := entry in
  distance ← GeoLocationAnalyzer.haversine_distance math lat lon city_lat city_lon;
  Some (if PyMath.float_lt distance (fst acc) then (distance, Some city) else acc).

Fixpoint scan (lat lon : spec_float) (cities : list (string * (spec_float * spec_float)))
    (acc : spec_float * option string) : option (spec_float * option string) :=
  match cities with
  | nil => Some acc
  | entry :: rest => acc' ← nearer lat lon acc entry; scan lat lon rest acc'
  end.

(** Lines 159-174, over any table of cities; [min_distance] starts as
    [float('inf')].  The outer [None] is an exception. *)
Definition nearest_city (cities : list (string * (spec_float * spec_float)))
    (lat lon : spec_float) : option (option string) :=
  found ← scan lat lon cities (PyMath.inf, None);
  Some (if PyMath.float_lt (fst found) (float_lit 50) then snd found else None).

Definition get_city_from_coordinates (lat lon : spec_float) : option (option string) :=
  nearest_city major_cities lat lon.

(** The distance of one step of the history: [Some None] when one of the
    two entries has no latitude; [None] for an exception: the [KeyError]
    of an entry with a latitude and no longitude, or an exception of the
    distance. *)
Definition hop (prev loc : LocationDict) : option (option spec_float) :=
  match ld_latitude loc, ld_latitude prev with
  | Some lat2, Some lat1 =>
      match ld_longitude prev, ld_longitude loc with
      | Some lon1, Some lon2 =>
          d ← GeoLocationAnalyzer.haversine_distance math lat1 lon1 lat2 lon2;
          Some (Some d)
      | _, _ => None
      end
  | _, _ => Some None
  end.

(** The distances between consecutive located entries. *)
Fixpoint hops (locations : list LocationDict) : option (list spec_float) :=
  match locations with
  | prev :: ((loc :: _) as rest) =>
      match hop prev loc, hops rest with
      | Some (Some d), Some ds => Some (d :: ds)
      | Some None, Some ds => Some ds
      | _, _ => None
      end
  | _ => Some nil
  end.

(** Lines 94-157; [None] is the exception that leaves the method. *)
Definition analyze_location_pattern (locations : list LocationDict)
    : option LocationPattern :=
  match locations with
  | nil => Some (mkLocationPattern 0 0 PyMath.zero PyMath.zero false)
  | _ =>
      match hops locations with
      | None => None
      | Some distances =>
          let countries := PyList.distinct_strings (present (List.map ld_country locations)) in
          let cities := PyList.distinct_strings (present (List.map ld_city locations)) in
          let suspicious :=
            (5 <? countries)
            || ((2 <? Z.of_nat (List.length locations))
                && (3 <? Z.of_nat (List.length distances))
                && long_short_long distances) in
          Some (mkLocationPattern countries cities
                  (fold_left py_max distances PyMath.zero)
                  (fold_left PyFloat.fadd distances PyMath.zero)
                  suspicious)
      end
  end.

End WithLibraries.

End GeoPatterns.

(** ** [ml_models/base_model.py], [save_model] and [load_model]
    (lines 39-60)

    [files] maps the path of every model file to the object pickled in
    it: [None] for a detector that was never trained.  Only [self.model]
    is written; the scaler of a detector is not. *)

Inductive PyError := ValueError | FileNotFoundError | OSError.

Record StoredModel (F : Type) := mkStoredModel {
  model_path : option string;
  detector : BaseRiskModel F
}.
Arguments mkStoredModel {F} _ _.
Arguments model_path {F} _.
Arguments detector {F} _.

Module Persistence.

(** [s] when it is a non-empty string *)
Definition truthy (s : option string) : option string :=
  match s with
  | Some p => if String.eqb p "" then None else Some p
  | None => None
  end.

(** [path or self.model_path], [None] when the result is falsy *)
Definition chosen_path (path model_path : option string) : option string :=
  match truthy path with
  | Some p => Some p
  | None => truthy model_path
  end.

(** [os.path.dirname(p) == ''] : the path has no directory part, and
    [os.makedirs('')] raises [FileNotFoundError]. *)
Definition bare_name (p : string) : bool := negb (PyStr.contains "/" p).

Section WithSystem.

(** Whether [os.makedirs] on the directory part and [joblib.dump] to the
    path succeed. *)
Variable writable : string -> bool.

Definition save_model {F : Type} (path : option string) (m : StoredModel F)
    (files : gmap string (option F)) : PyError + gmap string (option F) :=
  match chosen_path path (model_path m) with
  | None => inl ValueError
  | Some save_path =>
      if bare_name save_path then inl FileNotFoundError
      else if writable save_path then inr (<[save_path := model (detector m)]> files)
      else inl OSError
  end.

End WithSystem.

Definition load_model {F : Type} (path : option string) (m : StoredModel F)
    (files : gmap string (option F)) : PyError + StoredModel F :=
  match chosen_path path (model_path m) with
  | None => inl ValueError
  | Some load_path =>
      match files !! load_path with
      | None => inl FileNotFoundError
      | Some content => inr (mkStoredModel (model_path m) (mkBaseRiskModel true content))
      end
  end.

End Persistence.

(** ** More of the concrete deployment *)

Module Example2.

(** A clustering that places every input at distance 1000.0 from its
    core samples; [np.exp(-1000.0)] is [0.0]:
    [30 + int(70 * (1 - 0.0)) = 100]. *)
Definition dbscan_far : GeolocationRiskModel.Fitted :=
  fun _ _ _ => DBSCANDistance (float_lit 1000) Example.f_zero.

Definition geolocation_far : GeolocationRiskModel.t :=
  mkBaseRiskModel false (Some dbscan_far).

(** An SVM that calls every input normal with decision score 0.875:
    [int(30 - 0.875 * 10) = 21]. *)
Definition svm_inlier : IPRiskModel.Fitted :=
  fun _ _ _ => SVMResult 1 Example.f_0_875.

Definition ip_trained (bad : gset string) : IPRiskModel.t :=
  IPRiskModel.mk (mkBaseRiskModel false (Some svm_inlier)) bad.

Definition short_agent : string := "curl/7.64.1".

(** A history whose one login, 42 minutes before the session, is next to
    the antipode of New York. *)
Definition far_south_history : list LoginHistoryItem :=
  Example.login (Example.afternoon - 2520000) Example.far_south success :: nil.

End Example2.

(** * Part II. Facts about the embedding *)

(** ** Clamping and the loaded test *)

Lemma clamp_range (x : Z) : 0 <= clamp x <= 100.
Proof. unfold clamp. lia. Qed.

Lemma clamp_id (x : Z) : 0 <= x <= 100 -> clamp x = x.
Proof. unfold clamp. lia. Qed.

Lemma clamp_idem (x : Z) : clamp (clamp x) = clamp x.
Proof. unfold clamp. lia. Qed.

Lemma not_loaded_negb {F : Type} (m : BaseRiskModel F) :
not_loaded m = negb (loaded_or_trained m).
Proof. unfold not_loaded, loaded_or_trained. destruct (is_loaded m), (model m); reflexivity. Qed.

(** ** Floats and score fusion *)

Module FusionFacts.
Import PyFloat Fusion.

Lemma sf_eqb_eq (x y : spec_float) : sf_eqb x y = true -> x = y.
Proof.
  destruct x, y; simpl; try discriminate; intros H.
  - apply Bool.eqb_prop in H. congruence.
  - apply Bool.eqb_prop in H. congruence.
  - reflexivity.
  - apply andb_prop in H as [H He]. apply andb_prop in H as [Hs Hm].
    apply Bool.eqb_prop in Hs. apply Pos.eqb_eq in Hm. apply Z.eqb_eq in He.
    congruence.
Qed.

(** A decimal literal is read as the nearest double, which is what the
    correctly rounded division of its numerator by its denominator
    gives. *)
Lemma weights_are_the_literals :
  Settings.IP_WEIGHT = PyFloat.fdiv (PyFloat.float_of_int 30) (PyFloat.float_of_int 100) /\
  Settings.DATETIME_WEIGHT = PyFloat.fdiv (PyFloat.float_of_int 20) (PyFloat.float_of_int 100) /\
  Settings.USERAGENT_WEIGHT = PyFloat.fdiv (PyFloat.float_of_int 25) (PyFloat.float_of_int 100) /\
  Settings.GEOLOCATION_WEIGHT = PyFloat.fdiv (PyFloat.float_of_int 25) (PyFloat.float_of_int 100).
Proof. repeat split; vm_compute; reflexivity. Qed.

Lemma tagged_eqb_eq (p q : tagged) : tagged_eqb p q = true -> p = q.
Proof.
  destruct p as [a x], q as [b y]. unfold tagged_eqb. simpl. intros H.
  apply andb_prop in H as [H1 H2].
  apply Z.eqb_eq in H1. apply sf_eqb_eq in H2. congruence.
Qed.

Lemma tmem_sound (p : tagged) (t : table) :
  tmem p t = true -> In p (telems t).
Proof.
  unfold tmem, telems. destruct (PositiveMap.find _ t) as [l|] eqn:E; [|discriminate].
  intros H. apply existsb_exists in H as (q & Hq & Heq).
  apply tagged_eqb_eq in Heq. subst q.
  apply in_flat_map. exists (key (fst p), l). split; [|exact Hq].
  apply PositiveMap.elements_correct. exact E.
Qed.

Lemma covers_sound (src ts : list tagged) (t : table) (p q : tagged) :
  covers src ts t = true -> In p src -> In q ts -> In (plus p q) (telems t).
Proof.
  unfold covers. intros H Hp Hq.
  rewrite forallb_forall in H. specialize (H p Hp).
  rewrite forallb_forall in H. apply tmem_sound, H, Hq.
Qed.

Lemma in_score_range (s : Z) : 0 <= s <= 100 -> In s score_range.
Proof.
  intros H. unfold score_range. apply in_map_iff.
  exists (Z.to_nat s). split; [lia|]. apply in_seq. lia.
Qed.

Lemma in_terms (w : Z) (wf : spec_float) (s : Z) :
  0 <= s <= 100 -> In (w * s, int_times_float s wf) (terms w wf).
Proof.
  intros H. unfold terms. apply in_map_iff. exists s.
  split; [reflexivity | apply in_score_range, H].
Qed.

Lemma covers_two : covers terms_ip terms_datetime table_two = true.
Proof. vm_compute. reflexivity. Qed.

Lemma covers_three : covers (telems table_two) terms_useragent table_three = true.
Proof. vm_compute. reflexivity. Qed.

Lemma covers_four :
  forallb (fun p => forallb (fun q => final_ok (plus p q)) terms_geolocation)
          (telems table_three) = true.
Proof. vm_compute. reflexivity. Qed.

Lemma overall_score_total (s0 s1 s2 s3 : Z) :
  0 <= s0 <= 100 -> 0 <= s1 <= 100 -> 0 <= s2 <= 100 -> 0 <= s3 <= 100 ->
  exists z, overall_score s0 s1 s2 s3 = Some z /\ 0 <= z <= 100 /\
            (z = exact100 s0 s1 s2 s3 / 100 \/ z = exact100 s0 s1 s2 s3 / 100 - 1).
Proof.
  intros H0 H1 H2 H3.
  pose proof (covers_sound _ _ _ _ _ covers_two
                (in_terms 30 Settings.IP_WEIGHT s0 H0)
                (in_terms 20 Settings.DATETIME_WEIGHT s1 H1)) as Ha.
  pose proof (covers_sound _ _ _ _ _ covers_three Ha
                (in_terms 25 Settings.USERAGENT_WEIGHT s2 H2)) as Hb.
  pose proof covers_four as Hc.
  rewrite forallb_forall in Hc. specialize (Hc _ Hb).
  rewrite forallb_forall in Hc.
  specialize (Hc _ (in_terms 25 Settings.GEOLOCATION_WEIGHT s3 H3)).
  unfold final_ok, plus in Hc. cbn [fst snd] in Hc.
  fold (weighted_sum s0 s1 s2 s3) in Hc.
  fold (overall_score s0 s1 s2 s3) in Hc.
  replace (30 * s0 + 20 * s1 + 25 * s2 + 25 * s3) with (exact100 s0 s1 s2 s3) in Hc
    by reflexivity.
  destruct (overall_score s0 s1 s2 s3) as [z|]; [|discriminate].
  apply andb_prop in Hc as [Hpos Hc]. apply Z.leb_le in Hpos.
  assert (Hq : 0 <= exact100 s0 s1 s2 s3 / 100 <= 100).
  { unfold exact100. split.
    - apply Z.div_pos; lia.
    - apply Z.div_le_upper_bound; lia. }
  exists z. split; [reflexivity|].
  apply orb_prop in Hc as [Hc|Hc]; apply Z.eqb_eq in Hc; split; auto; lia.
Qed.

End FusionFacts.

(** ** The four detectors: range and neutral score *)

Lemma or_default_50_range (body : option Z) :
  (forall s, body = Some s -> 0 <= s <= 100) -> 0 <= or_default_50 body <= 100.
Proof.
  intros H. destruct body as [s|]; simpl; [apply H; reflexivity | lia].
Qed.

Lemma ip_base_score_range (ip_address : string -> option IPAddress) (a : string) :
  0 <= IPRiskModel.base_score ip_address a <= 100.
Proof.
  unfold IPRiskModel.base_score.
  destruct (ip_address a) as [o|]; [|lia].
  destruct (negb (is_private o)); [|lia].
  destruct (PyStr.string_in _ _); lia.
Qed.

Lemma ip_risk_score_range (prediction : Z) (d : spec_float) (rs : Z) :
  IPRiskModel.risk_score prediction d = Some rs -> 0 <= rs <= 100.
Proof.
  unfold IPRiskModel.risk_score.
  destruct (prediction =? 1).
  - destruct (PyFloat.py_int _); [|discriminate]. intros [= <-]. lia.
  - destruct (PyFloat.py_int _); [|discriminate]. intros [= <-]. lia.
Qed.

Lemma ip_frequent_change_range (s t : Z) (h : list LoginHistoryItem) :
  0 <= s <= 100 -> 0 <= IPRiskModel.frequent_ip_change s t h <= 100.
Proof.
  intros Hs. unfold IPRiskModel.frequent_ip_change.
  destruct h; [lia|]. destruct (3 <? _); lia.
Qed.

Lemma ip_body_range (ip_address : string -> option IPAddress) (m : IPRiskModel.t)
    (fitted : option IPRiskModel.Fitted) (input : ModelInput)
    (h : list LoginHistoryItem) (s : Z) :
  IPRiskModel.predict_risk_body ip_address m fitted input h = Some s -> 0 <= s <= 100.
Proof.
  unfold IPRiskModel.predict_risk_body.
  destruct fitted as [f|]; [|discriminate].
  destruct (f _ _ _) as [|p d]; [discriminate|].
  destruct (bool_decide _); [intros [= <-]; lia|].
  destruct (IPRiskModel.risk_score p d) as [rs|] eqn:E; [|discriminate].
  intros [= <-]. apply ip_frequent_change_range.
  pose proof (ip_risk_score_range _ _ _ E).
  pose proof (ip_base_score_range ip_address (ip (mi_session input))). lia.
Qed.

Lemma datetime_base_range (p : Z) (a : spec_float) (b : Z) :
  DateTimeRiskModel.model_base_risk p a = Some b -> 0 <= b <= 100.
Proof.
  unfold DateTimeRiskModel.model_base_risk.
  destruct (if p =? 1 then _ else _); [|discriminate]. intros [= <-]. lia.
Qed.

Lemma datetime_rule_layer_range (hour ts : Z) (h : list LoginHistoryItem) (b : Z) :
  0 <= b <= 100 -> 0 <= DateTimeRiskModel.rule_layer hour ts h b <= 100.
Proof.
  intros Hb.
  unfold DateTimeRiskModel.rule_layer, DateTimeRiskModel.cadence_rule,
    DateTimeRiskModel.failure_rule, DateTimeRiskModel.burst_rule,
    DateTimeRiskModel.night_rule.
  repeat match goal with
         | |- context [if ?c then _ else _] => destruct c
         | |- context [match ?l with nil => _ | _ => _ end] => destruct l
         end; lia.
Qed.

Lemma datetime_body_range (local_hour : Z -> option Z)
    (fitted : option DateTimeRiskModel.Fitted) (input : ModelInput)
    (h : list LoginHistoryItem) (s : Z) :
  DateTimeRiskModel.predict_risk_body local_hour fitted input h = Some s -> 0 <= s <= 100.
Proof.
  unfold DateTimeRiskModel.predict_risk_body.
  destruct fitted as [f|]; [|discriminate].
  destruct (f _ _) as [|p a]; [discriminate|].
  destruct (DateTimeRiskModel.model_base_risk p a) as [b|] eqn:E; [|discriminate].
  destruct (local_hour _) as [hour|]; [|discriminate].
  intros [= <-]. apply datetime_rule_layer_range. eapply datetime_base_range, E.
Qed.

Lemma useragent_base_range (mse thr e : spec_float) (b : Z) :
  UserAgentRiskModel.model_base_risk mse thr e = Some b -> 0 <= b <= 100.
Proof.
  unfold UserAgentRiskModel.model_base_risk.
  destruct (if SFleb mse thr then _ else _); [|discriminate]. intros [= <-]. lia.
Qed.

Lemma useragent_rule_layer_range (ua : ParsedUserAgent) (ua_str : string)
    (touch : option bool) (h : list LoginHistoryItem) (b : Z) :
  0 <= b <= 100 -> 0 <= UserAgentRiskModel.rule_layer ua ua_str touch h b <= 100.
Proof.
  intros Hb.
  unfold UserAgentRiskModel.rule_layer, UserAgentRiskModel.history_rule,
    UserAgentRiskModel.touch_rule, UserAgentRiskModel.short_rule,
    UserAgentRiskModel.outdated_rule, UserAgentRiskModel.puppeteer_rule,
    UserAgentRiskModel.headless_rule, UserAgentRiskModel.bot_rule.
  destruct (browser_major ua) as [major|];
    [destruct (UserAgentRiskModel.outdated_browsers !! browser_family ua) as [minimum|]|];
  repeat match goal with
         | |- context [if ?c then _ else _] => destruct c
         | |- context [match ?l with nil => _ | _ => _ end] => destruct l
         end; lia.
Qed.

Lemma useragent_body_range (parse : string -> option ParsedUserAgent)
    (fitted : option UserAgentRiskModel.Fitted) (input : ModelInput)
    (h : list LoginHistoryItem) (s : Z) :
  UserAgentRiskModel.predict_risk_body parse fitted input h = Some s -> 0 <= s <= 100.
Proof.
  unfold UserAgentRiskModel.predict_risk_body.
  destruct fitted as [f|]; [|discriminate].
  destruct (f _ _) as [|mse thr e]; [discriminate|].
  destruct (UserAgentRiskModel.model_base_risk mse thr e) as [b|] eqn:E; [|discriminate].
  destruct (parse _) as [ua|]; [|discriminate].
  intros [= <-]. apply useragent_rule_layer_range. eapply useragent_base_range, E.
Qed.

Lemma bind_Some {A B : Type} (x : A) (f : A -> option B) : (Some x ≫= f) = f x.
Proof. reflexivity. Qed.

Lemma bind_None {A B : Type} (f : A -> option B) : (None ≫= f) = None.
Proof. reflexivity. Qed.

Lemma geolocation_base_range (r : dbscan_result) (b : Z) :
  GeolocationRiskModel.model_base_risk r = Some b -> 0 <= b <= 100.
Proof.
  unfold GeolocationRiskModel.model_base_risk.
  destruct (match r with DBSCANRaises => _ | _ => _ end); [|discriminate].
  intros [= <-]. lia.
Qed.

Lemma geolocation_travel_rule_range (speed : spec_float) (b : Z) :
  0 <= b <= 100 -> 0 <= GeolocationRiskModel.travel_rule speed b <= 100.
Proof.
  intros Hb. unfold GeolocationRiskModel.travel_rule.
  repeat match goal with |- context [if ?c then _ else _] => destruct c end; lia.
Qed.

Lemma geolocation_rule_layer_range (math : MathLib) (loc : Location) (ts : Z)
    (h : list LoginHistoryItem) (b s : Z) :
  0 <= b <= 100 ->
  GeolocationRiskModel.rule_layer math loc ts h b = Some s -> 0 <= s <= 100.
Proof.
  intros Hb. unfold GeolocationRiskModel.rule_layer, GeolocationRiskModel.high_risk_rule,
    GeolocationRiskModel.country_rule.
  destruct (PyList.max_by h_timestamp h) as [last|].
  - destruct (GeolocationRiskModel.detector_speed math loc ts last) as [speed|];
      [|discriminate].
    rewrite !bind_Some. intros [= <-].
    pose proof (geolocation_travel_rule_range speed b Hb).
    repeat match goal with |- context [if ?c then _ else _] => destruct c end; lia.
  - rewrite bind_Some. intros [= <-].
    match goal with |- context [if ?c then _ else _] => destruct c end; lia.
Qed.

Lemma geolocation_body_range (math : MathLib)
    (fitted : option GeolocationRiskModel.Fitted)
    (input : ModelInput) (h : list LoginHistoryItem) (s : Z) :
  GeolocationRiskModel.predict_risk_body math fitted input h = Some s -> 0 <= s <= 100.
Proof.
  unfold GeolocationRiskModel.predict_risk_body.
  destruct fitted as [f|]; [|discriminate].
  destruct (GeolocationRiskModel.model_base_risk _) as [b|] eqn:E; [|discriminate].
  apply geolocation_rule_layer_range. eapply geolocation_base_range, E.
Qed.

Lemma predict_risk_range (ip_address : string -> option IPAddress)
    (parse : string -> option ParsedUserAgent) (local_hour : Z -> option Z)
    (math : MathLib)
    (m : RiskModel) (input : ModelInput) (h : list LoginHistoryItem) :
  0 <= Api.predict_risk ip_address parse local_hour math m input h <= 100.
Proof.
  destruct m as [m|m|m|m]; simpl.
  - unfold IPRiskModel.predict_risk. destruct (not_loaded _); [lia|].
    apply or_default_50_range. intros s. apply ip_body_range.
  - unfold DateTimeRiskModel.predict_risk. destruct (not_loaded _); [lia|].
    apply or_default_50_range. intros s. apply datetime_body_range.
  - unfold UserAgentRiskModel.predict_risk. destruct (not_loaded _); [lia|].
    apply or_default_50_range. intros s. apply useragent_body_range.
  - unfold GeolocationRiskModel.predict_risk. destruct (not_loaded _); [lia|].
    apply or_default_50_range. intros s. apply geolocation_body_range.
Qed.

(** ** The scoring pipeline *)

Lemma check_rate_limit_models (api_key : string) (ctx : RequestContext) (st : AppState) :
  models (snd (Api.check_rate_limit api_key ctx st)) = models st.
Proof.
  unfold Api.check_rate_limit. destruct (redis_available ctx).
  - destruct (_ && _).
    + destruct (Api.check_rate_limit_memory _ _ _). reflexivity.
    + destruct (Api.check_rate_limit_redis _ _ _). reflexivity.
  - destruct (Api.check_rate_limit_memory _ _ _). reflexivity.
Qed.

Lemma make_risk_scores_some (a b c d e : Z) (rs : RiskScores) :
  Api.make_risk_scores a b c d e = Some rs ->
  rs = mkRiskScores a b c d e /\
  0 <= a <= 100 /\ 0 <= b <= 100 /\ 0 <= c <= 100 /\ 0 <= d <= 100 /\ 0 <= e <= 100.
Proof.
  unfold Api.make_risk_scores. destruct (forallb _ _) eqn:E; [|discriminate].
  intros [= <-]. split; [reflexivity|].
  rewrite forallb_forall in E.
  assert (H : forall s, In s (a :: b :: c :: d :: e :: nil) -> 0 <= s <= 100).
  { intros s Hs. specialize (E s Hs). apply andb_prop in E as [E1 E2]. lia. }
  pose proof (H a). pose proof (H b). pose proof (H c). pose proof (H d).
  pose proof (H e). simpl in *. intuition lia.
Qed.

Lemma make_risk_scores_clamped (a b c d e : Z) :
  Api.make_risk_scores (clamp a) (clamp b) (clamp c) (clamp d) (clamp e)
  = Some (mkRiskScores (clamp a) (clamp b) (clamp c) (clamp d) (clamp e)).
Proof.
  unfold Api.make_risk_scores.
  assert (E : forallb (fun s => (0 <=? s) && (s <=? 100))
                (clamp a :: clamp b :: clamp c :: clamp d :: clamp e :: nil) = true).
  { apply forallb_forall. intros s Hs.
    assert (0 <= s <= 100).
    { simpl in Hs. destruct Hs as [<-|[<-|[<-|[<-|[<-|[]]]]]]; apply clamp_range. }
    apply andb_true_intro. split; lia. }
  rewrite E. reflexivity.
Qed.

Section Pipeline.

Variable ip_address : string -> option IPAddress.
Variable sanitize_str : string -> string.
Variable parse : string -> option ParsedUserAgent.
Variable local_hour : Z -> option Z.
Variable is_email : string -> bool.
Variable math : MathLib.

Lemma score_request_spec (request_data : AnalyzeRequest) (st : AppState) (rs : RiskScores) :
  Api.score_request ip_address sanitize_str parse local_hour math request_data st = Some rs ->
  (0 <= score_ip rs <= 100 /\ 0 <= score_datetime rs <= 100 /\
   0 <= score_userAgent rs <= 100 /\ 0 <= score_geolocation rs <= 100 /\
   0 <= score_overall rs <= 100) /\
  exists z,
    Fusion.overall_score (score_ip rs) (score_datetime rs)
      (score_userAgent rs) (score_geolocation rs) = Some z /\
    score_overall rs = z /\
    (z = Fusion.exact100 (score_ip rs) (score_datetime rs)
           (score_userAgent rs) (score_geolocation rs) / 100 \/
     z = Fusion.exact100 (score_ip rs) (score_datetime rs)
           (score_userAgent rs) (score_geolocation rs) / 100 - 1).
Proof.
  unfold Api.score_request.
  destruct (models st !! "ip") as [m0|]; [|discriminate].
  destruct (models st !! "datetime") as [m1|]; [|discriminate].
  destruct (models st !! "useragent") as [m2|]; [|discriminate].
  destruct (models st !! "geolocation") as [m3|]; [|discriminate].
  set (input := mkModelInput _ _ _).
  set (h := List.map _ _).
  pose proof (predict_risk_range ip_address parse local_hour math m0 input h) as R0.
  pose proof (predict_risk_range ip_address parse local_hour math m1 input h) as R1.
  pose proof (predict_risk_range ip_address parse local_hour math m2 input h) as R2.
  pose proof (predict_risk_range ip_address parse local_hour math m3 input h) as R3.
  set (s0 := Api.predict_risk _ _ _ _ m0 _ _) in *.
  set (s1 := Api.predict_risk _ _ _ _ m1 _ _) in *.
  set (s2 := Api.predict_risk _ _ _ _ m2 _ _) in *.
  set (s3 := Api.predict_risk _ _ _ _ m3 _ _) in *.
  destruct (FusionFacts.overall_score_total s0 s1 s2 s3 R0 R1 R2 R3) as (z & Hz & Hr & Hd).
  rewrite Hz. rewrite !(clamp_id _ R0), !(clamp_id _ R1), !(clamp_id _ R2), !(clamp_id _ R3).
  intros H. apply make_risk_scores_some in H as (-> & B0 & B1 & B2 & B3 & B4).
  cbn [score_ip score_datetime score_userAgent score_geolocation score_overall].
  split; [repeat split; lia|].
  exists z. split; [assumption|]. split; [apply clamp_id; assumption | assumption].
Qed.

Lemma score_request_total (request_data : AnalyzeRequest) (st : AppState) :
  Api.registered st ->
  exists rs, Api.score_request ip_address sanitize_str parse local_hour math request_data st = Some rs.
Proof.
  intros ([m0 E0] & [m1 E1] & [m2 E2] & [m3 E3]).
  unfold Api.score_request. rewrite E0, E1, E2, E3.
  set (input := mkModelInput _ _ _).
  set (h := List.map _ _).
  pose proof (predict_risk_range ip_address parse local_hour math m0 input h) as R0.
  pose proof (predict_risk_range ip_address parse local_hour math m1 input h) as R1.
  pose proof (predict_risk_range ip_address parse local_hour math m2 input h) as R2.
  pose proof (predict_risk_range ip_address parse local_hour math m3 input h) as R3.
  destruct (FusionFacts.overall_score_total _ _ _ _ R0 R1 R2 R3) as (z & Hz & Hr & Hd).
  rewrite Hz. rewrite make_risk_scores_clamped. eauto.
Qed.

Lemma analyze_risk_response_inv (request_data : AnalyzeRequest) (ctx : RequestContext)
    (st st' : AppState) (resp : AnalyzeResponse) :
  Api.analyze_risk ip_address sanitize_str parse local_hour is_email math request_data ctx st
  = (Response resp, st') ->
  Api.accepted ip_address is_email request_data ctx st /\
  Api.score_request ip_address sanitize_str parse local_hour math request_data
    (snd (Api.check_rate_limit Api.verify_api_key ctx st)) = Some (scores resp).
Proof.
  unfold Api.analyze_risk, Api.accepted.
  destruct (Api.request_model_valid is_email request_data); [|discriminate].
  destruct (Api.check_rate_limit Api.verify_api_key ctx st) as [allowed st1].
  destruct allowed; [|discriminate]. simpl.
  destruct (Validators.validate_ip_address _ _); [|discriminate].
  destruct (Validators.validate_timestamp _); [|discriminate]. simpl.
  destruct (Api.score_request _ _ _ _ _ _ _) as [rs|]; [|discriminate].
  intros [= <- <-]. simpl. auto.
Qed.

Lemma analyze_risk_responds (request_data : AnalyzeRequest) (ctx : RequestContext)
    (st : AppState) :
  Api.accepted ip_address is_email request_data ctx st -> Api.registered st ->
  exists resp,
    Api.analyze_risk ip_address sanitize_str parse local_hour is_email math request_data ctx st
    = (Response resp,
       Api.cache_result request_data ctx (scores resp)
         (snd (Api.check_rate_limit Api.verify_api_key ctx st))).
Proof.
  intros (Hv & Hr & Hi & Ht) Hreg.
  unfold Api.analyze_risk. rewrite Hv. simpl.
  pose proof (check_rate_limit_models Api.verify_api_key ctx st) as Hm.
  destruct (Api.check_rate_limit Api.verify_api_key ctx st) as [allowed st1].
  simpl in Hr, Hm. subst allowed. simpl. rewrite Hi, Ht. simpl.
  assert (Hreg1 : Api.registered st1) by (unfold Api.registered; rewrite Hm; exact Hreg).
  destruct (score_request_total request_data st1 Hreg1) as [rs ->].
  eexists (mkAnalyzeResponse _ rs). reflexivity.
Qed.

End Pipeline.

(** ** C1 and C2: the scores of a response *)

(** C1, as the code has it.  For every request that passes the checks of
    the handler, with the four detectors registered, [analyze_risk]
    answers with a response whose overall score is the binary64 value of
    [ip * 0.30 + datetime * 0.20 + userAgent * 0.25 + geolocation * 0.25]
    (the factor scores of the same response, added left to right)
    truncated toward zero by [int]; it lies in [0,100] without clamping,
    and it is the floor of the exact weighted value or one less, never
    the rounding up. *)
Theorem C1_overall_is_truncated_float_sum
    (ip_address : string -> option IPAddress) (sanitize_str : string -> string)
    (parse : string -> option ParsedUserAgent) (local_hour : Z -> option Z)
    (is_email : string -> bool) (math : MathLib)
    (request_data : AnalyzeRequest) (ctx : RequestContext) (st : AppState) :
  Api.accepted ip_address is_email request_data ctx st ->
  Api.registered st ->
  exists resp st',
    Api.analyze_risk ip_address sanitize_str parse local_hour is_email math request_data ctx st
    = (Response resp, st') /\
    Fusion.overall_score (score_ip (scores resp)) (score_datetime (scores resp))
      (score_userAgent (scores resp)) (score_geolocation (scores resp))
    = Some (score_overall (scores resp)) /\
    score_overall (scores resp) = clamp (score_overall (scores resp)) /\
    (score_overall (scores resp)
     = Fusion.exact100 (score_ip (scores resp)) (score_datetime (scores resp))
         (score_userAgent (scores resp)) (score_geolocation (scores resp)) / 100
     \/
     score_overall (scores resp)
     = Fusion.exact100 (score_ip (scores resp)) (score_datetime (scores resp))
         (score_userAgent (scores resp)) (score_geolocation (scores resp)) / 100 - 1).
Proof.
  intros Hacc Hreg.
  destruct (analyze_risk_responds ip_address sanitize_str parse local_hour is_email math
              request_data ctx st Hacc Hreg) as [resp Hresp].
  exists resp, (Api.cache_result request_data ctx (scores resp)
                  (snd (Api.check_rate_limit Api.verify_api_key ctx st))).
  split; [exact Hresp|].
  apply analyze_risk_response_inv in Hresp as [_ Hs].
  apply score_request_spec in Hs as [(_ & _ & _ & _ & Ho) (z & Hz & Hzo & Hd)].
  subst z. split; [exact Hz|]. split; [symmetry; apply clamp_id, Ho | exact Hd].
Qed.

(** C2.  Whenever [analyze_risk] answers with a response, each of its
    five scores is an integer between 0 and 100. *)
Theorem C2_scores_in_range
    (ip_address : string -> option IPAddress) (sanitize_str : string -> string)
    (parse : string -> option ParsedUserAgent) (local_hour : Z -> option Z)
    (is_email : string -> bool) (math : MathLib)
    (request_data : AnalyzeRequest) (ctx : RequestContext) (st st' : AppState)
    (resp : AnalyzeResponse) :
  Api.analyze_risk ip_address sanitize_str parse local_hour is_email math request_data ctx st
  = (Response resp, st') ->
  0 <= score_ip (scores resp) <= 100 /\
  0 <= score_datetime (scores resp) <= 100 /\
  0 <= score_userAgent (scores resp) <= 100 /\
  0 <= score_geolocation (scores resp) <= 100 /\
  0 <= score_overall (scores resp) <= 100.
Proof.
  intros H. apply analyze_risk_response_inv in H as [_ Hs].
  apply score_request_spec in Hs as [Hr _]. exact Hr.
Qed.

(** C1 at a concrete request: a residential address, a desktop agent, no
    history, only the address detector trained. *)
Lemma C1_overall_is_truncated_float_sum_witness :
  Api.accepted Example.ip_address Example.is_email
    (Example.request "73.45.123.45" Example.desktop_agent Example.afternoon nil)
    (Example.context 0%Q true) Example.ip_trained_state /\
  Api.registered Example.ip_trained_state /\
  exists resp st',
    Api.analyze_risk Example.ip_address Example.sanitize_str Example.parse
      Example.local_hour Example.is_email Example.math
      (Example.request "73.45.123.45" Example.desktop_agent Example.afternoon nil)
      (Example.context 0%Q true) Example.ip_trained_state
    = (Response resp, st') /\
    Fusion.overall_score (score_ip (scores resp)) (score_datetime (scores resp))
      (score_userAgent (scores resp)) (score_geolocation (scores resp))
    = Some (score_overall (scores resp)) /\
    score_overall (scores resp) = clamp (score_overall (scores resp)) /\
    (score_overall (scores resp)
     = Fusion.exact100 (score_ip (scores resp)) (score_datetime (scores resp))
         (score_userAgent (scores resp)) (score_geolocation (scores resp)) / 100
     \/
     score_overall (scores resp)
     = Fusion.exact100 (score_ip (scores resp)) (score_datetime (scores resp))
         (score_userAgent (scores resp)) (score_geolocation (scores resp)) / 100 - 1).
Proof.
  assert (Ha : Api.accepted Example.ip_address Example.is_email
                 (Example.request "73.45.123.45" Example.desktop_agent Example.afternoon nil)
                 (Example.context 0%Q true) Example.ip_trained_state)
    by (repeat split; vm_compute; reflexivity).
  assert (Hr : Api.registered Example.ip_trained_state)
    by (repeat split; vm_compute; eexists; reflexivity).
  split; [exact Ha|]. split; [exact Hr|].
  exact (C1_overall_is_truncated_float_sum Example.ip_address Example.sanitize_str
           Example.parse Example.local_hour Example.is_email Example.math _ _ _ Ha Hr).
Defined.

(** C1 as stated fails: with factor scores 52, 50, 50 and 50 the exact
    weighted value is 50.6, which rounds to 51, and the response carries
    50. *)
Lemma C1_counterexample :
  exists resp,
    fst (Api.analyze_risk Example.ip_address Example.sanitize_str Example.parse
           Example.local_hour Example.is_email Example.math
           (Example.request "73.45.123.45" Example.desktop_agent Example.afternoon nil)
           (Example.context 0%Q true) Example.ip_trained_state)
    = Response resp /\
    scores resp = mkRiskScores 52 50 50 50 50 /\
    Spec.overall (score_ip (scores resp)) (score_datetime (scores resp))
      (score_userAgent (scores resp)) (score_geolocation (scores resp)) = 51 /\
    score_overall (scores resp)
    <> Spec.overall (score_ip (scores resp)) (score_datetime (scores resp))
         (score_userAgent (scores resp)) (score_geolocation (scores resp)).
Proof.
  eexists. split; [vm_compute; reflexivity|].
  split; [reflexivity|]. split; [vm_compute; reflexivity|].
  vm_compute. discriminate.
Qed.

(** The rounding of floats shows too: 6 * 0.30 + 1 * 0.20 is exactly 2,
    the float sum is 1.9999999999999998, and [int] gives 1. *)
Lemma overall_score_below_exact_floor :
  Fusion.overall_score 6 1 0 0 = Some 1 /\ Fusion.exact100 6 1 0 0 / 100 = 2.
Proof. split; vm_compute; reflexivity. Qed.

(** C2 at a concrete request: no model loaded, every factor is 50. *)
Lemma C2_scores_in_range_witness :
  Api.analyze_risk Example.ip_address Example.sanitize_str Example.parse
    Example.local_hour Example.is_email Example.math
    (Example.request "73.45.123.45" Example.desktop_agent Example.afternoon nil)
    (Example.context 0%Q false) Example.unloaded_state
  = (Response
       (mkAnalyzeResponse
          (mkResponseMeta "req_0123456789ab" "user@example.com" Example.afternoon 12
             Settings.MODELS_VERSION)
          (mkRiskScores 50 50 50 50 50)),
     snd (Api.check_rate_limit Api.verify_api_key (Example.context 0%Q false)
            Example.unloaded_state)) /\
  (0 <= 50 <= 100 /\ 0 <= 50 <= 100 /\ 0 <= 50 <= 100 /\ 0 <= 50 <= 100 /\ 0 <= 50 <= 100).
Proof.
  assert (H : Api.analyze_risk Example.ip_address Example.sanitize_str Example.parse
                Example.local_hour Example.is_email Example.math
                (Example.request "73.45.123.45" Example.desktop_agent Example.afternoon nil)
                (Example.context 0%Q false) Example.unloaded_state
              = (Response
                   (mkAnalyzeResponse
                      (mkResponseMeta "req_0123456789ab" "user@example.com"
                         Example.afternoon 12 Settings.MODELS_VERSION)
                      (mkRiskScores 50 50 50 50 50)),
                 snd (Api.check_rate_limit Api.verify_api_key (Example.context 0%Q false)
                        Example.unloaded_state)))
    by (vm_compute; reflexivity).
  split; [exact H|].
  exact (C2_scores_in_range Example.ip_address Example.sanitize_str Example.parse
           Example.local_hour Example.is_email Example.math _ _ _ _ _ H).
Defined.

(** ** C5: the neutral score *)

(** C5.  Whatever the libraries answer, each detector's [predict_risk]
    is a total function into the integers between 0 and 100; when the
    detector's model is not loaded, and when its [try] block raises, the
    score is exactly 50; and a request that passes the handler's checks
    is answered with a response whatever the detectors' state. *)
Theorem C5_detectors_bounded_and_neutral
    (ip_address : string -> option IPAddress) (sanitize_str : string -> string)
    (parse : string -> option ParsedUserAgent) (local_hour : Z -> option Z)
    (is_email : string -> bool) (math : MathLib)
    (current_session : ModelInput) (login_history : list LoginHistoryItem) :
  (forall m : IPRiskModel.t,
      0 <= IPRiskModel.predict_risk ip_address m current_session login_history <= 100 /\
      (not_loaded (IPRiskModel.base m) = true ->
       IPRiskModel.predict_risk ip_address m current_session login_history = 50) /\
      (IPRiskModel.predict_risk_body ip_address m (model (IPRiskModel.base m))
         current_session login_history = None ->
       IPRiskModel.predict_risk ip_address m current_session login_history = 50)) /\
  (forall m : DateTimeRiskModel.t,
      0 <= DateTimeRiskModel.predict_risk local_hour m current_session login_history <= 100 /\
      (not_loaded m = true ->
       DateTimeRiskModel.predict_risk local_hour m current_session login_history = 50) /\
      (DateTimeRiskModel.predict_risk_body local_hour (model m)
         current_session login_history = None ->
       DateTimeRiskModel.predict_risk local_hour m current_session login_history = 50)) /\
  (forall m : UserAgentRiskModel.t,
      0 <= UserAgentRiskModel.predict_risk parse m current_session login_history <= 100 /\
      (not_loaded m = true ->
       UserAgentRiskModel.predict_risk parse m current_session login_history = 50) /\
      (UserAgentRiskModel.predict_risk_body parse (model m)
         current_session login_history = None ->
       UserAgentRiskModel.predict_risk parse m current_session login_history = 50)) /\
  (forall m : GeolocationRiskModel.t,
      0 <= GeolocationRiskModel.predict_risk math m current_session login_history <= 100 /\
      (not_loaded m = true ->
       GeolocationRiskModel.predict_risk math m current_session login_history = 50) /\
      (GeolocationRiskModel.predict_risk_body math (model m)
         current_session login_history = None ->
       GeolocationRiskModel.predict_risk math m current_session login_history = 50)) /\
  (forall (request_data : AnalyzeRequest) (ctx : RequestContext) (st : AppState),
      Api.accepted ip_address is_email request_data ctx st ->
      Api.registered st ->
      exists resp st',
        Api.analyze_risk ip_address sanitize_str parse local_hour is_email math
          request_data ctx st = (Response resp, st')).
Proof.
  split; [|split; [|split; [|split]]].
  - intros m. split; [|split].
    + apply (predict_risk_range ip_address parse local_hour math (IPModel m)).
    + intros H. unfold IPRiskModel.predict_risk. rewrite H. reflexivity.
    + intros H. unfold IPRiskModel.predict_risk. rewrite H.
      destruct (not_loaded _); reflexivity.
  - intros m. split; [|split].
    + apply (predict_risk_range ip_address parse local_hour math (DateTimeModel m)).
    + intros H. unfold DateTimeRiskModel.predict_risk. rewrite H. reflexivity.
    + intros H. unfold DateTimeRiskModel.predict_risk. rewrite H.
      destruct (not_loaded _); reflexivity.
  - intros m. split; [|split].
    + apply (predict_risk_range ip_address parse local_hour math (UserAgentModel m)).
    + intros H. unfold UserAgentRiskModel.predict_risk. rewrite H. reflexivity.
    + intros H. unfold UserAgentRiskModel.predict_risk. rewrite H.
      destruct (not_loaded _); reflexivity.
  - intros m. split; [|split].
    + apply (predict_risk_range ip_address parse local_hour math (GeolocationModel m)).
    + intros H. unfold GeolocationRiskModel.predict_risk. rewrite H. reflexivity.
    + intros H. unfold GeolocationRiskModel.predict_risk. rewrite H.
      destruct (not_loaded _); reflexivity.
  - intros request_data ctx st Ha Hr.
    destruct (analyze_risk_responds ip_address sanitize_str parse local_hour is_email math
                request_data ctx st Ha Hr) as [resp H].
    eauto.
Qed.

(** ** C6: the temporal rule layer *)

Lemma forallb_false_witness {A : Type} (p : A -> bool) (l : list A) :
  forallb p l = false -> exists x, In x l /\ p x = false.
Proof.
  induction l as [|a l IH]; simpl; [discriminate|].
  destruct (p a) eqn:E; simpl.
  - intros H. destruct (IH H) as (x & Hx & Hp). eauto.
  - intros _. eauto.
Qed.

Lemma distinct_ints_one (l : list Z) :
  (PyList.distinct_ints l =? 1) = Closed.all_equal l.
Proof.
  unfold PyList.distinct_ints. destruct l as [|x l']; [reflexivity|].
  cbn [Closed.all_equal].
  destruct (forallb (Z.eqb x) l') eqn:E.
  - apply Z.eqb_eq. rewrite forallb_forall in E.
    assert (H : (list_to_set (x :: l') : gset Z) = {[x]}).
    { apply set_eq. intros y.
      rewrite elem_of_list_to_set, elem_of_singleton, elem_of_cons.
      split; [|intros ->; left; reflexivity].
      intros [->|Hy]; [reflexivity|].
      apply list_elem_of_In in Hy. apply E in Hy. apply Z.eqb_eq in Hy. auto. }
    rewrite H, size_singleton. reflexivity.
  - apply Z.eqb_neq. intros H.
    apply forallb_false_witness in E as (y & Hy & Hxy). apply Z.eqb_neq in Hxy.
    apply Hxy.
    apply (size_singleton_inv (list_to_set (x :: l') : gset Z)).
    + lia.
    + apply elem_of_list_to_set. left.
    + apply elem_of_list_to_set. right. apply list_elem_of_In. exact Hy.
Qed.

Lemma datetime_rule_layer_closed (hour ts : Z) (h : list LoginHistoryItem) (b : Z) :
  0 <= b <= 100 ->
  DateTimeRiskModel.rule_layer hour ts h b
  = Z.min 100 (b + Closed.temporal_raises hour ts h).
Proof.
  intros Hb.
  unfold DateTimeRiskModel.rule_layer, DateTimeRiskModel.cadence_rule,
    DateTimeRiskModel.failure_rule, DateTimeRiskModel.burst_rule,
    DateTimeRiskModel.night_rule, Closed.temporal_raises, Closed.night_raise,
    Closed.burst_raise, Closed.failure_raise, Closed.cadence_raise.
  rewrite distinct_ints_one.
  destruct h as [|a l].
  - change (DateTimeRiskModel.recent_count ts nil) with 0.
    change (DateTimeRiskModel.recent_failures nil) with 0.
    change (5 <? Z.of_nat (List.length (@nil LoginHistoryItem))) with false.
    cbn. destruct ((2 <=? hour) && (hour <=? 5)); lia.
  - set (h := a :: l).
    destruct ((2 <=? hour) && (hour <=? 5));
      destruct (5 <? DateTimeRiskModel.recent_count ts h);
      destruct (3 <? DateTimeRiskModel.recent_count ts h);
      destruct (3 <? DateTimeRiskModel.recent_failures h);
      destruct ((5 <? Z.of_nat (List.length h))
                && Closed.all_equal (DateTimeRiskModel.recent_intervals h));
      lia.
Qed.

(** C6, as the code has it.  When the temporal detector's model is
    loaded or trained and its [try] block does not raise, the score is the
    clamped model base score plus, capped at 100: 20 when the hour is in
    [2,5]; 30 when more than 5 history logins lie less than 5 minutes
    before the session's timestamp, 15 when 4 or 5 do; 20 when more than 3
    of the last 10 history items are failures; 25 when the history has
    more than 5 items and the 5 gaps between its last 6 items, sorted by
    time, are all equal. *)
Theorem C6_temporal_rule_layer
    (local_hour : Z -> option Z) (m : DateTimeRiskModel.t)
    (f : DateTimeRiskModel.Fitted) (current_session : ModelInput)
    (login_history : list LoginHistoryItem)
    (prediction : Z) (anomaly_score : spec_float) (base_risk hour : Z) :
  not_loaded m = false ->
  model m = Some f ->
  f (timestamp (mi_session current_session)) login_history
  = IForestResult prediction anomaly_score ->
  DateTimeRiskModel.model_base_risk prediction anomaly_score = Some base_risk ->
  local_hour (timestamp (mi_session current_session)) = Some hour ->
  0 <= base_risk <= 100 /\
  DateTimeRiskModel.predict_risk local_hour m current_session login_history
  = Z.min 100
      (base_risk
       + (Closed.night_raise hour
          + Closed.burst_raise
              (DateTimeRiskModel.recent_count (timestamp (mi_session current_session))
                 login_history)
          + Closed.failure_raise (DateTimeRiskModel.recent_failures login_history)
          + Closed.cadence_raise login_history)) /\
  DateTimeRiskModel.predict_risk local_hour m current_session login_history
  = clamp (DateTimeRiskModel.predict_risk local_hour m current_session login_history).
Proof.
  intros Hl Hm Hf Hb Hh.
  pose proof (datetime_base_range _ _ _ Hb) as Hr.
  split; [exact Hr|].
  assert (E : DateTimeRiskModel.predict_risk local_hour m current_session login_history
              = DateTimeRiskModel.rule_layer hour (timestamp (mi_session current_session))
                  login_history base_risk).
  { unfold DateTimeRiskModel.predict_risk, DateTimeRiskModel.predict_risk_body.
    rewrite Hl, Hm, Hf, Hb, Hh. reflexivity. }
  split.
  - rewrite E. apply datetime_rule_layer_closed, Hr.
  - symmetry. apply clamp_id. rewrite E. apply datetime_rule_layer_range, Hr.
Qed.

(** C6 at a burst: six logins ten seconds apart in the last minute, four
    of them failed, at 03:13; base 22, every raise applies, the score is
    capped at 100. *)
Lemma C6_temporal_rule_layer_witness :
  (not_loaded Example.datetime_trained = false /\
   model Example.datetime_trained = Some Example.forest_normal /\
   Example.forest_normal Example.night (Example.burst Example.night)
   = IForestResult 1 Example.minus_half /\
   DateTimeRiskModel.model_base_risk 1 Example.minus_half = Some 22 /\
   Example.local_hour Example.night = Some 3) /\
  Closed.temporal_raises 3 Example.night (Example.burst Example.night) = 95 /\
  DateTimeRiskModel.predict_risk Example.local_hour Example.datetime_trained
    (Example.input "73.45.123.45" Example.desktop_agent Example.night
       Example.new_york (Example.burst Example.night))
    (Example.burst Example.night) = 100.
Proof.
  assert (H1 : not_loaded Example.datetime_trained = false) by reflexivity.
  assert (H2 : model Example.datetime_trained = Some Example.forest_normal) by reflexivity.
  assert (H3 : Example.forest_normal
                 (timestamp (mi_session
                    (Example.input "73.45.123.45" Example.desktop_agent Example.night
                       Example.new_york (Example.burst Example.night))))
                 (Example.burst Example.night)
               = IForestResult 1 Example.minus_half) by reflexivity.
  assert (H4 : DateTimeRiskModel.model_base_risk 1 Example.minus_half = Some 22)
    by (vm_compute; reflexivity).
  assert (H5 : Example.local_hour
                 (timestamp (mi_session
                    (Example.input "73.45.123.45" Example.desktop_agent Example.night
                       Example.new_york (Example.burst Example.night)))) = Some 3)
    by (vm_compute; reflexivity).
  assert (H6 : Closed.temporal_raises 3 Example.night (Example.burst Example.night) = 95)
    by (vm_compute; reflexivity).
  split; [repeat split; assumption|]. split; [exact H6|].
  destruct (C6_temporal_rule_layer Example.local_hour Example.datetime_trained
              Example.forest_normal _ _ 1 Example.minus_half 22 3 H1 H2 H3 H4 H5)
    as (_ & E & _).
  rewrite E. vm_compute. reflexivity.
Defined.

(** C6 as stated fails at three recent logins: the claim adds 15 to the
    base score 22, the code adds nothing. *)
Lemma C6_counterexample :
  DateTimeRiskModel.recent_count Example.afternoon (Example.three_recent Example.afternoon) = 3 /\
  Spec.burst_raise 3 = 15 /\
  Closed.temporal_raises 14 Example.afternoon (Example.three_recent Example.afternoon) = 0 /\
  DateTimeRiskModel.model_base_risk 1 Example.minus_half = Some 22 /\
  DateTimeRiskModel.predict_risk Example.local_hour Example.datetime_trained
    (Example.input "73.45.123.45" Example.desktop_agent Example.afternoon
       Example.new_york (Example.three_recent Example.afternoon))
    (Example.three_recent Example.afternoon) = 22 /\
  22 <> Z.min 100 (22 + Spec.burst_raise 3).
Proof. repeat split; vm_compute; congruence. Qed.

(** ** Substrings and lower case *)

Lemma prefix_app (n h : string) :
  String.prefix n h = true <-> exists post, h = (n +:+ post)%string.
Proof.
  revert h. induction n as [|c n IH]; intros h.
  - split; [intros _; exists h; reflexivity | intros _; destruct h; reflexivity].
  - destruct h as [|d h]; simpl.
    + split; [discriminate | intros [post H]; discriminate].
    + destruct (ascii_dec c d) as [->|Hne].
      * rewrite IH. split; intros [post H]; exists post.
        -- rewrite H. reflexivity.
        -- injection H as H. exact H.
      * split; [discriminate | intros [post H]; injection H as H1 H2; congruence].
Qed.

Lemma contains_app (n h : string) :
  PyStr.contains n h = true <-> exists pre post, h = (pre +:+ n +:+ post)%string.
Proof.
  induction h as [|d h IH].
  - cbn [PyStr.contains]. rewrite orb_false_r, prefix_app. split.
    + intros [post H]. exists EmptyString, post. exact H.
    + intros (pre & post & H). destruct pre as [|c pre]; [|discriminate].
      exists post. exact H.
  - cbn [PyStr.contains]. rewrite orb_true_iff, prefix_app, IH. split.
    + intros [[post H]|(pre & post & H)].
      * exists EmptyString, post. exact H.
      * exists (String d pre), post. rewrite H. reflexivity.
    + intros (pre & post & H). destruct pre as [|c pre].
      * left. exists post. exact H.
      * right. injection H as H1 H2. exists pre, post. exact H2.
Qed.

Lemma lower_app (a b : string) :
  PyStr.lower (a +:+ b) = (PyStr.lower a +:+ PyStr.lower b)%string.
Proof.
  induction a as [|c a IH]; [reflexivity|].
  change (String (PyStr.lower_char c) (PyStr.lower (a +:+ b))
          = String (PyStr.lower_char c) (PyStr.lower a +:+ PyStr.lower b))%string.
  rewrite IH. reflexivity.
Qed.

Lemma string_app_assoc (a b c : string) :
  ((a +:+ b) +:+ c = a +:+ (b +:+ c))%string.
Proof.
  induction a as [|x a IH]; [reflexivity|].
  change (String x ((a +:+ b) +:+ c) = String x (a +:+ (b +:+ c)))%string.
  rewrite IH. reflexivity.
Qed.

Lemma contains_lower (n h : string) :
  PyStr.contains n h = true -> PyStr.contains (PyStr.lower n) (PyStr.lower h) = true.
Proof.
  rewrite !contains_app. intros (pre & post & ->).
  exists (PyStr.lower pre), (PyStr.lower post). rewrite !lower_app. reflexivity.
Qed.

Lemma contains_trans (a b c : string) :
  PyStr.contains a b = true -> PyStr.contains b c = true -> PyStr.contains a c = true.
Proof.
  rewrite !contains_app. intros (p1 & q1 & ->) (p2 & q2 & ->).
  exists (p2 +:+ p1)%string, (q1 +:+ q2)%string.
  rewrite !string_app_assoc. reflexivity.
Qed.

(** ** C4: the client-agent floors *)

Lemma useragent_rules_after_headless (ua : ParsedUserAgent) (ua_str : string)
    (touch : option bool) (h : list LoginHistoryItem) (b : Z) :
  0 <= b <= 100 ->
  UserAgentRiskModel.headless_rule ua_str (UserAgentRiskModel.bot_rule ua b)
  <= UserAgentRiskModel.rule_layer ua ua_str touch h b /\
  UserAgentRiskModel.puppeteer_rule ua_str
    (UserAgentRiskModel.headless_rule ua_str (UserAgentRiskModel.bot_rule ua b))
  <= UserAgentRiskModel.rule_layer ua ua_str touch h b.
Proof.
  intros Hb.
  unfold UserAgentRiskModel.rule_layer, UserAgentRiskModel.history_rule,
    UserAgentRiskModel.touch_rule, UserAgentRiskModel.short_rule,
    UserAgentRiskModel.outdated_rule, UserAgentRiskModel.puppeteer_rule,
    UserAgentRiskModel.headless_rule, UserAgentRiskModel.bot_rule.
  destruct (browser_major ua) as [major|];
    [destruct (UserAgentRiskModel.outdated_browsers !! browser_family ua) as [minimum|]|];
  repeat match goal with
         | |- context [if ?c then _ else _] => destruct c
         | |- context [match ?l with nil => _ | _ => _ end] => destruct l
         end; lia.
Qed.

(** C4, as the code has it.  When the client-agent detector's model is
    loaded or trained and its [try] block does not raise, the score is at
    least 85 if the lower-cased user-agent string contains "headless",
    "phantom" or "selenium" (so also if the string itself contains one of
    them, or "HeadlessChrome"), and at least 90 if the lower-cased string
    contains "puppeteer" (so also if the string itself does). *)
Theorem C4_useragent_floors
    (parse : string -> option ParsedUserAgent) (m : UserAgentRiskModel.t)
    (current_session : ModelInput) (login_history : list LoginHistoryItem) (s : Z) :
  not_loaded m = false ->
  UserAgentRiskModel.predict_risk_body parse (model m) current_session login_history
  = Some s ->
  let user_agent := userAgent (mi_session current_session) in
  UserAgentRiskModel.predict_risk parse m current_session login_history = s /\
  (PyStr.contains "headless" (PyStr.lower user_agent) = true \/
   PyStr.contains "phantom" (PyStr.lower user_agent) = true \/
   PyStr.contains "selenium" (PyStr.lower user_agent) = true -> 85 <= s) /\
  (PyStr.contains "puppeteer" (PyStr.lower user_agent) = true -> 90 <= s) /\
  (PyStr.contains "headless" user_agent = true \/
   PyStr.contains "phantom" user_agent = true \/
   PyStr.contains "selenium" user_agent = true \/
   PyStr.contains "HeadlessChrome" user_agent = true -> 85 <= s) /\
  (PyStr.contains "puppeteer" user_agent = true -> 90 <= s).
Proof.
  intros Hl Hbody user_agent.
  assert (Hp : UserAgentRiskModel.predict_risk parse m current_session login_history = s).
  { unfold UserAgentRiskModel.predict_risk. rewrite Hl, Hbody. reflexivity. }
  assert (H85 : PyStr.contains "headless" (PyStr.lower user_agent) = true \/
                PyStr.contains "phantom" (PyStr.lower user_agent) = true \/
                PyStr.contains "selenium" (PyStr.lower user_agent) = true -> 85 <= s).
  { intros Hc. revert Hbody. unfold UserAgentRiskModel.predict_risk_body.
    destruct (model m) as [f|]; [|discriminate].
    destruct (f _ _) as [|mse thr e]; [discriminate|].
    destruct (UserAgentRiskModel.model_base_risk mse thr e) as [b|] eqn:E; [|discriminate].
    destruct (parse _) as [ua|]; [|discriminate].
    intros [= <-].
    pose proof (useragent_base_range _ _ _ _ E) as Hb.
    destruct (useragent_rules_after_headless ua (PyStr.lower user_agent)
                (touchSupport (mi_session current_session)) login_history b Hb) as [H _].
    fold user_agent. etransitivity; [|exact H].
    unfold UserAgentRiskModel.headless_rule. cbn [existsb].
    destruct Hc as [Hc|[Hc|Hc]]; rewrite Hc; rewrite ?orb_true_r; cbn; lia. }
  assert (H90 : PyStr.contains "puppeteer" (PyStr.lower user_agent) = true -> 90 <= s).
  { intros Hc. revert Hbody. unfold UserAgentRiskModel.predict_risk_body.
    destruct (model m) as [f|]; [|discriminate].
    destruct (f _ _) as [|mse thr e]; [discriminate|].
    destruct (UserAgentRiskModel.model_base_risk mse thr e) as [b|] eqn:E; [|discriminate].
    destruct (parse _) as [ua|]; [|discriminate].
    intros [= <-].
    pose proof (useragent_base_range _ _ _ _ E) as Hb.
    destruct (useragent_rules_after_headless ua (PyStr.lower user_agent)
                (touchSupport (mi_session current_session)) login_history b Hb) as [_ H].
    fold user_agent. etransitivity; [|exact H].
    unfold UserAgentRiskModel.puppeteer_rule. rewrite Hc. cbn. lia. }
  split; [exact Hp|]. split; [exact H85|]. split; [exact H90|]. split.
  - intros [Hc|[Hc|[Hc|Hc]]]; apply H85.
    + left. exact (contains_lower "headless" user_agent Hc).
    + right. left. exact (contains_lower "phantom" user_agent Hc).
    + right. right. exact (contains_lower "selenium" user_agent Hc).
    + left. apply (contains_trans _ (PyStr.lower "HeadlessChrome")); [reflexivity|].
      exact (contains_lower "HeadlessChrome" user_agent Hc).
  - intros Hc. apply H90. exact (contains_lower "puppeteer" user_agent Hc).
Qed.

(** C4 at a headless agent, with a trained autoencoder that reconstructs
    the input exactly (base 0): the score is the floor, 85. *)
Lemma C4_useragent_floors_witness :
  (not_loaded Example.useragent_trained = false /\
   UserAgentRiskModel.predict_risk_body Example.parse (model Example.useragent_trained)
     (Example.input "73.45.123.45" Example.headless_agent Example.afternoon
        Example.new_york nil) nil = Some 85) /\
  PyStr.contains "headless" (PyStr.lower Example.headless_agent) = true /\
  UserAgentRiskModel.predict_risk Example.parse Example.useragent_trained
    (Example.input "73.45.123.45" Example.headless_agent Example.afternoon
       Example.new_york nil) nil = 85 /\
  85 <= 85.
Proof.
  assert (H1 : not_loaded Example.useragent_trained = false) by reflexivity.
  assert (H2 : UserAgentRiskModel.predict_risk_body Example.parse
                 (model Example.useragent_trained)
                 (Example.input "73.45.123.45" Example.headless_agent Example.afternoon
                    Example.new_york nil) nil = Some 85)
    by (vm_compute; reflexivity).
  assert (H3 : PyStr.contains "headless" (PyStr.lower Example.headless_agent) = true)
    by (vm_compute; reflexivity).
  destruct (C4_useragent_floors Example.parse Example.useragent_trained _ _ 85 H1 H2)
    as (E & F & _).
  split; [split; assumption|]. split; [exact H3|]. split; [exact E|].
  apply F. left. exact H3.
Defined.

(** C4 as stated fails when the model is not loaded: the agent contains
    "HeadlessChrome" (and so, lower-cased, "headless"), and the score is
    the neutral 50. *)
Lemma C4_counterexample :
  PyStr.contains "HeadlessChrome" Example.headless_agent = true /\
  PyStr.contains "headless" (PyStr.lower Example.headless_agent) = true /\
  UserAgentRiskModel.predict_risk Example.parse UserAgentRiskModel.init
    (Example.input "73.45.123.45" Example.headless_agent Example.afternoon
       Example.new_york nil) nil = 50 /\
  ~ 85 <= 50.
Proof. repeat split; try (vm_compute; reflexivity). lia. Qed.

(** The test ["HeadlessChrome" in ua_str] runs on the lower-cased string
    and never holds: an agent with "HeadlessChrome" gets the floor 85 of
    "headless", not 90. *)
Lemma headless_chrome_test_never_holds (s : string) :
  PyStr.contains "HeadlessChrome" (PyStr.lower s) = false.
Proof.
  destruct (PyStr.contains "HeadlessChrome" (PyStr.lower s)) eqn:E; [|reflexivity].
  exfalso. apply contains_app in E as (pre & post & E).
  assert (H : forall t, PyStr.contains "H" (PyStr.lower t) = false).
  { induction t as [|c t IH]; [reflexivity|].
    cbn [PyStr.lower PyStr.contains]. rewrite IH, orb_false_r.
    cbn [String.prefix]. destruct (ascii_dec "H" (PyStr.lower_char c)) as [Hc|]; [|reflexivity].
    exfalso. revert Hc. unfold PyStr.lower_char.
    destruct c as [[] [] [] [] [] [] [] []]; vm_compute; discriminate. }
  specialize (H s). rewrite E in H.
  assert (PyStr.contains "H" (pre +:+ "HeadlessChrome" +:+ post) = true); [|congruence].
  apply contains_app. exists pre, ("eadlessChrome" +:+ post)%string. reflexivity.
Qed.

Lemma headless_chrome_scores_85 :
  PyStr.contains "HeadlessChrome" Example.headless_agent = true /\
  UserAgentRiskModel.predict_risk Example.parse Example.useragent_trained
    (Example.input "73.45.123.45" Example.headless_agent Example.afternoon
       Example.new_york nil) nil = 85.
Proof. split; vm_compute; reflexivity. Qed.

(** ** Great-circle distance and travel speed *)

Lemma SFcompare_lt_trans (x y z : spec_float) :
  SFcompare x y = Some Lt -> SFcompare y z = Some Lt -> SFcompare x z = Some Lt.
Proof.
  destruct x as [sx|sx| |sx mx ex], y as [sy|sy| |sy my ey], z as [sz|sz| |sz mz ez];
    cbn [SFcompare]; try discriminate;
    repeat match goal with
           | s : bool |- _ => destruct s
           end; try discriminate; try reflexivity; intros H1 H2.
  all: change (Pos.compare_cont Eq) with Pos.compare in *.
  all: destruct (Z.compare_spec ex ey), (Z.compare_spec ey ez), (Z.compare_spec ex ez);
         try discriminate; try reflexivity; try lia; subst.
  all: repeat match goal with
         | H : Some _ = Some _ |- _ => injection H as H
         end.
  all: try (f_equal).
  all: rewrite ?Pos.compare_lt_iff, ?Pos.compare_gt_iff in *;
       try match goal with
           | H : CompOpp _ = Lt |- _ =>
               apply (f_equal CompOpp) in H; rewrite CompOpp_involutive in H; cbn in H
           end.
  all: try match goal with
           | H : CompOpp _ = Lt |- _ =>
               apply (f_equal CompOpp) in H; rewrite CompOpp_involutive in H; cbn in H
           end.
  all: try match goal with |- CompOpp _ = Lt => apply CompOpp_iff; cbn end.
  all: rewrite ?Pos.compare_lt_iff, ?Pos.compare_gt_iff in *; try lia.
Qed.

Lemma SFltb_trans (x y z : spec_float) :
  SFltb x y = true -> SFltb y z = true -> SFltb x z = true.
Proof.
  unfold SFltb. intros H1 H2.
  destruct (SFcompare x y) as [[]|] eqn:E1; try discriminate.
  destruct (SFcompare y z) as [[]|] eqn:E2; try discriminate.
  rewrite (SFcompare_lt_trans x y z E1 E2). reflexivity.
Qed.

Lemma SFltb_irrefl (x : spec_float) : SFltb x x = false.
Proof.
  unfold SFltb. destruct x as [s|s| |s m e]; cbn [SFcompare]; try destruct s;
    try reflexivity.
  - rewrite Z.compare_refl, Pos.compare_cont_refl. reflexivity.
  - rewrite Z.compare_refl, Pos.compare_cont_refl. reflexivity.
Qed.

(** A speed above 2000 km/h is above 900 and above 500 km/h. *)
Lemma float_gt_weaken (speed : spec_float) (k1 k2 : Z) :
  SFltb (float_lit k1) (float_lit k2) = true ->
  PyMath.float_gt speed (float_lit k2) = true ->
  PyMath.float_gt speed (float_lit k1) = true.
Proof. unfold PyMath.float_gt. intros H1 H2. exact (SFltb_trans _ _ _ H1 H2). Qed.

Lemma detector_haversine_is_analyzer (math : MathLib) (lat1 lon1 lat2 lon2 : spec_float) :
  GeolocationRiskModel.haversine_distance math lat1 lon1 lat2 lon2
  = GeoLocationAnalyzer.haversine_distance math lat1 lon1 lat2 lon2.
Proof. reflexivity. Qed.

(** [sqrt(1 - a)] raises as soon as the float [a] exceeds 1, and
    [sqrt(a)] as soon as it is negative. *)
Lemma haversine_raises (math : MathLib) (lat1 lon1 lat2 lon2 a : spec_float) :
  GeoLocationAnalyzer.haversine_a math lat1 lon1 lat2 lon2 = Some a ->
  PyMath.float_lt a PyMath.zero = true \/
  PyMath.float_lt (fsub PyMath.one a) PyMath.zero = true ->
  GeoLocationAnalyzer.haversine_distance math lat1 lon1 lat2 lon2 = None.
Proof.
  intros Ha Hneg. unfold GeoLocationAnalyzer.haversine_distance.
  rewrite Ha, bind_Some.
  assert (Hs : forall x, PyMath.float_lt x PyMath.zero = true -> PyMath.sqrt x = None).
  { intros x. unfold PyMath.float_lt, PyMath.sqrt, PyMath.zero.
    destruct x as [s|s| |s m e]; cbn; try destruct s; try discriminate; reflexivity. }
  destruct Hneg as [H|H].
  - rewrite (Hs _ H). reflexivity.
  - rewrite (Hs _ H). destruct (PyMath.sqrt a); reflexivity.
Qed.

(** ** C3: the physics floor *)

Lemma high_risk_rule_default (b : Z) :
  GeolocationRiskModel.high_risk_rule GeolocationRiskModel.default_location b = b.
Proof. reflexivity. Qed.

(** The score of the geographic detector when its model runs: the rules
    on the speed against the most recent history item, or 50 when the
    speed computation raises. *)
Lemma geolocation_predict_with_history
    (math : MathLib) (m : GeolocationRiskModel.t) (f : GeolocationRiskModel.Fitted)
    (current_session : ModelInput) (login_history : list LoginHistoryItem)
    (base_risk : Z) (last_login : LoginHistoryItem) :
  not_loaded m = false ->
  model m = Some f ->
  GeolocationRiskModel.model_base_risk
    (f GeolocationRiskModel.default_location (timestamp (mi_session current_session))
       login_history) = Some base_risk ->
  PyList.max_by h_timestamp login_history = Some last_login ->
  GeolocationRiskModel.predict_risk math m current_session login_history
  = match GeolocationRiskModel.detector_speed math GeolocationRiskModel.default_location
            (timestamp (mi_session current_session)) last_login with
    | Some speed =>
        GeolocationRiskModel.country_rule (timestamp (mi_session current_session))
          login_history (GeolocationRiskModel.travel_rule speed base_risk)
    | None => 50
    end.
Proof.
  intros Hl Hm Hb Hlast.
  unfold GeolocationRiskModel.predict_risk, GeolocationRiskModel.predict_risk_body.
  rewrite Hl, Hm, Hb. unfold GeolocationRiskModel.rule_layer. rewrite Hlast.
  destruct (GeolocationRiskModel.detector_speed _ _ _ _) as [speed|]; [|reflexivity].
  rewrite !bind_Some. cbn [or_default_50]. apply high_risk_rule_default.
Qed.

Lemma geolocation_country_rule_bounds (ts : Z) (h : list LoginHistoryItem) (b : Z) :
  0 <= b <= 100 -> b <= GeolocationRiskModel.country_rule ts h b <= 100.
Proof.
  intros Hb. unfold GeolocationRiskModel.country_rule. destruct (3 <? _); lia.
Qed.

(** C3, as the code has it.  When the geographic detector's model is
    loaded or trained, its [try] block does not raise (the computation of
    the speed included), the history is not empty, and the location the
    pipeline attached to the session is the one the detector measures
    from: if the travel speed between the session's location and the most
    recent history item exceeds 900 km/h the score is at least 85, and if
    it exceeds 2000 km/h the score is at least 95. *)
Theorem C3_physics_floor
    (math : MathLib) (m : GeolocationRiskModel.t) (f : GeolocationRiskModel.Fitted)
    (current_session : ModelInput) (login_history : list LoginHistoryItem)
    (base_risk : Z) (last_login : LoginHistoryItem) (speed : spec_float) :
  not_loaded m = false ->
  model m = Some f ->
  GeolocationRiskModel.model_base_risk
    (f GeolocationRiskModel.default_location (timestamp (mi_session current_session))
       login_history) = Some base_risk ->
  PyList.max_by h_timestamp login_history = Some last_login ->
  mi_location current_session = GeolocationRiskModel.default_location ->
  GeolocationRiskModel.calculate_travel_speed math (mi_location current_session)
    (h_location last_login) (timestamp (mi_session current_session))
    (h_timestamp last_login) = Some speed ->
  (PyMath.float_gt speed (float_lit 900) = true ->
   85 <= GeolocationRiskModel.predict_risk math m current_session login_history <= 100) /\
  (PyMath.float_gt speed (float_lit 2000) = true ->
   95 <= GeolocationRiskModel.predict_risk math m current_session login_history <= 100).
Proof.
  intros Hl Hm Hb Hlast Hloc Hspeed.
  pose proof (geolocation_base_range _ _ Hb) as Hr.
  rewrite (geolocation_predict_with_history math m f current_session login_history
             base_risk last_login Hl Hm Hb Hlast).
  rewrite Hloc in Hspeed. unfold GeolocationRiskModel.detector_speed. rewrite Hspeed.
  unfold GeolocationRiskModel.travel_rule.
  change GeolocationRiskModel.max_travel_speed_kmh with (float_lit 900).
  split.
  - intros H900. rewrite H900.
    destruct (PyMath.float_gt speed (float_lit 2000)).
    + pose proof (geolocation_country_rule_bounds
                    (timestamp (mi_session current_session)) login_history 95). lia.
    + pose proof (geolocation_country_rule_bounds
                    (timestamp (mi_session current_session)) login_history
                    (Z.max base_risk 85)). lia.
  - intros H2000.
    assert (H900 : PyMath.float_gt speed (float_lit 900) = true)
      by (apply (float_gt_weaken speed 900 2000); [reflexivity | exact H2000]).
    rewrite H900, H2000.
    pose proof (geolocation_country_rule_bounds
                  (timestamp (mi_session current_session)) login_history 95). lia.
Qed.

(** C3 at a login recorded at the very millisecond of the session, in
    New York like the session: the speed is infinite and the score is at
    least 95. *)
Lemma C3_physics_floor_witness :
  (not_loaded Example.geolocation_trained = false /\
   model Example.geolocation_trained = Some Example.dbscan_no_core /\
   GeolocationRiskModel.model_base_risk
     (Example.dbscan_no_core GeolocationRiskModel.default_location Example.afternoon
        Example.same_instant_history) = Some 50 /\
   PyList.max_by h_timestamp Example.same_instant_history
   = Some (Example.login Example.afternoon Example.new_york success) /\
   Example.new_york = GeolocationRiskModel.default_location /\
   GeolocationRiskModel.calculate_travel_speed Example.math Example.new_york
     Example.new_york Example.afternoon Example.afternoon = Some PyMath.inf) /\
  PyMath.float_gt PyMath.inf (float_lit 2000) = true /\
  95 <= GeolocationRiskModel.predict_risk Example.math Example.geolocation_trained
          (Example.input "73.45.123.45" Example.desktop_agent Example.afternoon
             Example.new_york Example.same_instant_history)
          Example.same_instant_history <= 100.
Proof.
  assert (H1 : not_loaded Example.geolocation_trained = false) by reflexivity.
  assert (H2 : model Example.geolocation_trained = Some Example.dbscan_no_core)
    by reflexivity.
  assert (H3 : GeolocationRiskModel.model_base_risk
                 (Example.dbscan_no_core GeolocationRiskModel.default_location
                    Example.afternoon Example.same_instant_history) = Some 50)
    by reflexivity.
  assert (H4 : PyList.max_by h_timestamp Example.same_instant_history
               = Some (Example.login Example.afternoon Example.new_york success))
    by reflexivity.
  assert (H5 : Example.new_york = GeolocationRiskModel.default_location) by reflexivity.
  assert (H6 : GeolocationRiskModel.calculate_travel_speed Example.math Example.new_york
                 Example.new_york Example.afternoon Example.afternoon = Some PyMath.inf)
    by (vm_compute; reflexivity).
  assert (H7 : PyMath.float_gt PyMath.inf (float_lit 2000) = true)
    by (vm_compute; reflexivity).
  split; [repeat split; assumption|]. split; [exact H7|].
  exact (proj2 (C3_physics_floor Example.math Example.geolocation_trained
                  Example.dbscan_no_core
                  (Example.input "73.45.123.45" Example.desktop_agent Example.afternoon
                     Example.new_york Example.same_instant_history)
                  Example.same_instant_history 50
                  (Example.login Example.afternoon Example.new_york success)
                  PyMath.inf H1 H2 H3 H4 H5 H6) H7).
Defined.

(** C3 as stated fails in scenario S5 when the model is not loaded: the
    last login is in New York 42 minutes before, the session is located
    in London, the speed between the two is 7957 km/h, and the score is
    the neutral 50. *)
Lemma C3_counterexample :
  mi_location Example.s5_input = Example.london /\
  PyList.max_by h_timestamp Example.s5_history
  = Some (Example.login (Example.afternoon - 2520000) Example.new_york success) /\
  timestamp (mi_session Example.s5_input)
  - h_timestamp (Example.login (Example.afternoon - 2520000) Example.new_york success)
  = 42 * 60 * 1000 /\
  GeolocationRiskModel.calculate_travel_speed Example.math Example.london
    Example.new_york Example.afternoon (Example.afternoon - 2520000)
  = Some (S754_finite false 8749320079882373 (-40)) /\
  PyMath.float_gt (S754_finite false 8749320079882373 (-40)) (float_lit 900) = true /\
  GeolocationRiskModel.predict_risk Example.math GeolocationRiskModel.init
    Example.s5_input Example.s5_history = 50 /\
  ~ 85 <= 50.
Proof. repeat split; try (vm_compute; reflexivity). lia. Qed.

(** In the same scenario with a trained model of base risk 50 the score
    is 50 as well: the detector measures from its built-in New York
    location, not from the location the session carries, so the distance
    to the last login is zero. *)
Lemma geolocation_ignores_session_location :
  GeolocationRiskModel.detector_speed Example.math GeolocationRiskModel.default_location
    Example.afternoon (Example.login (Example.afternoon - 2520000) Example.new_york success)
  = Some PyMath.zero /\
  GeolocationRiskModel.calculate_travel_speed Example.math
    (mi_location Example.s5_input) Example.new_york
    Example.afternoon (Example.afternoon - 2520000)
  = Some (S754_finite false 8749320079882373 (-40)) /\
  GeolocationRiskModel.predict_risk Example.math Example.geolocation_trained
    Example.s5_input Example.s5_history = 50.
Proof. repeat split; vm_compute; reflexivity. Qed.

(** ** C8: the travel-speed helper *)



(** The helper on ordinary and on nearly antipodal points: from New York
    to London in one hour the speed is 5570.2 km/h and the travel is
    impossible (the case of the repository's test); from New York to a
    point next to its antipode the float [a] is 1.0000000000000002 and
    the helper raises. *)
Lemma travel_speed_examples :
  GeoLocationAnalyzer.calculate_travel_speed Example.math
    (latitude Example.new_york) (longitude Example.new_york)
    (latitude Example.london) (longitude Example.london) 3600000
  = Some (S754_finite false 6124524055917661 (-40)) /\
  GeoLocationAnalyzer.is_impossible_travel Example.math
    (latitude Example.new_york) (longitude Example.new_york)
    (latitude Example.london) (longitude Example.london) 3600000 = Some true /\
  GeoLocationAnalyzer.haversine_a Example.math
    (latitude Example.new_york) (longitude Example.new_york)
    (latitude Example.far_south) (longitude Example.far_south)
  = Some (S754_finite false 4503599627370497 (-52)) /\
  GeoLocationAnalyzer.calculate_travel_speed Example.math
    (latitude Example.new_york) (longitude Example.new_york)
    (latitude Example.far_south) (longitude Example.far_south) 3600000 = None.
Proof. repeat split; vm_compute; reflexivity. Qed.

(** ** C7: what is rejected as invalid *)

Lemma validate_timestamp_spec (ts : Z) :
  Validators.validate_timestamp ts = true <-> 1577836800000 <= ts <= 1893456000000.
Proof.
  unfold Validators.validate_timestamp, Validators.min_ts, Validators.max_ts.
  rewrite andb_true_iff, !Z.leb_le. reflexivity.
Qed.

Lemma validate_login_status_spec (v : string) :
  Api.validate_login_status v = false <-> v <> "success" /\ v <> "failure".
Proof.
  unfold Api.validate_login_status, PyStr.string_in. cbn [existsb].
  rewrite orb_false_r, orb_false_iff, !String.eqb_neq. reflexivity.
Qed.

Lemma login_statuses_spec (login_history : list LoginHistoryItem) :
  forallb (fun item => Api.validate_login_status (h_loginStatus item)) login_history = false
  <-> exists item, In item login_history /\
                   h_loginStatus item <> "success" /\ h_loginStatus item <> "failure".
Proof.
  induction login_history as [|x l IH]; cbn [forallb In].
  - split; [discriminate | intros (item & [] & _)].
  - rewrite andb_false_iff, IH, validate_login_status_spec. split.
    + intros [H|(item & Hin & H)]; [exists x; auto | exists item; auto].
    + intros (item & [->|Hin] & H); [left; exact H | right; exists item; auto].
Qed.

(** C7, as the code has it.  For a request body with the fields and
    types of the request model, [analyze_risk] rejects the request with a
    validation error, and then carries no scores, exactly when some
    history item's [loginStatus] is neither "success" nor "failure", or
    the login history has more than 1000 items, or [userId] is not an
    email, or else the request is within the rate limit and its address
    does not parse or its timestamp lies outside
    1577836800000..1893456000000 (bounds included); a request over the
    rate limit is rejected as rate-limited whatever its address and
    timestamp. *)
Theorem C7_validation_errors
    (ip_address : string -> option IPAddress) (sanitize_str : string -> string)
    (parse : string -> option ParsedUserAgent) (local_hour : Z -> option Z)
    (is_email : string -> bool) (math : MathLib)
    (request_data : AnalyzeRequest) (ctx : RequestContext) (st : AppState) :
  let result :=
    fst (Api.analyze_risk ip_address sanitize_str parse local_hour is_email math
           request_data ctx st) in
  let within_limit := fst (Api.check_rate_limit Api.verify_api_key ctx st) in
  let ts := timestamp (currentSession request_data) in
  (Api.is_validation_error result = true <->
   ((exists item, In item (loginHistory request_data) /\
                  h_loginStatus item <> "success" /\ h_loginStatus item <> "failure") \/
    1000 < Z.of_nat (List.length (loginHistory request_data)) \/
    is_email (userId request_data) = false) \/
   (within_limit = true /\
    (ip_address (ip (currentSession request_data)) = None \/
     ~ 1577836800000 <= ts <= 1893456000000))) /\
  (Api.is_validation_error result = true -> forall resp, result <> Response resp) /\
  (Api.request_model_valid is_email request_data = true -> within_limit = false ->
   result = HTTPException 429 "Rate limit exceeded").
Proof.
  intros result within_limit ts. subst result within_limit.
  unfold Api.analyze_risk, Api.request_model_valid, Validators.validate_ip_address.
  pose proof (validate_timestamp_spec ts) as Hts. fold ts.
  pose proof (login_statuses_spec (loginHistory request_data)) as Hst.
  destruct (forallb _ (loginHistory request_data)) eqn:Est; cbn [negb andb].
  2:{ split; [|split].
      - split; [intros _; left; left; apply Hst; reflexivity | reflexivity].
      - intros _ resp. discriminate.
      - discriminate. }
  assert (Hno : ~ exists item, In item (loginHistory request_data) /\
                  h_loginStatus item <> "success" /\ h_loginStatus item <> "failure")
    by (intros H; apply Hst in H; discriminate).
  destruct (1000 <? Z.of_nat (List.length (loginHistory request_data))) eqn:Elen;
    [apply Z.ltb_lt in Elen | apply Z.ltb_ge in Elen]; cbn [negb andb].
  { split; [|split].
    - split; [intros _; left; right; left; exact Elen | reflexivity].
    - intros _ resp. discriminate.
    - discriminate. }
  destruct (is_email (userId request_data)) eqn:Eem; cbn [negb].
  2:{ split; [|split].
      - split; [intros _; left; right; right; reflexivity | reflexivity].
      - intros _ resp. discriminate.
      - discriminate. }
  destruct (Api.check_rate_limit Api.verify_api_key ctx st) as [allowed st1].
  cbn [fst]. destruct allowed; cbn [negb].
  2:{ split; [|split].
      - cbn. split; [discriminate|].
        intros [[H|[H|H]]|[H _]]; [contradiction|lia|discriminate..].
      - cbn. discriminate.
      - reflexivity. }
  destruct (ip_address (ip (currentSession request_data))) as [o|] eqn:Eip; cbn [negb].
  2:{ split; [|split].
      - cbn. split; [intros _; right; auto | reflexivity].
      - intros _ resp. discriminate.
      - discriminate. }
  destruct (Validators.validate_timestamp ts) eqn:Ev; cbn [negb].
  2:{ split; [|split].
      - cbn. split; [|reflexivity]. intros _. right. split; [reflexivity|]. right.
        intros H. apply Hts in H. discriminate.
      - intros _ resp. discriminate.
      - discriminate. }
  assert (Hin : 1577836800000 <= ts <= 1893456000000) by (apply Hts; reflexivity).
  destruct (Api.score_request _ _ _ _ _ _) as [rs|]; cbn.
  - split; [|split]; [|discriminate|discriminate].
    split; [discriminate|].
    intros [[H|[H|H]]|[_ [H|H]]]; [contradiction|lia|discriminate..|contradiction].
  - split; [|split]; [|discriminate|discriminate].
    split; [discriminate|].
    intros [[H|[H|H]]|[_ [H|H]]]; [contradiction|lia|discriminate..|contradiction].
Qed.

(** C7 as stated fails for a request over the rate limit: its address
    does not parse, and it is rejected as rate-limited, not with a
    validation error.  It also fails for a request whose address parses,
    whose timestamp is in range, whose history has one item and whose
    [userId] is an email, but whose history item carries the login status
    "pending": the request is rejected with a validation error. *)
Lemma C7_counterexample :
  (Example.ip_address "999.45.123.45" = None /\
   fst (Api.analyze_risk Example.ip_address Example.sanitize_str Example.parse
          Example.local_hour Example.is_email Example.math
          (Example.request "999.45.123.45" Example.desktop_agent Example.afternoon nil)
          (Example.context 0%Q true) Example.exhausted_state)
   = HTTPException 429 "Rate limit exceeded" /\
   Api.is_validation_error
     (fst (Api.analyze_risk Example.ip_address Example.sanitize_str Example.parse
             Example.local_hour Example.is_email Example.math
             (Example.request "999.45.123.45" Example.desktop_agent Example.afternoon nil)
             (Example.context 0%Q true) Example.exhausted_state))
   = false) /\
  (Example.ip_address "73.45.123.45" <> None /\
   1577836800000 <= Example.afternoon <= 1893456000000 /\
   (List.length (Example.pending_history) <= 1000)%nat /\
   Example.is_email "user@example.com" = true /\
   Api.is_validation_error
     (fst (Api.analyze_risk Example.ip_address Example.sanitize_str Example.parse
             Example.local_hour Example.is_email Example.math
             (Example.request "73.45.123.45" Example.desktop_agent Example.afternoon
                Example.pending_history)
             (Example.context 0%Q true) Api.initial_state))
   = true).
Proof.
  split; [repeat split; vm_compute; reflexivity|].
  split; [vm_compute; discriminate|].
  split; [vm_compute; split; discriminate|].
  split; [vm_compute; lia|].
  split; vm_compute; reflexivity.
Qed.

(** ** C9: the two rate limiters *)

Lemma Qltb_lt (a b : Q) : Qltb a b = true <-> (a < b)%Q.
Proof.
  unfold Qltb. rewrite negb_true_iff. split.
  - intros H. apply Qnot_le_lt. intros Hle. apply Qle_bool_iff in Hle. congruence.
  - intros H. destruct (Qle_bool b a) eqn:E; [|reflexivity].
    apply Qle_bool_iff in E. exfalso. apply (Qlt_not_le _ _ H E).
Qed.

Lemma first_decision (n : nat) :
  (Z.of_nat n + 1 <=? Settings.RATE_LIMIT_REQUESTS)
  = (Z.of_nat n <? Settings.RATE_LIMIT_REQUESTS).
Proof.
  unfold Settings.RATE_LIMIT_REQUESTS.
  destruct (Z.of_nat n <? 100) eqn:E.
  - apply Z.ltb_lt in E. apply Z.leb_le. lia.
  - apply Z.ltb_ge in E. apply Z.leb_gt. lia.
Qed.

(** The shared counter inside its window: the entry counts the requests
    so far and each further request is admitted while fewer than a
    hundred came before it. *)
Lemma run_shared_in_window (cache_key : string) (e : Q) (times : list Q) :
  forall (n : nat) (db : gmap string RedisEntry),
    db !! cache_key = Some (mkRedisEntry (Z.of_nat n) (Some e)) ->
    (1 <= n)%nat ->
    (forall t, In t times -> (t < e)%Q) ->
    Runs.run_shared cache_key times db
    = List.map (fun i => Z.of_nat i <? Settings.RATE_LIMIT_REQUESTS)
        (seq n (List.length times)).
Proof.
  induction times as [|t times IH]; intros n db Hdb Hn Hin; [reflexivity|].
  cbn [Runs.run_shared List.length seq List.map].
  unfold Api.check_rate_limit_redis, Redis.incr, Redis.get. rewrite Hdb.
  assert (Hlive : Redis.live t (mkRedisEntry (Z.of_nat n) (Some e)) = true).
  { unfold Redis.live. cbn. apply Qltb_lt, Hin. left. reflexivity. }
  rewrite Hlive. cbn [value expires_at].
  assert (Hne : (Z.of_nat n + 1 =? 1) = false) by (apply Z.eqb_neq; lia).
  rewrite Hne. f_equal; [apply first_decision|].
  apply IH.
  - rewrite lookup_insert_eq. f_equal. f_equal. lia.
  - lia.
  - intros t' Ht'. apply Hin. right. exact Ht'.
Qed.

(** The in-process list inside the same window: nothing is dropped. *)
Lemma run_memory_in_window (cache_key : string) (t0 : Q) (times : list Q) :
  forall (entries : list Q) (cache : gmap string (list Q)),
    cache !! cache_key = Some entries ->
    (forall x, In x entries -> (t0 <= x)%Q) ->
    (forall t, In t times -> (t0 <= t)%Q /\ (t < t0 + 60)%Q) ->
    Runs.run_memory cache_key times cache
    = List.map (fun i => Z.of_nat i <? Settings.RATE_LIMIT_REQUESTS)
        (seq (List.length entries) (List.length times)).
Proof.
  induction times as [|t times IH]; intros entries cache Hc Hlow Hin; [reflexivity|].
  cbn [Runs.run_memory List.length seq List.map].
  unfold Api.check_rate_limit_memory. rewrite Hc.
  assert (Hkeep : List.filter
                    (fun x => Qltb (t - x)%Q Settings.RATE_LIMIT_PERIOD) entries
                  = entries).
  { apply forallb_filter_id. apply forallb_forall. intros x Hx.
    apply Qltb_lt. unfold Settings.RATE_LIMIT_PERIOD.
    pose proof (Hlow x Hx). destruct (Hin t (or_introl eq_refl)). lra. }
  rewrite Hkeep. rewrite length_app. cbn [List.length].
  f_equal.
  - rewrite Nat2Z.inj_add. apply first_decision.
  - rewrite (IH (entries ++ t :: nil) (<[cache_key := entries ++ t :: nil]> cache)).
    + rewrite length_app. cbn [List.length].
      replace (List.length entries + 1)%nat with (S (List.length entries)) by lia.
      reflexivity.
    + apply lookup_insert_eq.
    + intros x Hx. apply in_app_or in Hx as [Hx|[<-|[]]]; [apply Hlow, Hx|].
      apply (Hin t). left. reflexivity.
    + intros t' Ht'. apply Hin. right. exact Ht'.
Qed.

(** C9, as the code has it.  For one key unknown to both stores, and a
    sequence of requests that all fall within the 60 seconds that follow
    the first one (at or after it), the in-process fallback and the
    shared increment-and-expire counter take the same decisions: both
    admit the first hundred requests and reject the others. *)
Theorem C9_same_decisions_within_first_window
    (cache_key : string) (t0 : Q) (times : list Q)
    (db : gmap string RedisEntry) (cache : gmap string (list Q)) :
  db !! cache_key = None ->
  cache !! cache_key = None ->
  (forall t, In t times -> (t0 <= t)%Q /\ (t < t0 + 60)%Q) ->
  Runs.run_memory cache_key (t0 :: times) cache
  = Runs.run_shared cache_key (t0 :: times) db /\
  Runs.run_shared cache_key (t0 :: times) db
  = Closed.first_hundred (S (List.length times)).
Proof.
  intros Hdb Hc Hin.
  assert (Hs : Runs.run_shared cache_key (t0 :: times) db
               = Closed.first_hundred (S (List.length times))).
  { cbn [Runs.run_shared].
    unfold Api.check_rate_limit_redis, Redis.incr, Redis.get at 1. rewrite Hdb.
    change (1 =? 1) with true. cbv iota.
    unfold Redis.expire, Redis.get. rewrite lookup_insert_eq.
    change (Redis.live t0 (mkRedisEntry 1 None)) with true. cbv iota.
    cbn [value]. unfold Closed.first_hundred. cbn [seq List.map]. f_equal.
    apply (run_shared_in_window cache_key (t0 + Settings.RATE_LIMIT_PERIOD)%Q times 1).
    - rewrite lookup_insert_eq. reflexivity.
    - lia.
    - intros t Ht. apply Hin, Ht. }
  split; [|exact Hs]. rewrite Hs.
  cbn [Runs.run_memory]. unfold Api.check_rate_limit_memory. rewrite Hc.
  cbn [List.filter app List.length]. unfold Closed.first_hundred.
  cbn [seq List.map]. f_equal.
  apply (run_memory_in_window cache_key t0 times (t0 :: nil)).
  - apply lookup_insert_eq.
  - intros x [<-|[]]. apply Qle_refl.
  - exact Hin.
Qed.

(** C9 at three requests in one second. *)
Lemma C9_same_decisions_within_first_window_witness :
  (forall t, In t (0.5%Q :: 1%Q :: nil) -> (0 <= t)%Q /\ (t < 0 + 60)%Q) /\
  Runs.run_memory "k" (0%Q :: 0.5%Q :: 1%Q :: nil) ∅
  = Runs.run_shared "k" (0%Q :: 0.5%Q :: 1%Q :: nil) ∅ /\
  Runs.run_shared "k" (0%Q :: 0.5%Q :: 1%Q :: nil) ∅ = true :: true :: true :: nil.
Proof.
  assert (H : forall t, In t (0.5%Q :: 1%Q :: nil) -> (0 <= t)%Q /\ (t < 0 + 60)%Q).
  { intros t [<-|[<-|[]]]; split; lra. }
  split; [exact H|].
  exact (C9_same_decisions_within_first_window "k" 0%Q (0.5%Q :: 1%Q :: nil) ∅ ∅
           (lookup_empty _) (lookup_empty _) H).
Defined.

(** C9 as stated fails across a window boundary: after one request at
    second 0 and ninety-nine at second 59, the second of two requests at
    second 61 is admitted by the shared counter (its window restarted at
    61) and rejected by the fallback (101 requests in the last 60
    seconds). *)
Lemma C9_counterexample :
  List.length Example.straddling_times = 102%nat /\
  nth 101 (Runs.run_shared "k" Example.straddling_times ∅) false = true /\
  nth 101 (Runs.run_memory "k" Example.straddling_times ∅) true = false /\
  firstn 101 (Runs.run_shared "k" Example.straddling_times ∅)
  = firstn 101 (Runs.run_memory "k" Example.straddling_times ∅).
Proof. repeat split; vm_compute; reflexivity. Qed.

(** The runs are runs of [check_rate_limit]. *)
Lemma check_rate_limit_branches (api_key : string) (ctx : RequestContext) (st : AppState) :
  fst (Api.check_rate_limit api_key ctx st)
  = if redis_available ctx
    then
      if (fst (Redis.incr (now ctx) (redis_db st)
                 (Api.rate_limit_key api_key (client_host ctx))) =? 1)
         && negb (redis_expire_ok ctx)
      then fst (Api.check_rate_limit_memory (now ctx)
                  (Api.rate_limit_key api_key (client_host ctx)) (rate_limit_cache st))
      else fst (Api.check_rate_limit_redis (now ctx)
                  (Api.rate_limit_key api_key (client_host ctx)) (redis_db st))
    else fst (Api.check_rate_limit_memory (now ctx)
                (Api.rate_limit_key api_key (client_host ctx)) (rate_limit_cache st)).
Proof.
  unfold Api.check_rate_limit. destruct (redis_available ctx).
  - destruct (_ && _).
    + destruct (Api.check_rate_limit_memory _ _ _). reflexivity.
    + destruct (Api.check_rate_limit_redis _ _ _). reflexivity.
  - destruct (Api.check_rate_limit_memory _ _ _). reflexivity.
Qed.

(** ** C10: the health probe *)

Lemma models_loaded_iff (ms : gmap string RiskModel) :
  forallb Api.model_ready (snd <$> map_to_list ms) = true <->
  forall name d, ms !! name = Some d -> Api.model_ready d = true.
Proof.
  rewrite forallb_forall. split.
  - intros H name d Hd. apply H. apply list_elem_of_In.
    apply list_elem_of_fmap. exists (name, d). split; [reflexivity|].
    apply elem_of_map_to_list. exact Hd.
  - intros H d Hd. apply list_elem_of_In in Hd.
    apply list_elem_of_fmap in Hd as ([name d'] & -> & Hd).
    apply elem_of_map_to_list in Hd. exact (H name d' Hd).
Qed.

Lemma four_models_ready (d1 d2 d3 d4 : RiskModel) :
  (forall name d,
      (<["geolocation" := d4]> (<["useragent" := d3]> (<["datetime" := d2]>
         (<["ip" := d1]> (∅ : gmap string RiskModel))))) !! name = Some d ->
      Api.model_ready d = true) <->
  Api.model_ready d1 = true /\ Api.model_ready d2 = true /\
  Api.model_ready d3 = true /\ Api.model_ready d4 = true.
Proof.
  split.
  - intros H. repeat split.
    + apply (H "ip"). reflexivity.
    + apply (H "datetime"). reflexivity.
    + apply (H "useragent"). reflexivity.
    + apply (H "geolocation"). reflexivity.
  - intros (H1 & H2 & H3 & H4) name d.
    rewrite !lookup_insert_Some, lookup_empty.
    intros [[_ <-]|[_ [[_ <-]|[_ [[_ <-]|[_ [[_ <-]|[_ H]]]]]]]]; try assumption.
    discriminate.
Qed.

Lemma load_model_ready {F : Type} (file : option F) :
  loaded_or_trained (Api.load_model file (mkBaseRiskModel false None)) = true
  <-> is_Some file.
Proof.
  destruct file as [f|]; cbn.
  - split; [intros _; eexists; reflexivity | reflexivity].
  - split; [discriminate | intros [x H]; discriminate].
Qed.

(** C10.  [health_check] reports "healthy" exactly when every detector
    in the [models] dictionary has [is_loaded] set or a model object
    present, and "degraded" otherwise; for a dictionary holding the four
    detectors that is: exactly when each of the four is loaded or
    trained, and after [startup_event] on the initial state: exactly when
    each of the four model files was loaded.  The status does not depend
    on the outcome of the Redis and MongoDB pings, which are reported in
    [redis_connected] and [mongodb_connected] alone, and it is never
    anything but "healthy" or "degraded". *)
Theorem C10_health_status (redis_ping mongodb_ping : bool) (time_ms : Z) (st : AppState) :
  let response := Api.health_check redis_ping mongodb_ping time_ms st in
  (status response = "healthy" <->
   forall name d, models st !! name = Some d -> Api.model_ready d = true) /\
  (status response = "degraded" <->
   ~ forall name d, models st !! name = Some d -> Api.model_ready d = true) /\
  (status response = "healthy" \/ status response = "degraded") /\
  (forall d1 d2 d3 d4,
      models st = <["geolocation" := d4]> (<["useragent" := d3]> (<["datetime" := d2]>
                    (<["ip" := d1]> ∅))) ->
      (status response = "healthy" <->
       Api.model_ready d1 = true /\ Api.model_ready d2 = true /\
       Api.model_ready d3 = true /\ Api.model_ready d4 = true)) /\
  (forall ip_file datetime_file useragent_file geolocation_file,
      status (Api.health_check redis_ping mongodb_ping time_ms
                (Api.startup_event ip_file datetime_file useragent_file geolocation_file
                   Api.initial_state)) = "healthy" <->
      is_Some ip_file /\ is_Some datetime_file /\
      is_Some useragent_file /\ is_Some geolocation_file) /\
  (forall redis_ping' mongodb_ping' time_ms',
      status (Api.health_check redis_ping' mongodb_ping' time_ms' st) = status response) /\
  redis_connected response = redis_ping /\
  mongodb_connected response = mongodb_ping /\
  models_loaded response
  = forallb Api.model_ready (snd <$> map_to_list (models st)).
Proof.
  intros response. subst response.
  assert (Hgen : forall r m t s,
             status (Api.health_check r m t s) = "healthy" <->
             forall name d, models s !! name = Some d -> Api.model_ready d = true).
  { intros r m t s. unfold Api.health_check. cbn [status].
    rewrite <- models_loaded_iff.
    destruct (forallb Api.model_ready (snd <$> map_to_list (models s)));
      split; intros H; try reflexivity; discriminate. }
  assert (Hcases : status (Api.health_check redis_ping mongodb_ping time_ms st) = "healthy" \/
                   status (Api.health_check redis_ping mongodb_ping time_ms st) = "degraded").
  { unfold Api.health_check. cbn [status]. destruct (forallb _ _); auto. }
  split; [apply Hgen|]. split.
  { rewrite <- Hgen. split.
    - intros H1 H2. rewrite H1 in H2. discriminate.
    - intros H. destruct Hcases as [H1|H1]; [contradiction | exact H1]. }
  split; [exact Hcases|]. split.
  { intros d1 d2 d3 d4 Hm. rewrite Hgen, Hm. apply four_models_ready. }
  split.
  { intros f1 f2 f3 f4. rewrite Hgen.
    unfold Api.startup_event. cbn [models Api.initial_state].
    rewrite four_models_ready. cbn [Api.model_ready IPRiskModel.base].
    unfold IPRiskModel.init, DateTimeRiskModel.init, UserAgentRiskModel.init,
      GeolocationRiskModel.init. cbn [IPRiskModel.base].
    rewrite !load_model_ready. reflexivity. }
  split; [|repeat split].
  intros r' m' t'. reflexivity.
Qed.

(** * Part III. Further properties of the code *)

(** ** The fusion of the four scores, [api/main.py] lines 340-355 *)

Lemma overall_score_bracket (s0 s1 s2 s3 z : Z) :
  0 <= s0 <= 100 -> 0 <= s1 <= 100 -> 0 <= s2 <= 100 -> 0 <= s3 <= 100 ->
  Fusion.overall_score s0 s1 s2 s3 = Some z ->
  Z.min (Z.min s0 s1) (Z.min s2 s3) - 1 <= z <= Z.max (Z.max s0 s1) (Z.max s2 s3).
Proof.
  intros H0 H1 H2 H3 Hz.
  destruct (FusionFacts.overall_score_total s0 s1 s2 s3 H0 H1 H2 H3) as (z' & Hz' & _ & Hd).
  rewrite Hz in Hz'. injection Hz' as <-.
  unfold Fusion.exact100 in Hd.
  set (lo := Z.min (Z.min s0 s1) (Z.min s2 s3)).
  set (hi := Z.max (Z.max s0 s1) (Z.max s2 s3)).
  assert (Hlo : lo <= (30 * s0 + 20 * s1 + 25 * s2 + 25 * s3) / 100)
    by (apply Z.div_le_lower_bound; lia).
  assert (Hhi : (30 * s0 + 20 * s1 + 25 * s2 + 25 * s3) / 100 <= hi)
    by (apply Z.div_le_upper_bound; lia).
  lia.
Qed.

Lemma overall_score_unanimous (s : Z) :
  0 <= s <= 100 -> Fusion.overall_score s s s s = Some s.
Proof.
  intros H.
  assert (E : forallb (fun s => match Fusion.overall_score s s s s with
                                | Some z => z =? s
                                | None => false
                                end) Fusion.score_range = true)
    by (vm_compute; reflexivity).
  rewrite forallb_forall in E. specialize (E s (FusionFacts.in_score_range s H)).
  destruct (Fusion.overall_score s s s s) as [z|]; [|discriminate].
  apply Z.eqb_eq in E. congruence.
Qed.

(** X1.  In every response the overall score is at most the largest of
    the four factor scores and at least the smallest of them minus one
    (the float sum may fall just below the exact weighted mean). *)
Theorem X1_overall_between_factors
    (ip_address : string -> option IPAddress) (sanitize_str : string -> string)
    (parse : string -> option ParsedUserAgent) (local_hour : Z -> option Z)
    (is_email : string -> bool) (math : MathLib)
    (request_data : AnalyzeRequest) (ctx : RequestContext) (st st' : AppState)
    (resp : AnalyzeResponse) :
  Api.analyze_risk ip_address sanitize_str parse local_hour is_email math request_data ctx st
  = (Response resp, st') ->
  Z.min (Z.min (score_ip (scores resp)) (score_datetime (scores resp)))
        (Z.min (score_userAgent (scores resp)) (score_geolocation (scores resp))) - 1
  <= score_overall (scores resp)
  <= Z.max (Z.max (score_ip (scores resp)) (score_datetime (scores resp)))
           (Z.max (score_userAgent (scores resp)) (score_geolocation (scores resp))).
Proof.
  intros H. apply analyze_risk_response_inv in H as [_ Hs].
  apply score_request_spec in Hs as [(R0 & R1 & R2 & R3 & _) (z & Hz & <- & _)].
  exact (overall_score_bracket _ _ _ _ _ R0 R1 R2 R3 Hz).
Qed.

Lemma X1_overall_between_factors_witness :
  Api.analyze_risk Example.ip_address Example.sanitize_str Example.parse
    Example.local_hour Example.is_email Example.math
    (Example.request "73.45.123.45" Example.desktop_agent Example.afternoon nil)
    (Example.context 0%Q true) Example.ip_trained_state
  = (Response
       (mkAnalyzeResponse
          (mkResponseMeta "req_0123456789ab" "user@example.com" Example.afternoon 12
             Settings.MODELS_VERSION)
          (mkRiskScores 52 50 50 50 50)),
     Api.cache_result
       (Example.request "73.45.123.45" Example.desktop_agent Example.afternoon nil)
       (Example.context 0%Q true) (mkRiskScores 52 50 50 50 50)
       (snd (Api.check_rate_limit Api.verify_api_key (Example.context 0%Q true)
               Example.ip_trained_state))) /\
  Z.min (Z.min 52 50) (Z.min 50 50) - 1 <= 50 <= Z.max (Z.max 52 50) (Z.max 50 50).
Proof.
  assert (H : Api.analyze_risk Example.ip_address Example.sanitize_str Example.parse
                Example.local_hour Example.is_email Example.math
                (Example.request "73.45.123.45" Example.desktop_agent Example.afternoon nil)
                (Example.context 0%Q true) Example.ip_trained_state
              = (Response
                   (mkAnalyzeResponse
                      (mkResponseMeta "req_0123456789ab" "user@example.com"
                         Example.afternoon 12 Settings.MODELS_VERSION)
                      (mkRiskScores 52 50 50 50 50)),
                 Api.cache_result
                   (Example.request "73.45.123.45" Example.desktop_agent
                      Example.afternoon nil)
                   (Example.context 0%Q true) (mkRiskScores 52 50 50 50 50)
                   (snd (Api.check_rate_limit Api.verify_api_key
                           (Example.context 0%Q true) Example.ip_trained_state))))
    by (vm_compute; reflexivity).
  split; [exact H|].
  exact (X1_overall_between_factors Example.ip_address Example.sanitize_str Example.parse
           Example.local_hour Example.is_email Example.math _ _ _ _ _ H).
Defined.

(** X2.  When the four factor scores of a response are equal, the
    overall score is that same value: the float sum of the four weighted
    terms is exact enough for every score from 0 to 100. *)
Theorem X2_unanimous_factors
    (ip_address : string -> option IPAddress) (sanitize_str : string -> string)
    (parse : string -> option ParsedUserAgent) (local_hour : Z -> option Z)
    (is_email : string -> bool) (math : MathLib)
    (request_data : AnalyzeRequest) (ctx : RequestContext) (st st' : AppState)
    (resp : AnalyzeResponse) :
  Api.analyze_risk ip_address sanitize_str parse local_hour is_email math request_data ctx st
  = (Response resp, st') ->
  score_datetime (scores resp) = score_ip (scores resp) ->
  score_userAgent (scores resp) = score_ip (scores resp) ->
  score_geolocation (scores resp) = score_ip (scores resp) ->
  score_overall (scores resp) = score_ip (scores resp).
Proof.
  intros H E1 E2 E3. apply analyze_risk_response_inv in H as [_ Hs].
  apply score_request_spec in Hs as [(R0 & _) (z & Hz & <- & _)].
  rewrite E1, E2, E3 in Hz. rewrite (overall_score_unanimous _ R0) in Hz.
  congruence.
Qed.

Lemma X2_unanimous_factors_witness :
  Api.analyze_risk Example.ip_address Example.sanitize_str Example.parse
    Example.local_hour Example.is_email Example.math
    (Example.request "73.45.123.45" Example.desktop_agent Example.afternoon nil)
    (Example.context 0%Q false) Example.unloaded_state
  = (Response
       (mkAnalyzeResponse
          (mkResponseMeta "req_0123456789ab" "user@example.com" Example.afternoon 12
             Settings.MODELS_VERSION)
          (mkRiskScores 50 50 50 50 50)),
     snd (Api.check_rate_limit Api.verify_api_key (Example.context 0%Q false)
            Example.unloaded_state)) /\
  50 = 50.
Proof.
  assert (H : Api.analyze_risk Example.ip_address Example.sanitize_str Example.parse
                Example.local_hour Example.is_email Example.math
                (Example.request "73.45.123.45" Example.desktop_agent Example.afternoon nil)
                (Example.context 0%Q false) Example.unloaded_state
              = (Response
                   (mkAnalyzeResponse
                      (mkResponseMeta "req_0123456789ab" "user@example.com"
                         Example.afternoon 12 Settings.MODELS_VERSION)
                      (mkRiskScores 50 50 50 50 50)),
                 snd (Api.check_rate_limit Api.verify_api_key (Example.context 0%Q false)
                        Example.unloaded_state)))
    by (vm_compute; reflexivity).
  split; [exact H|].
  exact (X2_unanimous_factors Example.ip_address Example.sanitize_str Example.parse
           Example.local_hour Example.is_email Example.math _ _ _ _ _ H eq_refl eq_refl eq_refl).
Defined.

(** ** The handler and the start-up, [api/main.py] lines 84-129 and 254-409 *)

Lemma predict_risk_not_ready (ip_address : string -> option IPAddress)
    (parse : string -> option ParsedUserAgent) (local_hour : Z -> option Z)
    (math : MathLib) (m : RiskModel) (input : ModelInput) (h : list LoginHistoryItem) :
  Api.model_ready m = false ->
  Api.predict_risk ip_address parse local_hour math m input h = 50.
Proof.
  destruct m as [m|m|m|m]; simpl; intros H.
  - unfold IPRiskModel.predict_risk. rewrite not_loaded_negb, H. reflexivity.
  - unfold DateTimeRiskModel.predict_risk. rewrite not_loaded_negb, H. reflexivity.
  - unfold UserAgentRiskModel.predict_risk. rewrite not_loaded_negb, H. reflexivity.
  - unfold GeolocationRiskModel.predict_risk. rewrite not_loaded_negb, H. reflexivity.
Qed.

(** X3.  When none of the four registered detectors has a loaded or
    trained model, every request that passes the handler's checks is
    answered with the scores 50, 50, 50, 50 and overall 50, whatever the
    session and the history. *)
Theorem X3_all_neutral_without_models
    (ip_address : string -> option IPAddress) (sanitize_str : string -> string)
    (parse : string -> option ParsedUserAgent) (local_hour : Z -> option Z)
    (is_email : string -> bool) (math : MathLib)
    (request_data : AnalyzeRequest) (ctx : RequestContext) (st : AppState)
    (m_ip m_datetime m_useragent m_geolocation : RiskModel) :
  Api.accepted ip_address is_email request_data ctx st ->
  models st !! "ip" = Some m_ip ->
  models st !! "datetime" = Some m_datetime ->
  models st !! "useragent" = Some m_useragent ->
  models st !! "geolocation" = Some m_geolocation ->
  Api.model_ready m_ip = false ->
  Api.model_ready m_datetime = false ->
  Api.model_ready m_useragent = false ->
  Api.model_ready m_geolocation = false ->
  exists resp,
    Api.analyze_risk ip_address sanitize_str parse local_hour is_email math request_data ctx st
    = (Response resp,
       Api.cache_result request_data ctx (mkRiskScores 50 50 50 50 50)
         (snd (Api.check_rate_limit Api.verify_api_key ctx st))) /\
    scores resp = mkRiskScores 50 50 50 50 50.
Proof.
  intros (Hv & Hr & Hi & Ht) E0 E1 E2 E3 N0 N1 N2 N3.
  unfold Api.analyze_risk. rewrite Hv. cbn [negb].
  pose proof (check_rate_limit_models Api.verify_api_key ctx st) as Hm.
  destruct (Api.check_rate_limit Api.verify_api_key ctx st) as [allowed st1].
  cbn [fst snd] in *. subst allowed. cbn [negb]. rewrite Hi, Ht. cbn [negb].
  unfold Api.score_request. rewrite Hm, E0, E1, E2, E3.
  rewrite !predict_risk_not_ready by assumption.
  rewrite (overall_score_unanimous 50) by lia.
  change (clamp 50) with 50.
  change (Api.make_risk_scores 50 50 50 50 50) with (Some (mkRiskScores 50 50 50 50 50)).
  eexists. split; reflexivity.
Qed.

Lemma X3_all_neutral_without_models_witness :
  exists resp,
    Api.analyze_risk Example.ip_address Example.sanitize_str Example.parse
      Example.local_hour Example.is_email Example.math
      (Example.request "104.16.1.1" Example.headless_agent Example.night
         (Example.burst Example.night))
      (Example.context 0%Q false) Example.unloaded_state
    = (Response resp,
       Api.cache_result
         (Example.request "104.16.1.1" Example.headless_agent Example.night
            (Example.burst Example.night))
         (Example.context 0%Q false) (mkRiskScores 50 50 50 50 50)
         (snd (Api.check_rate_limit Api.verify_api_key (Example.context 0%Q false)
                Example.unloaded_state))) /\
    scores resp = mkRiskScores 50 50 50 50 50.
Proof.
  apply (X3_all_neutral_without_models Example.ip_address Example.sanitize_str
           Example.parse Example.local_hour Example.is_email Example.math
           (Example.request "104.16.1.1" Example.headless_agent Example.night
              (Example.burst Example.night))
           (Example.context 0%Q false) Example.unloaded_state
           (IPModel IPRiskModel.init) (DateTimeModel DateTimeRiskModel.init)
           (UserAgentModel UserAgentRiskModel.init)
           (GeolocationModel GeolocationRiskModel.init));
    try reflexivity.
  repeat split; vm_compute; reflexivity.
Defined.

Lemma check_rate_limit_results (api_key : string) (ctx : RequestContext) (st : AppState) :
  redis_results (snd (Api.check_rate_limit api_key ctx st)) = redis_results st.
Proof.
  unfold Api.check_rate_limit. destruct (redis_available ctx).
  - destruct (_ && _).
    + destruct (Api.check_rate_limit_memory _ _ _). reflexivity.
    + destruct (Api.check_rate_limit_redis _ _ _). reflexivity.
  - destruct (Api.check_rate_limit_memory _ _ _). reflexivity.
Qed.

(** X4.  What [analyze_risk] leaves behind.  A request refused by the
    request model (login status, history over 1000 items, malformed
    email) changes nothing.  Every other request that is not answered
    with scores, whether refused for the rate limit or for its address or
    timestamp or failed with status 500, leaves exactly the state of the
    rate-limit check, so a refused request still counts against the
    limit.  An answered request leaves the state of the rate-limit check
    with, when the [SETEX] of the result cache succeeds, the key
    "risk_score:<userId>:<ip>" set to the scores of the response with a
    time to live of 300 seconds and every other cached result as before;
    when the [SETEX] fails, the state of the rate-limit check.  The
    [models] dictionary is never changed. *)
Theorem X4_state_after_request
    (ip_address : string -> option IPAddress) (sanitize_str : string -> string)
    (parse : string -> option ParsedUserAgent) (local_hour : Z -> option Z)
    (is_email : string -> bool) (math : MathLib)
    (request_data : AnalyzeRequest) (ctx : RequestContext) (st : AppState) :
  let result :=
    fst (Api.analyze_risk ip_address sanitize_str parse local_hour is_email math
           request_data ctx st) in
  let after :=
    snd (Api.analyze_risk ip_address sanitize_str parse local_hour is_email math
           request_data ctx st) in
  let checked := snd (Api.check_rate_limit Api.verify_api_key ctx st) in
  (Api.request_model_valid is_email request_data = false -> after = st) /\
  (Api.request_model_valid is_email request_data = true ->
   (forall resp, result <> Response resp) -> after = checked) /\
  (forall resp, result = Response resp ->
     redis_db after = redis_db checked /\
     rate_limit_cache after = rate_limit_cache checked /\
     (redis_setex_ok ctx = true ->
      redis_results after !! Api.result_cache_key request_data
      = Some (mkCachedScores (scores resp) 300%Q) /\
      forall key, key <> Api.result_cache_key request_data ->
                  redis_results after !! key = redis_results st !! key) /\
     (redis_setex_ok ctx = false -> after = checked)) /\
  Api.result_cache_key request_data
  = ("risk_score:" ++ userId request_data ++ ":" ++ ip (currentSession request_data))%string /\
  models after = models st.
Proof.
  intros result after checked. subst result after checked.
  pose proof (check_rate_limit_models Api.verify_api_key ctx st) as Hm.
  pose proof (check_rate_limit_results Api.verify_api_key ctx st) as Hres.
  unfold Api.analyze_risk.
  destruct (Api.request_model_valid is_email request_data); cbn [negb].
  2:{ split; [reflexivity|]. split; [discriminate|]. split; [discriminate|].
      split; reflexivity. }
  destruct (Api.check_rate_limit Api.verify_api_key ctx st) as [a st1].
  cbn [fst snd] in *. split; [discriminate|].
  assert (Hrefused : forall code detail,
             (true = true -> (forall resp, HTTPException code detail <> Response resp) ->
              st1 = st1) /\
             (forall resp, HTTPException code detail = Response resp ->
                redis_db st1 = redis_db st1 /\
                rate_limit_cache st1 = rate_limit_cache st1 /\
                (redis_setex_ok ctx = true ->
                 redis_results st1 !! Api.result_cache_key request_data
                 = Some (mkCachedScores (scores resp) 300%Q) /\
                 forall key, key <> Api.result_cache_key request_data ->
                             redis_results st1 !! key = redis_results st !! key) /\
                (redis_setex_ok ctx = false -> st1 = st1)) /\
             Api.result_cache_key request_data
             = ("risk_score:" ++ userId request_data ++ ":"
                ++ ip (currentSession request_data))%string /\
             models st1 = models st).
  { intros code detail. split; [reflexivity|]. split; [discriminate|].
    split; [reflexivity | exact Hm]. }
  destruct a; cbn [negb]; [|apply Hrefused].
  destruct (Validators.validate_ip_address _ _); cbn [negb]; [|apply Hrefused].
  destruct (Validators.validate_timestamp _); cbn [negb]; [|apply Hrefused].
  destruct (Api.score_request _ _ _ _ _ _) as [rs|]; cbn [fst snd]; [|apply Hrefused].
  split; [intros _ H; exfalso; exact (H _ eq_refl)|].
  split.
  - intros resp [= <-]. cbn [scores]. unfold Api.cache_result.
    destruct (redis_setex_ok ctx); cbn [redis_db rate_limit_cache redis_results].
    + split; [reflexivity|]. split; [reflexivity|]. split; [|discriminate].
      intros _. split.
      * rewrite lookup_insert_eq. reflexivity.
      * intros key Hk. rewrite lookup_insert_ne by congruence. rewrite Hres. reflexivity.
    + split; [reflexivity|]. split; [reflexivity|]. split; [discriminate|reflexivity].
  - split; [reflexivity|]. unfold Api.cache_result.
    destruct (redis_setex_ok ctx); cbn [models]; exact Hm.
Qed.

(** X4 at an answered request with Redis up: the scores of the response
    are cached under the key of the user and the address. *)
Lemma X4_state_after_request_witness :
  redis_results
    (snd (Api.analyze_risk Example.ip_address Example.sanitize_str Example.parse
            Example.local_hour Example.is_email Example.math
            (Example.request "73.45.123.45" Example.desktop_agent Example.afternoon nil)
            (Example.context 0%Q true) Example.ip_trained_state))
  !! "risk_score:user@example.com:73.45.123.45"
  = Some (mkCachedScores (mkRiskScores 52 50 50 50 50) 300%Q).
Proof.
  pose proof (X4_state_after_request Example.ip_address Example.sanitize_str
                Example.parse Example.local_hour Example.is_email Example.math
                (Example.request "73.45.123.45" Example.desktop_agent Example.afternoon nil)
                (Example.context 0%Q true) Example.ip_trained_state) as H.
  cbv zeta in H. destruct H as (_ & _ & H & _).
  specialize (H (mkAnalyzeResponse
                   (mkResponseMeta "req_0123456789ab" "user@example.com"
                      Example.afternoon 12 Settings.MODELS_VERSION)
                   (mkRiskScores 52 50 50 50 50))).
  destruct H as (_ & _ & H & _); [vm_compute; reflexivity|].
  destruct (H eq_refl) as [H1 _]. exact H1.
Defined.

Lemma startup_event_registered
    (ip_file : option IPRiskModel.Fitted) (datetime_file : option DateTimeRiskModel.Fitted)
    (useragent_file : option UserAgentRiskModel.Fitted)
    (geolocation_file : option GeolocationRiskModel.Fitted) (st : AppState) :
  Api.registered
    (Api.startup_event ip_file datetime_file useragent_file geolocation_file st).
Proof.
  unfold Api.registered, Api.startup_event. cbn [models].
  repeat split; eexists; simplify_map_eq; reflexivity.
Qed.

(** X5.  [startup_event] puts the four detectors in the [models]
    dictionary whatever model files exist and whatever the dictionary
    held, and leaves the rate-limit state alone; from then on no request
    is answered with the status 500 of the handler's [except] branch. *)
Theorem X5_startup_registers_detectors
    (ip_address : string -> option IPAddress) (sanitize_str : string -> string)
    (parse : string -> option ParsedUserAgent) (local_hour : Z -> option Z)
    (is_email : string -> bool) (math : MathLib)
    (ip_file : option IPRiskModel.Fitted) (datetime_file : option DateTimeRiskModel.Fitted)
    (useragent_file : option UserAgentRiskModel.Fitted)
    (geolocation_file : option GeolocationRiskModel.Fitted) (st : AppState) :
  let started :=
    Api.startup_event ip_file datetime_file useragent_file geolocation_file st in
  Api.registered started /\
  redis_db started = redis_db st /\
  rate_limit_cache started = rate_limit_cache st /\
  (forall name, name <> "ip" -> name <> "datetime" -> name <> "useragent" ->
                name <> "geolocation" -> models started !! name = models st !! name) /\
  (forall request_data ctx detail,
      fst (Api.analyze_risk ip_address sanitize_str parse local_hour is_email math
             request_data ctx started) <> HTTPException 500 detail).
Proof.
  intros started. subst started.
  pose proof (startup_event_registered ip_file datetime_file useragent_file
                geolocation_file st) as Hreg.
  split; [exact Hreg|]. split; [reflexivity|]. split; [reflexivity|]. split.
  - intros name H1 H2 H3 H4. unfold Api.startup_event. cbn [models].
    rewrite !lookup_insert_ne by congruence. reflexivity.
  - intros request_data ctx detail.
    set (started := Api.startup_event _ _ _ _ _) in *.
    unfold Api.analyze_risk.
    destruct (Api.request_model_valid is_email request_data); [|discriminate].
    cbn [negb].
    pose proof (check_rate_limit_models Api.verify_api_key ctx started) as Hm.
    destruct (Api.check_rate_limit Api.verify_api_key ctx started) as [a st1].
    cbn [snd] in Hm. destruct a; [|discriminate]. cbn [negb].
    destruct (Validators.validate_ip_address _ _); [|discriminate]. cbn [negb].
    destruct (Validators.validate_timestamp _); [|discriminate]. cbn [negb].
    assert (Hreg1 : Api.registered st1) by (unfold Api.registered; rewrite Hm; exact Hreg).
    destruct (score_request_total ip_address sanitize_str parse local_hour math
                request_data st1 Hreg1) as [rs ->].
    discriminate.
Qed.

(** ** The rate limiter, [api/main.py] lines 146-172 *)

Lemma redis_expire_other_key (t : Q) (k : string) (db : gmap string RedisEntry)
    (secs : Q) (other : string) :
  other <> k -> Redis.expire t db k secs !! other = db !! other.
Proof.
  intros Hne. unfold Redis.expire.
  destruct (Redis.get t db k); [apply lookup_insert_ne; congruence | reflexivity].
Qed.

Lemma redis_check_other_key (t : Q) (k : string) (db : gmap string RedisEntry)
    (other : string) :
  other <> k -> snd (Api.check_rate_limit_redis t k db) !! other = db !! other.
Proof.
  intros Hne. unfold Api.check_rate_limit_redis, Redis.incr.
  destruct (Redis.get t db k) as [e|]; cbn [snd];
    match goal with |- context [if ?c then _ else _] => destruct c end;
    rewrite ?redis_expire_other_key by exact Hne;
    apply lookup_insert_ne; congruence.
Qed.

Lemma redis_incr_other_key (t : Q) (k : string) (db : gmap string RedisEntry)
    (other : string) :
  other <> k -> snd (Redis.incr t db k) !! other = db !! other.
Proof.
  intros Hne. unfold Redis.incr.
  destruct (Redis.get t db k); cbn [snd]; apply lookup_insert_ne; congruence.
Qed.

(** X6.  A rate-limit check touches one key: the Redis counter and the
    in-process list of every other key are as before, and the cached
    results are as before.  A check in which every Redis call succeeds
    leaves the in-process lists alone; a check in which the client or
    [INCR] fails leaves Redis alone.  A check in which [INCR] returns 1
    and [EXPIRE] then fails changes both: Redis keeps the incremented
    counter (for a key that was absent: the count 1 with no time to
    live), and the check is answered by the fallback, which records the
    request in the in-process list. *)
Theorem X6_rate_limit_key_isolation
    (api_key : string) (ctx : RequestContext) (st : AppState) (other : string) :
  other <> Api.rate_limit_key api_key (client_host ctx) ->
  let cache_key := Api.rate_limit_key api_key (client_host ctx) in
  let after := snd (Api.check_rate_limit api_key ctx st) in
  let current := fst (Redis.incr (now ctx) (redis_db st) cache_key) in
  redis_db after !! other = redis_db st !! other /\
  rate_limit_cache after !! other = rate_limit_cache st !! other /\
  redis_results after = redis_results st /\
  (redis_available ctx = true -> current <> 1 \/ redis_expire_ok ctx = true ->
   rate_limit_cache after = rate_limit_cache st) /\
  (redis_available ctx = false -> redis_db after = redis_db st) /\
  (redis_available ctx = true -> current = 1 -> redis_expire_ok ctx = false ->
   redis_db after = snd (Redis.incr (now ctx) (redis_db st) cache_key) /\
   (Redis.get (now ctx) (redis_db st) cache_key = None ->
    redis_db after !! cache_key = Some (mkRedisEntry 1 None)) /\
   Api.check_rate_limit api_key ctx st
   = (fst (Api.check_rate_limit_memory (now ctx) cache_key (rate_limit_cache st)),
      mkAppState (snd (Redis.incr (now ctx) (redis_db st) cache_key)) (redis_results st)
        (snd (Api.check_rate_limit_memory (now ctx) cache_key (rate_limit_cache st)))
        (models st))).
Proof.
  intros Hne cache_key after current. subst cache_key after current.
  pose proof (check_rate_limit_results api_key ctx st) as Hres.
  split; [|split; [|split; [exact Hres|]]].
  - unfold Api.check_rate_limit. destruct (redis_available ctx).
    + destruct (_ && _).
      * destruct (Api.check_rate_limit_memory _ _ _). cbn [snd redis_db].
        apply redis_incr_other_key. exact Hne.
      * pose proof (redis_check_other_key (now ctx) _ (redis_db st) other Hne) as H.
        destruct (Api.check_rate_limit_redis _ _ _) as [ok db]. exact H.
    + destruct (Api.check_rate_limit_memory _ _ _). reflexivity.
  - unfold Api.check_rate_limit. destruct (redis_available ctx).
    + destruct (_ && _).
      * unfold Api.check_rate_limit_memory. cbn [snd rate_limit_cache].
        apply lookup_insert_ne. congruence.
      * destruct (Api.check_rate_limit_redis _ _ _). reflexivity.
    + unfold Api.check_rate_limit_memory. cbn [snd rate_limit_cache].
      apply lookup_insert_ne. congruence.
  - unfold Api.check_rate_limit.
    destruct (redis_available ctx); (split; [|split]); try discriminate.
    + intros _ Hok.
      assert (E : (fst (Redis.incr (now ctx) (redis_db st)
                          (Api.rate_limit_key api_key (client_host ctx))) =? 1)
                  && negb (redis_expire_ok ctx) = false).
      { destruct Hok as [Hc|He].
        - apply Z.eqb_neq in Hc. rewrite Hc. reflexivity.
        - rewrite He. apply andb_false_r. }
      rewrite E. destruct (Api.check_rate_limit_redis _ _ _). reflexivity.
    + intros _ Hc He. apply Z.eqb_eq in Hc. rewrite Hc, He. cbn [negb andb].
      destruct (Api.check_rate_limit_memory _ _ _) as [ok cache] eqn:Em.
      cbn [fst snd redis_db]. split; [reflexivity|]. split; [|reflexivity].
      intros Hg. unfold Redis.incr. rewrite Hg. cbn [snd].
      apply lookup_insert_eq.
    + intros _. destruct (Api.check_rate_limit_memory _ _ _). reflexivity.
Qed.

(** X6 at the first request of a peer when [EXPIRE] fails: the shared
    counter of the peer is left at 1 with no time to live, the request
    is recorded in the fallback list as well, and the counter of another
    peer is untouched. *)
Lemma X6_rate_limit_key_isolation_witness :
  "rate_limit:no-auth-required:198.51.100.9"
  <> Api.rate_limit_key Api.verify_api_key (client_host Example.expire_fails) /\
  redis_db (snd (Api.check_rate_limit Api.verify_api_key Example.expire_fails
                   Api.initial_state))
    !! "rate_limit:no-auth-required:198.51.100.9"
  = redis_db Api.initial_state !! "rate_limit:no-auth-required:198.51.100.9" /\
  redis_db (snd (Api.check_rate_limit Api.verify_api_key Example.expire_fails
                   Api.initial_state))
    !! "rate_limit:no-auth-required:203.0.113.7"
  = Some (mkRedisEntry 1 None) /\
  rate_limit_cache (snd (Api.check_rate_limit Api.verify_api_key Example.expire_fails
                           Api.initial_state))
    !! "rate_limit:no-auth-required:203.0.113.7"
  = Some (0%Q :: nil).
Proof.
  assert (H : "rate_limit:no-auth-required:198.51.100.9"
              <> Api.rate_limit_key Api.verify_api_key
                   (client_host Example.expire_fails))
    by (vm_compute; discriminate).
  split; [exact H|].
  pose proof (X6_rate_limit_key_isolation Api.verify_api_key Example.expire_fails
                Api.initial_state _ H) as X.
  cbv zeta in X. destruct X as (X1 & _ & _ & _ & _ & X6).
  split; [exact X1|].
  destruct X6 as (_ & X7 & X8); [reflexivity..|].
  split; [apply X7; reflexivity|].
  rewrite X8. vm_compute. reflexivity.
Defined.

(** X7.  The shared counter on a key that has an entry with a time to
    live: a request before the expiry adds one to the count, keeps the
    expiry, and is admitted exactly when the new count is at most 100; a
    request at or after the expiry is admitted, and opens a window of 60
    seconds with the count 1. *)
Theorem X7_shared_counter_step
    (cache_key : string) (db : gmap string RedisEntry) (n : Z) (e t : Q) :
  db !! cache_key = Some (mkRedisEntry n (Some e)) ->
  1 <= n ->
  ((t < e)%Q ->
   Api.check_rate_limit_redis t cache_key db
   = (n + 1 <=? 100, <[cache_key := mkRedisEntry (n + 1) (Some e)]> db)) /\
  ((e <= t)%Q ->
   Api.check_rate_limit_redis t cache_key db
   = (true, <[cache_key := mkRedisEntry 1 (Some (t + 60)%Q)]> db)).
Proof.
  intros Hdb Hn.
  assert (G : Redis.get t db cache_key
              = if Qltb t e then Some (mkRedisEntry n (Some e)) else None).
  { unfold Redis.get. rewrite Hdb. reflexivity. }
  unfold Api.check_rate_limit_redis, Redis.incr. rewrite G. split; intros Ht.
  - apply Qltb_lt in Ht. rewrite Ht. cbn [value expires_at].
    assert (E : (n + 1 =? 1) = false) by (apply Z.eqb_neq; lia).
    rewrite E. reflexivity.
  - assert (E : Qltb t e = false).
    { destruct (Qltb t e) eqn:E; [|reflexivity]. apply Qltb_lt in E.
      exfalso. apply (Qlt_not_le _ _ E Ht). }
    rewrite E. change (1 =? 1) with true. cbv iota.
    unfold Redis.expire, Redis.get. rewrite lookup_insert_eq.
    change (Redis.live t (mkRedisEntry 1 None)) with true. cbv iota.
    rewrite insert_insert_eq. reflexivity.
Qed.

Lemma X7_shared_counter_step_witness :
  (redis_db Example.exhausted_state
     !! Api.rate_limit_key Api.verify_api_key "203.0.113.7"
   = Some (mkRedisEntry 100 (Some 60%Q)) /\ 1 <= 100) /\
  Api.check_rate_limit_redis 59%Q (Api.rate_limit_key Api.verify_api_key "203.0.113.7")
    (redis_db Example.exhausted_state)
  = (false, <[Api.rate_limit_key Api.verify_api_key "203.0.113.7"
              := mkRedisEntry 101 (Some 60%Q)]> (redis_db Example.exhausted_state)) /\
  Api.check_rate_limit_redis 60%Q (Api.rate_limit_key Api.verify_api_key "203.0.113.7")
    (redis_db Example.exhausted_state)
  = (true, <[Api.rate_limit_key Api.verify_api_key "203.0.113.7"
             := mkRedisEntry 1 (Some (60 + 60)%Q)]> (redis_db Example.exhausted_state)).
Proof.
  assert (H : redis_db Example.exhausted_state
                !! Api.rate_limit_key Api.verify_api_key "203.0.113.7"
              = Some (mkRedisEntry 100 (Some 60%Q))) by (vm_compute; reflexivity).
  assert (Hn : 1 <= 100) by lia.
  destruct (X7_shared_counter_step _ _ 100 60%Q 59%Q H Hn) as [A _].
  destruct (X7_shared_counter_step _ _ 100 60%Q 60%Q H Hn) as [_ B].
  split; [split; assumption|]. split.
  - apply A. lra.
  - apply B. lra.
Defined.

Lemma filter_within_later (t t' : Q) (l : list Q) :
  (t <= t')%Q ->
  List.filter (Sliding.within t') (List.filter (Sliding.within t) l)
  = List.filter (Sliding.within t') l.
Proof.
  intros Ht. induction l as [|x l IH]; [reflexivity|].
  cbn [List.filter].
  destruct (Sliding.within t x) eqn:E.
  - cbn [List.filter]. rewrite IH. reflexivity.
  - rewrite IH.
    assert (E' : Sliding.within t' x = false).
    { destruct (Sliding.within t' x) eqn:E'; [|reflexivity].
      unfold Sliding.within in *. apply Qltb_lt in E'.
      assert (Hc : Qltb (t - x) Settings.RATE_LIMIT_PERIOD = true)
        by (apply Qltb_lt; unfold Settings.RATE_LIMIT_PERIOD in *; lra).
      congruence. }
    rewrite E'. reflexivity.
Qed.

Lemma within_self (t : Q) : Sliding.within t t = true.
Proof. apply Qltb_lt. unfold Settings.RATE_LIMIT_PERIOD. lra. Qed.

Lemma run_memory_sliding (cache_key : string) (times : list Q) :
  forall (seen stored : list Q) (cache : gmap string (list Q)),
    (cache !! cache_key = Some stored \/ (cache !! cache_key = None /\ stored = nil)) ->
    (forall t, In t times ->
               List.filter (Sliding.within t) stored = List.filter (Sliding.within t) seen) ->
    StronglySorted Qle times ->
    Runs.run_memory cache_key times cache = Sliding.decisions seen times.
Proof.
  induction times as [|t times IH]; intros seen stored cache Hc Hinv Hs; [reflexivity|].
  cbn [Runs.run_memory Sliding.decisions]. unfold Api.check_rate_limit_memory.
  assert (Hl : match cache !! cache_key with Some l => l | None => nil end = stored).
  { destruct Hc as [->|[-> ->]]; reflexivity. }
  rewrite Hl. fold (Sliding.within t).
  rewrite (Hinv t (or_introl eq_refl)).
  assert (Happ : List.filter (Sliding.within t) (seen ++ t :: nil)
                 = List.filter (Sliding.within t) seen ++ t :: nil).
  { rewrite List.filter_app. cbn [List.filter]. rewrite within_self. reflexivity. }
  rewrite Happ. f_equal.
  apply StronglySorted_inv in Hs as [Hs Hall].
  apply (IH (seen ++ t :: nil) (List.filter (Sliding.within t) seen ++ t :: nil)).
  - left. apply lookup_insert_eq.
  - intros t' Ht'.
    assert (Hle : (t <= t')%Q) by (exact (proj1 (List.Forall_forall _ _) Hall t' Ht')).
    rewrite !List.filter_app. rewrite filter_within_later by exact Hle. reflexivity.
  - exact Hs.
Qed.

(** X8.  With a clock that never goes back, the in-process fallback on
    a fresh key is a sliding window: each request is rejected exactly
    when more than a hundred of the requests so far, itself and the
    rejected ones included, were made less than 60 seconds before it. *)
Theorem X8_fallback_is_sliding_window
    (cache_key : string) (times : list Q) (cache : gmap string (list Q)) :
  cache !! cache_key = None ->
  StronglySorted Qle times ->
  Runs.run_memory cache_key times cache = Sliding.decisions nil times.
Proof.
  intros Hc Hs. apply (run_memory_sliding cache_key times nil nil cache).
  - right. split; [exact Hc | reflexivity].
  - reflexivity.
  - exact Hs.
Qed.

Lemma X8_fallback_is_sliding_window_witness :
  StronglySorted Qle (0%Q :: 59%Q :: 61%Q :: nil) /\
  Runs.run_memory "k" (0%Q :: 59%Q :: 61%Q :: nil) ∅
  = Sliding.decisions nil (0%Q :: 59%Q :: 61%Q :: nil).
Proof.
  assert (H : StronglySorted Qle (0%Q :: 59%Q :: 61%Q :: nil)).
  { repeat constructor; lra. }
  split; [exact H|].
  exact (X8_fallback_is_sliding_window "k" _ ∅ (lookup_empty _) H).
Defined.

(** ** The client-agent detector, [ml_models/useragent_model.py] lines 175-253 *)

Lemma lower_lacks (c : ascii) :
  (forall x, PyStr.lower_char x <> c) ->
  forall t, PyStr.contains (String c "") (PyStr.lower t) = false.
Proof.
  intros Hc. induction t as [|x t IH]; [reflexivity|].
  cbn [PyStr.lower PyStr.contains]. rewrite IH, orb_false_r.
  cbn [String.prefix]. destruct (ascii_dec c (PyStr.lower_char x)) as [E|]; [|reflexivity].
  exfalso. apply (Hc x). symmetry. exact E.
Qed.

Lemma windows_nt_test_never_holds (s : string) :
  PyStr.contains "Windows NT" (PyStr.lower s) = false.
Proof.
  destruct (PyStr.contains "Windows NT" (PyStr.lower s)) eqn:E; [|reflexivity].
  exfalso. apply contains_app in E as (pre & post & E).
  assert (H : PyStr.contains "W" (PyStr.lower s) = false).
  { apply lower_lacks. intros x. unfold PyStr.lower_char.
    destruct x as [[] [] [] [] [] [] [] []]; vm_compute; discriminate. }
  rewrite E in H.
  assert (PyStr.contains "W" (pre +:+ "Windows NT" +:+ post) = true); [|congruence].
  apply contains_app. exists pre, ("indows NT" +:+ post)%string. reflexivity.
Qed.

(** X9.  Two tests of the rule layer look for a capitalised word in the
    lower-cased agent string and so never hold: the touch-support rule
    never raises the score, the rule layer does not depend on
    [touchSupport], and the floor 90 is given for "puppeteer" alone. *)
Theorem X9_capitalised_tests_never_hold
    (ua : ParsedUserAgent) (user_agent : string) (touch : option bool)
    (login_history : list LoginHistoryItem) (base_risk : Z) :
  let ua_str := PyStr.lower user_agent in
  UserAgentRiskModel.touch_rule touch ua_str base_risk = base_risk /\
  UserAgentRiskModel.puppeteer_rule ua_str base_risk
  = (if PyStr.contains "puppeteer" ua_str then Z.max base_risk 90 else base_risk) /\
  UserAgentRiskModel.rule_layer ua ua_str touch login_history base_risk
  = UserAgentRiskModel.rule_layer ua ua_str None login_history base_risk.
Proof.
  intros ua_str. subst ua_str.
  assert (T : forall t b, UserAgentRiskModel.touch_rule t (PyStr.lower user_agent) b = b).
  { intros t b. unfold UserAgentRiskModel.touch_rule.
    rewrite windows_nt_test_never_holds, andb_false_r. reflexivity. }
  split; [apply T|]. split.
  - unfold UserAgentRiskModel.puppeteer_rule.
    rewrite headless_chrome_test_never_holds, orb_false_r. reflexivity.
  - unfold UserAgentRiskModel.rule_layer. rewrite !T. reflexivity.
Qed.

Lemma useragent_rules_floors (ua : ParsedUserAgent) (ua_str : string)
    (touch : option bool) (h : list LoginHistoryItem) (b : Z) :
  0 <= b <= 100 ->
  b <= UserAgentRiskModel.rule_layer ua ua_str touch h b /\
  UserAgentRiskModel.bot_rule ua b <= UserAgentRiskModel.rule_layer ua ua_str touch h b /\
  UserAgentRiskModel.short_rule ua_str 0 <= UserAgentRiskModel.rule_layer ua ua_str touch h b.
Proof.
  intros Hb.
  unfold UserAgentRiskModel.rule_layer, UserAgentRiskModel.history_rule,
    UserAgentRiskModel.touch_rule, UserAgentRiskModel.short_rule,
    UserAgentRiskModel.outdated_rule, UserAgentRiskModel.puppeteer_rule,
    UserAgentRiskModel.headless_rule, UserAgentRiskModel.bot_rule.
  destruct (browser_major ua) as [major|];
    [destruct (UserAgentRiskModel.outdated_browsers !! browser_family ua) as [minimum|]|];
  repeat match goal with
         | |- context [if ?c then _ else _] => destruct c
         | |- context [match ?l with nil => _ | _ => _ end] => destruct l
         end; lia.
Qed.

Lemma len_lower (s : string) : PyStr.len (PyStr.lower s) = PyStr.len s.
Proof.
  induction s as [|c s IH]; [reflexivity|]. cbn [PyStr.lower PyStr.len]. rewrite IH.
  assert (E : PyStr.is_continuation (PyStr.lower_char c) = PyStr.is_continuation c)
    by (destruct c as [[] [] [] [] [] [] [] []]; reflexivity).
  rewrite E. reflexivity.
Qed.

(** X10.  When the client-agent detector's model runs and its [try]
    block does not raise, no rule lowers the clamped base risk; an agent
    the parser calls a bot scores at least 80, and an agent string of
    ASCII characters that is shorter than 20 characters, the empty one
    included, at least 75. *)
Theorem X10_useragent_bot_and_short_floors
    (parse : string -> option ParsedUserAgent) (m : UserAgentRiskModel.t)
    (f : UserAgentRiskModel.Fitted) (current_session : ModelInput)
    (login_history : list LoginHistoryItem)
    (mse threshold exp_value : spec_float) (base_risk : Z) (ua : ParsedUserAgent) :
  not_loaded m = false ->
  model m = Some f ->
  f (userAgent (mi_session current_session)) current_session
  = AEResult mse threshold exp_value ->
  UserAgentRiskModel.model_base_risk mse threshold exp_value = Some base_risk ->
  parse (userAgent (mi_session current_session)) = Some ua ->
  let s := UserAgentRiskModel.predict_risk parse m current_session login_history in
  base_risk <= s <= 100 /\
  (is_bot ua = true -> 80 <= s) /\
  (PyStr.is_ascii (userAgent (mi_session current_session)) = true ->
   (PyStr.len (userAgent (mi_session current_session)) < 20)%nat -> 75 <= s).
Proof.
  intros Hl Hm Hf Hb Hp s.
  pose proof (useragent_base_range _ _ _ _ Hb) as Hr.
  assert (E : s = UserAgentRiskModel.rule_layer ua
                    (PyStr.lower (userAgent (mi_session current_session)))
                    (touchSupport (mi_session current_session)) login_history base_risk).
  { subst s. unfold UserAgentRiskModel.predict_risk, UserAgentRiskModel.predict_risk_body.
    rewrite Hl, Hm, Hf, Hb, Hp. reflexivity. }
  rewrite E. clear E s.
  set (ua_str := PyStr.lower (userAgent (mi_session current_session))).
  pose proof (useragent_rule_layer_range ua ua_str
                (touchSupport (mi_session current_session)) login_history base_risk Hr) as Hrange.
  destruct (useragent_rules_floors ua ua_str (touchSupport (mi_session current_session))
              login_history base_risk Hr) as (H1 & H2 & H3).
  split; [lia|]. split.
  - intros Hbot. unfold UserAgentRiskModel.bot_rule in H2. rewrite Hbot in H2. lia.
  - intros _ Hlen. unfold UserAgentRiskModel.short_rule in H3.
    assert (Hs : (Z.of_nat (PyStr.len ua_str) <? 20) = true).
    { apply Z.ltb_lt. subst ua_str. rewrite len_lower. lia. }
    rewrite Hs in H3. lia.
Qed.

(** X10 at the agent "curl/7.64.1" (11 characters) with an autoencoder
    that reconstructs the input exactly: base 0, score 75. *)
Lemma X10_useragent_bot_and_short_floors_witness :
  PyStr.is_ascii Example2.short_agent = true /\
  (PyStr.len Example2.short_agent < 20)%nat /\
  75 <= UserAgentRiskModel.predict_risk Example.parse Example.useragent_trained
          (Example.input "73.45.123.45" Example2.short_agent Example.afternoon
             Example.new_york nil) nil <= 100.
Proof.
  assert (Hasc : PyStr.is_ascii Example2.short_agent = true) by reflexivity.
  assert (Hlen : (PyStr.len Example2.short_agent < 20)%nat) by (vm_compute; lia).
  split; [exact Hasc|]. split; [exact Hlen|].
  destruct (X10_useragent_bot_and_short_floors Example.parse Example.useragent_trained
              Example.autoencoder_exact
              (Example.input "73.45.123.45" Example2.short_agent Example.afternoon
                 Example.new_york nil) nil
              Example.f_zero Example.f_one Example.f_one 0
              (mkParsedUserAgent false "Chrome" (Some 120))
              eq_refl eq_refl eq_refl eq_refl eq_refl) as (H1 & _ & H3).
  specialize (H3 Hasc Hlen). cbv zeta in H1, H3. lia.
Defined.

(** ** The geographic detector, [ml_models/geolocation_model.py] lines 174-263 *)

(** X11.  When the geographic detector's model runs, the computation of
    the speed against the most recent history item does not raise, and
    that speed exceeds 2000 km/h, the base risk is discarded: the score
    is 100 if the last ten logins within 24 hours name more than three
    countries, and 95 otherwise, also when the base risk was above 95. *)
Theorem X11_extreme_speed_overrides_base
    (math : MathLib) (m : GeolocationRiskModel.t) (f : GeolocationRiskModel.Fitted)
    (current_session : ModelInput) (login_history : list LoginHistoryItem)
    (base_risk : Z) (last_login : LoginHistoryItem) (speed : spec_float) :
  not_loaded m = false ->
  model m = Some f ->
  GeolocationRiskModel.model_base_risk
    (f GeolocationRiskModel.default_location (timestamp (mi_session current_session))
       login_history) = Some base_risk ->
  PyList.max_by h_timestamp login_history = Some last_login ->
  GeolocationRiskModel.detector_speed math GeolocationRiskModel.default_location
    (timestamp (mi_session current_session)) last_login = Some speed ->
  PyMath.float_gt speed (float_lit 2000) = true ->
  GeolocationRiskModel.predict_risk math m current_session login_history
  = if 3 <? PyList.distinct_strings
              (GeolocationRiskModel.recent_countries
                 (timestamp (mi_session current_session)) login_history)
    then 100 else 95.
Proof.
  intros Hl Hm Hb Hlast Hspeed H2000.
  rewrite (geolocation_predict_with_history math m f current_session login_history
             base_risk last_login Hl Hm Hb Hlast).
  rewrite Hspeed. unfold GeolocationRiskModel.travel_rule.
  change GeolocationRiskModel.max_travel_speed_kmh with (float_lit 900).
  assert (H900 : PyMath.float_gt speed (float_lit 900) = true)
    by (apply (float_gt_weaken speed 900 2000); [reflexivity | exact H2000]).
  rewrite H900, H2000. unfold GeolocationRiskModel.country_rule.
  destruct (3 <? _); reflexivity.
Qed.

(** X11 with a clustering that gives the base risk 100 and a login at the
    very millisecond of the session: the speed is infinite and the score
    is 95. *)
Lemma X11_extreme_speed_overrides_base_witness :
  GeolocationRiskModel.model_base_risk
    (Example2.dbscan_far GeolocationRiskModel.default_location Example.afternoon
       Example.same_instant_history) = Some 100 /\
  GeolocationRiskModel.detector_speed Example.math GeolocationRiskModel.default_location
    Example.afternoon (Example.login Example.afternoon Example.new_york success)
  = Some PyMath.inf /\
  GeolocationRiskModel.predict_risk Example.math Example2.geolocation_far
    (Example.input "73.45.123.45" Example.desktop_agent Example.afternoon
       Example.new_york Example.same_instant_history) Example.same_instant_history
  = 95.
Proof.
  assert (Hb : GeolocationRiskModel.model_base_risk
                 (Example2.dbscan_far GeolocationRiskModel.default_location
                    Example.afternoon Example.same_instant_history) = Some 100)
    by (vm_compute; reflexivity).
  assert (Hs : GeolocationRiskModel.detector_speed Example.math
                 GeolocationRiskModel.default_location Example.afternoon
                 (Example.login Example.afternoon Example.new_york success)
               = Some PyMath.inf)
    by (vm_compute; reflexivity).
  split; [exact Hb|]. split; [exact Hs|].
  exact (X11_extreme_speed_overrides_base Example.math Example2.geolocation_far
           Example2.dbscan_far
           (Example.input "73.45.123.45" Example.desktop_agent Example.afternoon
              Example.new_york Example.same_instant_history)
           Example.same_instant_history 100
           (Example.login Example.afternoon Example.new_york success) PyMath.inf
           eq_refl eq_refl Hb eq_refl Hs eq_refl).
Defined.

(** X12.  The geographic detector returns the clamped base risk
    unchanged when the history is empty, and also when the computation
    of the speed against the most recent history item does not raise,
    that speed does not exceed 500 km/h and the last ten logins within 24
    hours name at most three countries: the high-risk-country floor never
    applies, the scored location being the built-in one.  When the
    computation of the speed raises, the score is the neutral 50. *)
Theorem X12_geolocation_score_without_rules
    (math : MathLib) (m : GeolocationRiskModel.t) (f : GeolocationRiskModel.Fitted)
    (current_session : ModelInput) (login_history : list LoginHistoryItem)
    (base_risk : Z) :
  not_loaded m = false ->
  model m = Some f ->
  GeolocationRiskModel.model_base_risk
    (f GeolocationRiskModel.default_location (timestamp (mi_session current_session))
       login_history) = Some base_risk ->
  (login_history = nil ->
   GeolocationRiskModel.predict_risk math m current_session login_history = base_risk) /\
  (forall last_login speed,
      PyList.max_by h_timestamp login_history = Some last_login ->
      GeolocationRiskModel.detector_speed math GeolocationRiskModel.default_location
        (timestamp (mi_session current_session)) last_login = Some speed ->
      PyMath.float_gt speed (float_lit 500) = false ->
      PyList.distinct_strings
        (GeolocationRiskModel.recent_countries
           (timestamp (mi_session current_session)) login_history) <= 3 ->
      GeolocationRiskModel.predict_risk math m current_session login_history = base_risk) /\
  (forall last_login,
      PyList.max_by h_timestamp login_history = Some last_login ->
      GeolocationRiskModel.detector_speed math GeolocationRiskModel.default_location
        (timestamp (mi_session current_session)) last_login = None ->
      GeolocationRiskModel.predict_risk math m current_session login_history = 50).
Proof.
  intros Hl Hm Hb. split; [|split].
  - intros ->.
    unfold GeolocationRiskModel.predict_risk, GeolocationRiskModel.predict_risk_body.
    rewrite Hl, Hm, Hb. reflexivity.
  - intros last_login speed Hlast Hspeed H500 Hc.
    rewrite (geolocation_predict_with_history math m f current_session login_history
               base_risk last_login Hl Hm Hb Hlast).
    rewrite Hspeed. unfold GeolocationRiskModel.travel_rule.
    change GeolocationRiskModel.max_travel_speed_kmh with (float_lit 900).
    assert (H900 : PyMath.float_gt speed (float_lit 900) = false).
    { destruct (PyMath.float_gt speed (float_lit 900)) eqn:E; [|reflexivity].
      rewrite (float_gt_weaken speed 500 900 eq_refl E) in H500. discriminate. }
    rewrite H900, H500. unfold GeolocationRiskModel.country_rule.
    apply Z.ltb_ge in Hc. rewrite Hc. reflexivity.
  - intros last_login Hlast Hspeed.
    rewrite (geolocation_predict_with_history math m f current_session login_history
               base_risk last_login Hl Hm Hb Hlast).
    rewrite Hspeed. reflexivity.
Qed.

(** X12 at a last login next to the antipode of New York: the distance
    computation raises and the score is 50. *)
Lemma X12_geolocation_score_without_rules_witness :
  GeolocationRiskModel.detector_speed Example.math GeolocationRiskModel.default_location
    Example.afternoon (Example.login (Example.afternoon - 2520000) Example.far_south success)
  = None /\
  GeolocationRiskModel.predict_risk Example.math Example.geolocation_trained
    (Example.input "73.45.123.45" Example.desktop_agent Example.afternoon
       Example.london Example2.far_south_history) Example2.far_south_history = 50 /\
  GeolocationRiskModel.predict_risk Example.math Example.geolocation_trained
    (Example.input "73.45.123.45" Example.desktop_agent Example.afternoon
       Example.london nil) nil = 50.
Proof.
  assert (Hs : GeolocationRiskModel.detector_speed Example.math
                 GeolocationRiskModel.default_location Example.afternoon
                 (Example.login (Example.afternoon - 2520000) Example.far_south success)
               = None) by (vm_compute; reflexivity).
  split; [exact Hs|]. split.
  - exact (proj2 (proj2 (X12_geolocation_score_without_rules Example.math
                           Example.geolocation_trained Example.dbscan_no_core
                           (Example.input "73.45.123.45" Example.desktop_agent
                              Example.afternoon Example.london Example2.far_south_history)
                           Example2.far_south_history 50 eq_refl eq_refl eq_refl))
             _ eq_refl Hs).
  - exact (proj1 (X12_geolocation_score_without_rules Example.math
                    Example.geolocation_trained Example.dbscan_no_core
                    (Example.input "73.45.123.45" Example.desktop_agent Example.afternoon
                       Example.london nil) nil 50 eq_refl eq_refl eq_refl) eq_refl).
Defined.

(** ** The address detector, [ml_models/ip_model.py] lines 122-190 *)

(** X13.  When the address detector's scaler and SVM return: a known
    bad address scores exactly 90, whatever the SVM says; otherwise the
    score is at least the larger of the datacenter base score and the
    SVM band score (0 to 30 for an inlier, 31 to 100 for an outlier), at
    most 20 more, and exactly that with an empty history; if the
    conversion of the decision score fails the score is 50. *)
Theorem X13_address_score_bands
    (ip_address : string -> option IPAddress) (m : IPRiskModel.t)
    (f : IPRiskModel.Fitted) (current_session : ModelInput)
    (login_history : list LoginHistoryItem)
    (prediction : Z) (decision_score : spec_float) :
  not_loaded (IPRiskModel.base m) = false ->
  model (IPRiskModel.base m) = Some f ->
  f (ip (mi_session current_session)) (timestamp (mi_session current_session))
    login_history = SVMResult prediction decision_score ->
  let s := IPRiskModel.predict_risk ip_address m current_session login_history in
  let a := ip (mi_session current_session) in
  (a ∈ IPRiskModel.known_bad_ips m -> s = 90) /\
  (a ∉ IPRiskModel.known_bad_ips m ->
   IPRiskModel.risk_score prediction decision_score = None -> s = 50) /\
  (a ∉ IPRiskModel.known_bad_ips m ->
   forall rs, IPRiskModel.risk_score prediction decision_score = Some rs ->
     (if prediction =? 1 then 0 <= rs <= 30 else 31 <= rs <= 100) /\
     Z.max (IPRiskModel.base_score ip_address a) rs <= s /\
     s <= Z.min 100 (Z.max (IPRiskModel.base_score ip_address a) rs + 20) /\
     (login_history = nil -> s = Z.max (IPRiskModel.base_score ip_address a) rs)).
Proof.
  intros Hl Hm Hf s a. subst s a.
  unfold IPRiskModel.predict_risk, IPRiskModel.predict_risk_body.
  rewrite Hl, Hm, Hf. split; [|split].
  - intros Hin. rewrite bool_decide_eq_true_2 by exact Hin. reflexivity.
  - intros Hin Hrs. rewrite bool_decide_eq_false_2 by exact Hin. rewrite Hrs. reflexivity.
  - intros Hin rs Hrs. rewrite bool_decide_eq_false_2 by exact Hin. rewrite Hrs.
    cbn [or_default_50].
    pose proof (ip_base_score_range ip_address (ip (mi_session current_session))) as Hbs.
    split.
    + revert Hrs. unfold IPRiskModel.risk_score.
      destruct (prediction =? 1); destruct (PyFloat.py_int _); try discriminate;
        intros [= <-]; lia.
    + pose proof (ip_risk_score_range _ _ _ Hrs) as Hr.
      unfold IPRiskModel.frequent_ip_change.
      destruct login_history as [|x l].
      * repeat split; try lia.
      * destruct (3 <? _); repeat split; try lia; discriminate.
Qed.

(** X13 at a private address, an SVM that calls it an inlier with
    decision score 0.875 and an empty history: the score is 21. *)
Lemma X13_address_score_bands_witness :
  IPRiskModel.risk_score 1 Example.f_0_875 = Some 21 /\
  IPRiskModel.predict_risk Example.ip_address (Example2.ip_trained ∅)
    (Example.input "192.168.1.1" Example.desktop_agent Example.afternoon
       Example.new_york nil) nil
  = Z.max (IPRiskModel.base_score Example.ip_address "192.168.1.1") 21.
Proof.
  assert (Hrs : IPRiskModel.risk_score 1 Example.f_0_875 = Some 21)
    by (vm_compute; reflexivity).
  split; [exact Hrs|].
  destruct (X13_address_score_bands Example.ip_address (Example2.ip_trained ∅)
              Example2.svm_inlier
              (Example.input "192.168.1.1" Example.desktop_agent Example.afternoon
                 Example.new_york nil) nil 1 Example.f_0_875
              eq_refl eq_refl eq_refl) as (_ & _ & H).
  cbv zeta in H.
  assert (Hn : "192.168.1.1" ∉ IPRiskModel.known_bad_ips (Example2.ip_trained ∅))
    by (apply not_elem_of_empty).
  destruct (H Hn 21 Hrs) as (_ & _ & _ & E).
  exact (E eq_refl).
Defined.

(** ** Distances and travel, [utils/geo_utils.py] lines 33-63 *)

(** X14.  The great-circle distance of the analyzer and of the
    geographic detector is one formula.  When the float [a] of the
    formula is negative, or [1 - a] is negative ([a] rounded above 1, as
    happens next to an antipode), the distance raises in both classes;
    then the travel-speed helper and the impossible-travel predicate of
    the analyzer raise for every positive time difference, while for a
    time difference of zero or less they compute no distance and return
    infinity and [True]; the travel speed of the detector raises whatever
    the two times, the same instant included, and the detector scores
    the neutral 50. *)
Theorem X14_haversine_distance_raises
    (math : MathLib) (lat1 lon1 lat2 lon2 a : spec_float) :
  GeoLocationAnalyzer.haversine_a math lat1 lon1 lat2 lon2 = Some a ->
  PyMath.float_lt a PyMath.zero = true \/
  PyMath.float_lt (fsub PyMath.one a) PyMath.zero = true ->
  GeoLocationAnalyzer.haversine_distance math lat1 lon1 lat2 lon2 = None /\
  GeolocationRiskModel.haversine_distance math lat1 lon1 lat2 lon2 = None /\
  (forall time_diff_ms, 0 < time_diff_ms ->
     GeoLocationAnalyzer.calculate_travel_speed math lat1 lon1 lat2 lon2 time_diff_ms = None /\
     GeoLocationAnalyzer.is_impossible_travel math lat1 lon1 lat2 lon2 time_diff_ms = None) /\
  (forall time_diff_ms, time_diff_ms <= 0 ->
     GeoLocationAnalyzer.calculate_travel_speed math lat1 lon1 lat2 lon2 time_diff_ms
     = Some PyMath.inf /\
     GeoLocationAnalyzer.is_impossible_travel math lat1 lon1 lat2 lon2 time_diff_ms
     = Some true) /\
  (forall loc1 loc2 time1 time2,
     latitude loc1 = lat1 -> longitude loc1 = lon1 ->
     latitude loc2 = lat2 -> longitude loc2 = lon2 ->
     GeolocationRiskModel.calculate_travel_speed math loc1 loc2 time1 time2 = None) /\
  (forall m f current_session login_history base_risk last_login,
     not_loaded m = false ->
     model m = Some f ->
     GeolocationRiskModel.model_base_risk
       (f GeolocationRiskModel.default_location (timestamp (mi_session current_session))
          login_history) = Some base_risk ->
     PyList.max_by h_timestamp login_history = Some last_login ->
     latitude GeolocationRiskModel.default_location = lat1 ->
     longitude GeolocationRiskModel.default_location = lon1 ->
     latitude (h_location last_login) = lat2 ->
     longitude (h_location last_login) = lon2 ->
     GeolocationRiskModel.predict_risk math m current_session login_history = 50).
Proof.
  intros Ha Hneg.
  pose proof (haversine_raises math lat1 lon1 lat2 lon2 a Ha Hneg) as Hd.
  assert (Hdet : forall loc1 loc2 time1 time2,
             latitude loc1 = lat1 -> longitude loc1 = lon1 ->
             latitude loc2 = lat2 -> longitude loc2 = lon2 ->
             GeolocationRiskModel.calculate_travel_speed math loc1 loc2 time1 time2 = None).
  { intros loc1 loc2 time1 time2 E1 E2 E3 E4.
    unfold GeolocationRiskModel.calculate_travel_speed.
    rewrite detector_haversine_is_analyzer, E1, E2, E3, E4, Hd. reflexivity. }
  split; [exact Hd|]. split; [rewrite detector_haversine_is_analyzer; exact Hd|].
  split; [|split; [|split; [exact Hdet|]]].
  - intros dt Hpos.
    assert (E : GeoLocationAnalyzer.calculate_travel_speed math lat1 lon1 lat2 lon2 dt = None).
    { unfold GeoLocationAnalyzer.calculate_travel_speed.
      assert (E : (dt <=? 0) = false) by (apply Z.leb_gt; exact Hpos).
      rewrite E, Hd. reflexivity. }
    split; [exact E|]. unfold GeoLocationAnalyzer.is_impossible_travel. rewrite E.
    reflexivity.
  - intros dt Hle.
    assert (E : GeoLocationAnalyzer.calculate_travel_speed math lat1 lon1 lat2 lon2 dt
                = Some PyMath.inf).
    { unfold GeoLocationAnalyzer.calculate_travel_speed.
      assert (E : (dt <=? 0) = true) by (apply Z.leb_le; exact Hle).
      rewrite E. reflexivity. }
    split; [exact E|]. unfold GeoLocationAnalyzer.is_impossible_travel. rewrite E.
    reflexivity.
  - intros m f current_session login_history base_risk last_login
           Hl Hm Hb Hlast H1 H2 H3 H4.
    rewrite (geolocation_predict_with_history math m f current_session login_history
               base_risk last_login Hl Hm Hb Hlast).
    unfold GeolocationRiskModel.detector_speed.
    rewrite (Hdet _ _ _ _ H1 H2 H3 H4). reflexivity.
Qed.

(** X14 from New York to the point (-40.71280018, 105.9940001): [a] is
    1.0000000000000002, the distance raises, and so does the travel
    speed of the detector at the same instant. *)
Lemma X14_haversine_distance_raises_witness :
  GeoLocationAnalyzer.haversine_a Example.math
    (latitude Example.new_york) (longitude Example.new_york)
    (latitude Example.far_south) (longitude Example.far_south)
  = Some (S754_finite false 4503599627370497 (-52)) /\
  PyMath.float_lt (fsub PyMath.one (S754_finite false 4503599627370497 (-52))) PyMath.zero
  = true /\
  GeoLocationAnalyzer.haversine_distance Example.math
    (latitude Example.new_york) (longitude Example.new_york)
    (latitude Example.far_south) (longitude Example.far_south) = None /\
  GeolocationRiskModel.calculate_travel_speed Example.math
    Example.new_york Example.far_south Example.afternoon Example.afternoon = None.
Proof.
  assert (Ha : GeoLocationAnalyzer.haversine_a Example.math
                 (latitude Example.new_york) (longitude Example.new_york)
                 (latitude Example.far_south) (longitude Example.far_south)
               = Some (S754_finite false 4503599627370497 (-52)))
    by (vm_compute; reflexivity).
  assert (Hn : PyMath.float_lt (fsub PyMath.one (S754_finite false 4503599627370497 (-52)))
                 PyMath.zero = true)
    by (vm_compute; reflexivity).
  destruct (X14_haversine_distance_raises Example.math _ _ _ _ _ Ha (or_intror Hn))
    as (H1 & _ & _ & _ & H5 & _).
  split; [exact Ha|]. split; [exact Hn|]. split; [exact H1|].
  apply H5; reflexivity.
Defined.

(** ** The feature row of the address detector, [ml_models/ip_model.py]
    lines 33-93 *)

Lemma distinct_strings_sublist (l1 l2 : list string) :
  (forall x, In x l1 -> In x l2) ->
  0 <= PyList.distinct_strings l1 <= PyList.distinct_strings l2.
Proof.
  intros H. unfold PyList.distinct_strings. split; [lia|].
  apply inj_le, subseteq_size. intros x Hx.
  apply elem_of_list_to_set, list_elem_of_In in Hx.
  apply elem_of_list_to_set, list_elem_of_In, H, Hx.
Qed.

Lemma distinct_strings_member (x : string) (l : list string) :
  In x l -> 1 <= PyList.distinct_strings l.
Proof.
  intros H. unfold PyList.distinct_strings.
  change 1 with (Z.of_nat 1). apply inj_le.
  rewrite <- (size_singleton (C := gset string) x).
  apply subseteq_size. intros y Hy. apply elem_of_singleton in Hy as ->.
  apply elem_of_list_to_set, list_elem_of_In, H.
Qed.

Lemma string_in_In (x : string) (l : list string) :
  PyStr.string_in x l = true -> In x l.
Proof.
  unfold PyStr.string_in. intros H. apply existsb_exists in H as (y & Hy & E).
  apply String.eqb_eq in E. subst y. exact Hy.
Qed.

(** X16.  The feature row of the address detector has ten entries
    whether or not the address parses and whether or not the data carry
    a login history; the entries 0 to 5, 7 and 8 are flags (0 or 1); the
    count of distinct addresses of the last 24 hours (entry 9) is at
    most the count of distinct addresses of the history (entry 6); and
    when the address was seen before (entry 7) that count is at least
    one. *)
Theorem X16_feature_row_shape
    (ip_object : string -> option IPObject) (known_bad_ips : gset string) (data : IPData) :
  let row := IPFeatures.extract_features ip_object known_bad_ips data in
  List.length row = 10%nat /\
  (forall i, In i (0 :: 1 :: 2 :: 3 :: 4 :: 5 :: 7 :: 8 :: nil)%nat ->
             nth i row 0 = 0 \/ nth i row 0 = 1) /\
  0 <= nth 9 row 0 <= nth 6 row 0 /\
  (nth 7 row 0 = 1 -> 1 <= nth 6 row 0).
Proof.
  intros row. subst row. unfold IPFeatures.extract_features.
  destruct (ip_object (data_ip data)) as [o|].
  - destruct (data_login_history data) as [h|]; cbn [app].
    + split; [reflexivity|]. split; [|split].
      * intros i Hi. cbn [In] in Hi.
        repeat (destruct Hi as [<-|Hi]; [cbn [nth]; unfold IPFeatures.flag;
          match goal with |- context [if ?c then _ else _] => destruct c end; auto|]).
        contradiction.
      * cbn [nth]. apply distinct_strings_sublist. intros x Hx.
        unfold IPFeatures.recent_ips in Hx.
        apply in_map_iff in Hx as (item & <- & Hitem).
        apply filter_In in Hitem as [Hitem _]. apply in_map, Hitem.
      * cbn [nth]. unfold IPFeatures.flag.
        destruct (PyStr.string_in (data_ip data) (List.map h_ip h)) eqn:E; [|discriminate].
        intros _. apply (distinct_strings_member (data_ip data)), string_in_In, E.
    + split; [reflexivity|]. split; [|split].
      * intros i Hi. cbn [In] in Hi.
        repeat (destruct Hi as [<-|Hi]; [cbn [nth]; unfold IPFeatures.flag;
          try match goal with |- context [if ?c then _ else _] => destruct c end; auto|]).
        contradiction.
      * cbn [nth]. lia.
      * cbn [nth]. discriminate.
  - cbn [repeat]. split; [reflexivity|]. split; [|split].
    + intros i Hi. cbn [In] in Hi.
      repeat (destruct Hi as [<-|Hi]; [cbn [nth]; auto|]). contradiction.
    + cbn [nth]. lia.
    + cbn [nth]. discriminate.
Qed.

(** ** The nearest major city, [utils/geo_utils.py] lines 159-174 *)

(** Something below a bound is below every number that is not below the
    bound. *)
Lemma SFltb_below_bound (x m k : spec_float) :
  SFltb x k = true -> SFltb m k = false -> PyMath.is_nan m = false -> SFltb x m = true.
Proof.
  unfold SFltb, PyMath.is_nan.
  destruct x as [sx|sx| |sx mx ex], m as [sm|sm| |sm mm em], k as [sk|sk| |sk mk ek];
    cbn [SFcompare]; try discriminate;
    repeat match goal with
           | s : bool |- _ => destruct s
           end; try discriminate; try reflexivity; intros H1 H2 _.
  all: change (Pos.compare_cont Eq) with Pos.compare in *.
  all: destruct (Z.compare_spec ex ek), (Z.compare_spec em ek), (Z.compare_spec ex em);
         try discriminate; try reflexivity; try lia; subst.
  all: repeat match goal with
         | H : context [CompOpp (Pos.compare ?a ?b)] |- _ =>
             rewrite <- (Pos.compare_antisym b a) in H
         | |- context [CompOpp (Pos.compare ?a ?b)] =>
             rewrite <- (Pos.compare_antisym b a)
         end.
  all: repeat match goal with
         | H : context [Pos.compare ?a ?b] |- _ =>
             destruct (Pos.compare_spec a b); try discriminate
         | |- context [Pos.compare ?a ?b] =>
             destruct (Pos.compare_spec a b); try discriminate
         end; try reflexivity; try lia.
Qed.

Lemma SFltb_not_nan (x y : spec_float) : SFltb x y = true -> PyMath.is_nan x = false.
Proof. destruct x; [reflexivity..|discriminate|reflexivity]. Qed.

Lemma scan_spec (math : MathLib) (lat lon : spec_float)
    (cities : list (string * (spec_float * spec_float))) :
  forall (seen : list (string * (spec_float * spec_float)))
         (acc : spec_float * option string),
    PyMath.is_nan (fst acc) = false ->
    (forall c' la' lo', In (c', (la', lo')) seen ->
       exists d', GeoLocationAnalyzer.haversine_distance math lat lon la' lo' = Some d' /\
                  PyMath.float_lt d' (fst acc) = false) ->
    (acc = (PyMath.inf, None) \/
     exists c la lo, snd acc = Some c /\ In (c, (la, lo)) seen /\
                     GeoLocationAnalyzer.haversine_distance math lat lon la lo
                     = Some (fst acc)) ->
    (forall found, GeoPatterns.scan math lat lon cities acc = Some found ->
       PyMath.is_nan (fst found) = false /\
       (forall c' la' lo', In (c', (la', lo')) (seen ++ cities) ->
          exists d', GeoLocationAnalyzer.haversine_distance math lat lon la' lo' = Some d' /\
                     PyMath.float_lt d' (fst found) = false) /\
       (found = (PyMath.inf, None) \/
        exists c la lo, snd found = Some c /\ In (c, (la, lo)) (seen ++ cities) /\
                        GeoLocationAnalyzer.haversine_distance math lat lon la lo
                        = Some (fst found))) /\
    (GeoPatterns.scan math lat lon cities acc = None <->
     exists c' la' lo', In (c', (la', lo')) cities /\
                        GeoLocationAnalyzer.haversine_distance math lat lon la' lo' = None).
Proof.
  induction cities as [|[c1 [la1 lo1]] cities IH]; intros seen acc Hnan Hseen Hacc.
  - cbn [GeoPatterns.scan]. rewrite app_nil_r. split.
    + intros found [= <-]. auto.
    + split; [discriminate | intros (c' & la' & lo' & [] & _)].
  - cbn [GeoPatterns.scan]. unfold GeoPatterns.nearer.
    destruct (GeoLocationAnalyzer.haversine_distance math lat lon la1 lo1) as [d|] eqn:Ed.
    2:{ rewrite !bind_None. split; [discriminate|]. split; [|reflexivity].
        intros _. exists c1, la1, lo1. split; [left; reflexivity | exact Ed]. }
    rewrite !bind_Some.
    replace (seen ++ (c1, (la1, lo1)) :: cities)
      with ((seen ++ (c1, (la1, lo1)) :: nil) ++ cities)
      by (rewrite <- app_assoc; reflexivity).
    match goal with
    | |- context [GeoPatterns.scan math lat lon cities ?a] => set (acc' := a)
    end.
    assert (Hstep : PyMath.is_nan (fst acc') = false /\
                    (forall c' la' lo', In (c', (la', lo')) (seen ++ (c1, (la1, lo1)) :: nil) ->
                       exists d', GeoLocationAnalyzer.haversine_distance math lat lon la' lo'
                                  = Some d' /\
                                  PyMath.float_lt d' (fst acc') = false) /\
                    (acc' = (PyMath.inf, None) \/
                     exists c la lo, snd acc' = Some c /\
                                     In (c, (la, lo)) (seen ++ (c1, (la1, lo1)) :: nil) /\
                                     GeoLocationAnalyzer.haversine_distance math lat lon la lo
                                     = Some (fst acc'))).
    { subst acc'. destruct (PyMath.float_lt d (fst acc)) eqn:E.
      - cbn [fst snd]. split; [exact (SFltb_not_nan _ _ E)|]. split.
        + intros c' la' lo' H. apply in_app_or in H as [H|[H|[]]].
          * destruct (Hseen _ _ _ H) as (d' & Hd' & Hlt). exists d'. split; [exact Hd'|].
            unfold PyMath.float_lt in *.
            destruct (SFltb d' d) eqn:E'; [|reflexivity].
            rewrite (SFltb_trans _ _ _ E' E) in Hlt. discriminate.
          * injection H as <- <- <-. exists d. split; [exact Ed|].
            apply SFltb_irrefl.
        + right. exists c1, la1, lo1. split; [reflexivity|].
          split; [apply in_or_app; right; left; reflexivity | exact Ed].
      - split; [exact Hnan|]. split.
        + intros c' la' lo' H. apply in_app_or in H as [H|[H|[]]].
          * exact (Hseen _ _ _ H).
          * injection H as <- <- <-. exists d. auto.
        + destruct Hacc as [Hacc|(c & la & lo & H1 & H2 & H3)]; [left; exact Hacc|].
          right. exists c, la, lo. split; [exact H1|].
          split; [apply in_or_app; left; exact H2 | exact H3]. }
    destruct Hstep as (S1 & S2 & S3).
    destruct (IH (seen ++ (c1, (la1, lo1)) :: nil) acc' S1 S2 S3) as [I1 I2].
    split; [exact I1|]. rewrite I2. split.
    + intros (c' & la' & lo' & Hin & Hn). exists c', la', lo'. split; [right; exact Hin|exact Hn].
    + intros (c' & la' & lo' & [Hin|Hin] & Hn).
      * injection Hin as <- <- <-. congruence.
      * exists c', la', lo'. auto.
Qed.

Lemma nearest_city_spec (math : MathLib)
    (cities : list (string * (spec_float * spec_float))) (lat lon : spec_float) :
  (forall c, GeoPatterns.nearest_city math cities lat lon = Some (Some c) ->
     exists la lo d,
       In (c, (la, lo)) cities /\
       GeoLocationAnalyzer.haversine_distance math lat lon la lo = Some d /\
       PyMath.float_lt d (float_lit 50) = true /\
       forall c' la' lo', In (c', (la', lo')) cities ->
         exists d', GeoLocationAnalyzer.haversine_distance math lat lon la' lo' = Some d' /\
                    PyMath.float_lt d' d = false) /\
  (GeoPatterns.nearest_city math cities lat lon = Some None <->
   forall c' la' lo', In (c', (la', lo')) cities ->
     exists d', GeoLocationAnalyzer.haversine_distance math lat lon la' lo' = Some d' /\
                PyMath.float_lt d' (float_lit 50) = false) /\
  (GeoPatterns.nearest_city math cities lat lon = None <->
   exists c' la' lo', In (c', (la', lo')) cities /\
                      GeoLocationAnalyzer.haversine_distance math lat lon la' lo' = None).
Proof.
  unfold GeoPatterns.nearest_city.
  destruct (scan_spec math lat lon cities nil (PyMath.inf, None) eq_refl
              (fun c' la' lo' (H : In (c', (la', lo')) nil) => match H with end)
              (or_introl eq_refl)) as [Hsome Hnone].
  cbn [app] in Hsome.
  destruct (GeoPatterns.scan math lat lon cities (PyMath.inf, None)) as [found|].
  - rewrite bind_Some. destruct (Hsome found eq_refl) as (Hnan & Hall & Hfound).
    assert (Hno : ~ exists c' la' lo',
                     In (c', (la', lo')) cities /\
                     GeoLocationAnalyzer.haversine_distance math lat lon la' lo' = None).
    { intros H. apply Hnone in H. discriminate. }
    destruct (PyMath.float_lt (fst found) (float_lit 50)) eqn:E.
    + destruct Hfound as [->|(c & la & lo & H1 & H2 & H3)]; [discriminate E|].
      split; [|split].
      * intros c0 [= H0]. rewrite H1 in H0. injection H0 as <-.
        exists la, lo, (fst found). auto.
      * rewrite H1. split; [discriminate|]. intros H.
        destruct (H _ _ _ H2) as (d' & Hd' & Hlt). rewrite H3 in Hd'.
        injection Hd' as <-. congruence.
      * split; [discriminate | intros H; contradiction].
    + split; [discriminate|]. split.
      * split; [|reflexivity]. intros _ c' la' lo' H.
        destruct (Hall _ _ _ H) as (d' & Hd' & Hlt). exists d'. split; [exact Hd'|].
        unfold PyMath.float_lt in *. destruct (SFltb d' (float_lit 50)) eqn:E'; [|reflexivity].
        rewrite (SFltb_below_bound _ _ _ E' E Hnan) in Hlt. discriminate.
      * split; [discriminate | intros H; contradiction].
  - rewrite bind_None. split; [discriminate|]. split.
    + split; [discriminate|]. intros H.
      destruct (proj1 Hnone eq_refl) as (c' & la' & lo' & Hin & Hn).
      destruct (H _ _ _ Hin) as (d' & Hd' & _). congruence.
    + split; [intros _; apply Hnone; reflexivity | reflexivity].
Qed.

(** X17.  [get_city_from_coordinates] returns a city only if that city
    is in the table, its distance from the point is computed and is less
    than 50 km, every distance is computed and none is less than that of
    the city; it returns [None] exactly when every distance is computed
    and none is less than 50 km; and it raises exactly when the distance
    to some city of the table raises, as next to the antipode of a
    city. *)
Theorem X17_nearest_city_is_nearest (math : MathLib) (lat lon : spec_float) :
  (forall c, GeoPatterns.get_city_from_coordinates math lat lon = Some (Some c) ->
     exists la lo d,
       In (c, (la, lo)) GeoPatterns.major_cities /\
       GeoLocationAnalyzer.haversine_distance math lat lon la lo = Some d /\
       PyMath.float_lt d (float_lit 50) = true /\
       forall c' la' lo', In (c', (la', lo')) GeoPatterns.major_cities ->
         exists d', GeoLocationAnalyzer.haversine_distance math lat lon la' lo' = Some d' /\
                    PyMath.float_lt d' d = false) /\
  (GeoPatterns.get_city_from_coordinates math lat lon = Some None <->
   forall c' la' lo', In (c', (la', lo')) GeoPatterns.major_cities ->
     exists d', GeoLocationAnalyzer.haversine_distance math lat lon la' lo' = Some d' /\
                PyMath.float_lt d' (float_lit 50) = false) /\
  (GeoPatterns.get_city_from_coordinates math lat lon = None <->
   exists c' la' lo', In (c', (la', lo')) GeoPatterns.major_cities /\
                      GeoLocationAnalyzer.haversine_distance math lat lon la' lo' = None).
Proof. apply nearest_city_spec. Qed.

(** The nearest major city of New York is New York, at distance 0; next
    to the antipode of New York the distance to New York raises, and the
    method with it. *)
Lemma nearest_city_examples :
  GeoPatterns.get_city_from_coordinates Example.math
    (latitude Example.new_york) (longitude Example.new_york) = Some (Some "New York") /\
  GeoLocationAnalyzer.haversine_a Example.math
    (latitude Example.far_south) (longitude Example.far_south)
    (latitude Example.new_york) (longitude Example.new_york)
  = Some (S754_finite false 4503599627370497 (-52)) /\
  GeoPatterns.get_city_from_coordinates Example.math
    (latitude Example.far_south) (longitude Example.far_south) = None.
Proof. repeat split; vm_compute; reflexivity. Qed.

(** ** Location patterns, [utils/geo_utils.py] lines 94-157 *)

Lemma hops_step (math : MathLib) (prev loc : LocationDict) (rest : list LocationDict) :
  GeoPatterns.hops math (prev :: loc :: rest)
  = match GeoPatterns.hop math prev loc, GeoPatterns.hops math (loc :: rest) with
    | Some (Some d), Some ds => Some (d :: ds)
    | Some None, Some ds => Some ds
    | _, _ => None
    end.
Proof. reflexivity. Qed.

Lemma hops_length (math : MathLib) (locations : list LocationDict) :
  forall distances, GeoPatterns.hops math locations = Some distances ->
    (List.length distances <= List.length locations - 1)%nat.
Proof.
  induction locations as [|prev rest IH]; intros distances H.
  - injection H as <-. cbn. lia.
  - destruct rest as [|loc rest'].
    + injection H as <-. cbn. lia.
    + rewrite hops_step in H.
      destruct (GeoPatterns.hop math prev loc) as [[d|]|]; [| |discriminate];
        destruct (GeoPatterns.hops math (loc :: rest')) as [ds|]; try discriminate;
        injection H as <-; specialize (IH ds eq_refl); cbn [List.length] in *; lia.
Qed.

Lemma hops_raise (math : MathLib) (locations : list LocationDict) :
  GeoPatterns.hops math locations = None <->
  exists i prev loc,
    locations !! i = Some prev /\ locations !! S i = Some loc /\
    GeoPatterns.hop math prev loc = None.
Proof.
  induction locations as [|prev rest IH].
  - split; [discriminate | intros (i & p & l & H & _); discriminate].
  - destruct rest as [|loc rest'].
    + split; [discriminate|]. intros (i & p & l & _ & H & _). destruct i; discriminate.
    + rewrite hops_step. split.
      * intros H. destruct (GeoPatterns.hop math prev loc) as [o|] eqn:E.
        -- assert (Hr : GeoPatterns.hops math (loc :: rest') = None).
           { destruct o, (GeoPatterns.hops math (loc :: rest')); try discriminate;
               reflexivity. }
           apply IH in Hr as (i & p & l & H1 & H2 & H3).
           exists (S i), p, l. auto.
        -- exists 0%nat, prev, loc. auto.
      * intros (i & p & l & H1 & H2 & H3). destruct i as [|i].
        -- injection H1 as <-. injection H2 as <-. rewrite H3. reflexivity.
        -- assert (Hr : GeoPatterns.hops math (loc :: rest') = None)
             by (apply IH; exists i, p, l; auto).
           rewrite Hr. destruct (GeoPatterns.hop math prev loc) as [[d|]|]; reflexivity.
Qed.

Lemma hop_raise (math : MathLib) (prev loc : LocationDict) :
  GeoPatterns.hop math prev loc = None <->
  exists lat1 lat2,
    ld_latitude prev = Some lat1 /\ ld_latitude loc = Some lat2 /\
    (ld_longitude prev = None \/ ld_longitude loc = None \/
     exists lon1 lon2,
       ld_longitude prev = Some lon1 /\ ld_longitude loc = Some lon2 /\
       GeoLocationAnalyzer.haversine_distance math lat1 lon1 lat2 lon2 = None).
Proof.
  unfold GeoPatterns.hop.
  destruct (ld_latitude loc) as [lat2|], (ld_latitude prev) as [lat1|].
  2-4: split; [discriminate | intros (a & b & H1 & H2 & _); discriminate].
  destruct (ld_longitude prev) as [lon1|], (ld_longitude loc) as [lon2|].
  - destruct (GeoLocationAnalyzer.haversine_distance math lat1 lon1 lat2 lon2) eqn:E.
    + rewrite bind_Some. split; [discriminate|].
      intros (a & b & [= <-] & [= <-] & [H|[H|(x & y & [= <-] & [= <-] & H)]]);
        congruence.
    + split; [|reflexivity]. intros _. exists lat1, lat2. split; [reflexivity|].
      split; [reflexivity|]. right. right. exists lon1, lon2. auto.
  - split; [|reflexivity]. intros _. exists lat1, lat2. auto.
  - split; [|reflexivity]. intros _. exists lat1, lat2. auto.
  - split; [|reflexivity]. intros _. exists lat1, lat2. auto.
Qed.

Lemma fold_py_max_grows (distances : list spec_float) :
  forall m, fold_left GeoPatterns.py_max distances m = m \/
            SFltb m (fold_left GeoPatterns.py_max distances m) = true.
Proof.
  induction distances as [|d ds IH]; intros m; [left; reflexivity|].
  cbn [fold_left]. unfold GeoPatterns.py_max at 2 4. unfold PyMath.float_gt.
  destruct (SFltb m d) eqn:E.
  - right. destruct (IH d) as [->|H]; [exact E | exact (SFltb_trans _ _ _ E H)].
  - apply IH.
Qed.

Lemma fold_py_max_spec (distances : list spec_float) :
  forall m,
    (fold_left GeoPatterns.py_max distances m = m \/
     In (fold_left GeoPatterns.py_max distances m) distances) /\
    List.Forall
      (fun d => PyMath.float_gt d (fold_left GeoPatterns.py_max distances m) = false)
      distances.
Proof.
  induction distances as [|d ds IH]; intros m; [split; [left; reflexivity | constructor]|].
  cbn [fold_left]. destruct (IH (GeoPatterns.py_max m d)) as [Hin Hall].
  assert (Hd : SFltb (GeoPatterns.py_max m d) d = false).
  { unfold GeoPatterns.py_max, PyMath.float_gt. destruct (SFltb m d) eqn:E;
      [apply SFltb_irrefl | exact E]. }
  split.
  - destruct Hin as [Hin|Hin]; [|right; right; exact Hin].
    rewrite Hin. unfold GeoPatterns.py_max. destruct (PyMath.float_gt d m);
      [right; left; reflexivity | left; reflexivity].
  - constructor; [|exact Hall]. unfold PyMath.float_gt.
    destruct (fold_py_max_grows ds (GeoPatterns.py_max m d)) as [->|H]; [exact Hd|].
    destruct (SFltb (fold_left GeoPatterns.py_max ds (GeoPatterns.py_max m d)) d) eqn:E;
      [|reflexivity].
    rewrite (SFltb_trans _ _ _ H E) in Hd. discriminate.
Qed.

Lemma distinct_strings_length (l : list string) :
  0 <= PyList.distinct_strings l <= Z.of_nat (List.length l).
Proof.
  unfold PyList.distinct_strings. split; [lia|]. apply inj_le.
  induction l as [|x l IH]; [cbn; rewrite size_empty; lia|].
  cbn [list_to_set List.length].
  rewrite size_union_alt, size_singleton.
  assert (size (list_to_set l ∖ {[x]} : gset string) <= size (list_to_set l : gset string))%nat
    by (apply subseteq_size; intros y Hy; apply elem_of_difference in Hy; tauto).
  lia.
Qed.

Lemma present_length (keys : list (option string)) :
  (List.length (GeoPatterns.present keys) <= List.length keys)%nat.
Proof.
  unfold GeoPatterns.present. induction keys as [|[k|] keys IH]; cbn; lia.
Qed.

(** X18.  [analyze_location_pattern] raises exactly when two consecutive
    entries both carry a latitude and one of them lacks a longitude or
    the distance between them raises.  Whenever it returns: the counts of
    countries and cities are at most the number of entries, more than
    five countries are always suspicious, fewer than five entries never
    are, there are fewer steps than entries, the largest step is 0 or the
    distance of a step, and no step exceeds it. *)
Theorem X18_location_pattern_invariants (math : MathLib) (locations : list LocationDict) :
  (GeoPatterns.analyze_location_pattern math locations = None <->
   exists i prev loc lat1 lat2,
     locations !! i = Some prev /\ locations !! S i = Some loc /\
     ld_latitude prev = Some lat1 /\ ld_latitude loc = Some lat2 /\
     (ld_longitude prev = None \/ ld_longitude loc = None \/
      exists lon1 lon2,
        ld_longitude prev = Some lon1 /\ ld_longitude loc = Some lon2 /\
        GeoLocationAnalyzer.haversine_distance math lat1 lon1 lat2 lon2 = None)) /\
  (forall p, GeoPatterns.analyze_location_pattern math locations = Some p ->
     0 <= unique_countries p <= Z.of_nat (List.length locations) /\
     0 <= unique_cities p <= Z.of_nat (List.length locations) /\
     (5 < unique_countries p -> suspicious_pattern p = true) /\
     ((List.length locations < 5)%nat -> suspicious_pattern p = false) /\
     exists distances,
       GeoPatterns.hops math locations = Some distances /\
       (List.length distances <= List.length locations - 1)%nat /\
       (max_distance p = PyMath.zero \/ In (max_distance p) distances) /\
       List.Forall (fun d => PyMath.float_gt d (max_distance p) = false) distances).
Proof.
  assert (Hraise : GeoPatterns.hops math locations = None <->
                   exists i prev loc lat1 lat2,
                     locations !! i = Some prev /\ locations !! S i = Some loc /\
                     ld_latitude prev = Some lat1 /\ ld_latitude loc = Some lat2 /\
                     (ld_longitude prev = None \/ ld_longitude loc = None \/
                      exists lon1 lon2,
                        ld_longitude prev = Some lon1 /\ ld_longitude loc = Some lon2 /\
                        GeoLocationAnalyzer.haversine_distance math lat1 lon1 lat2 lon2
                        = None)).
  { rewrite hops_raise. split.
    - intros (i & prev & loc & H1 & H2 & H3).
      apply hop_raise in H3 as (lat1 & lat2 & H3 & H4 & H5).
      exists i, prev, loc, lat1, lat2. auto.
    - intros (i & prev & loc & lat1 & lat2 & H1 & H2 & H3 & H4 & H5).
      exists i, prev, loc. split; [exact H1|]. split; [exact H2|].
      apply hop_raise. exists lat1, lat2. auto. }
  destruct (list_eq_nil_dec locations) as [->|Hne].
  { split.
    - split; [discriminate|].
      intros (i & prev & loc & lat1 & lat2 & H & _). discriminate.
    - intros p [= <-].
      cbn [max_distance total_distance unique_countries unique_cities suspicious_pattern
           List.length].
      split; [lia|]. split; [lia|]. split; [lia|]. split; [reflexivity|].
      exists nil. split; [reflexivity|]. split; [cbn; lia|].
      split; [left; reflexivity | constructor]. }
  assert (E : GeoPatterns.analyze_location_pattern math locations
              = match GeoPatterns.hops math locations with
                | None => None
                | Some distances =>
                    Some (mkLocationPattern
                      (PyList.distinct_strings
                         (GeoPatterns.present (List.map ld_country locations)))
                      (PyList.distinct_strings
                         (GeoPatterns.present (List.map ld_city locations)))
                      (fold_left GeoPatterns.py_max distances PyMath.zero)
                      (fold_left PyFloat.fadd distances PyMath.zero)
                      ((5 <? PyList.distinct_strings
                               (GeoPatterns.present (List.map ld_country locations)))
                       || ((2 <? Z.of_nat (List.length locations))
                           && (3 <? Z.of_nat (List.length distances))
                           && GeoPatterns.long_short_long distances)))
                end).
  { destruct locations; [contradiction | reflexivity]. }
  rewrite E. clear E.
  destruct (GeoPatterns.hops math locations) as [ds|] eqn:Eh.
  - split.
    + split; [discriminate|]. intros H. apply Hraise in H. discriminate.
    + intros p [= <-].
      cbn [max_distance total_distance unique_countries unique_cities suspicious_pattern].
      pose proof (hops_length math locations ds Eh) as Hlen.
      pose proof (distinct_strings_length
                    (GeoPatterns.present (List.map ld_country locations))) as Hc.
      pose proof (distinct_strings_length
                    (GeoPatterns.present (List.map ld_city locations))) as Hy.
      pose proof (present_length (List.map ld_country locations)) as Pc.
      pose proof (present_length (List.map ld_city locations)) as Py.
      rewrite length_map in Pc, Py.
      destruct (fold_py_max_spec ds PyMath.zero) as [Hin Hall].
      split; [lia|]. split; [lia|]. split; [|split].
      * intros H5. apply Z.ltb_lt in H5. rewrite H5. reflexivity.
      * intros Hfew.
        assert (E1 : (5 <? PyList.distinct_strings
                             (GeoPatterns.present (List.map ld_country locations))) = false)
          by (apply Z.ltb_ge; lia).
        assert (E2 : (3 <? Z.of_nat (List.length ds)) = false) by (apply Z.ltb_ge; lia).
        rewrite E1, E2, andb_false_r. reflexivity.
      * exists ds. split; [reflexivity|]. split; [exact Hlen|]. split; assumption.
  - split; [|discriminate]. split; [intros _; apply Hraise; reflexivity | reflexivity].
Qed.

(** The location pattern of a trip from New York to London and back: two
    steps of 5570.2 km; and of a trip from New York to the point next to
    its antipode: the method raises. *)
Lemma location_pattern_examples :
  GeoPatterns.analyze_location_pattern Example.math
    (location_dict Example.new_york :: location_dict Example.london
     :: location_dict Example.new_york :: nil)
  = Some (mkLocationPattern 2 2
            (S754_finite false 6124524055917661 (-40))
            (S754_finite false 6124524055917661 (-39)) false) /\
  GeoPatterns.analyze_location_pattern Example.math
    (location_dict Example.new_york :: location_dict Example.far_south :: nil)
  = None.
Proof. split; vm_compute; reflexivity. Qed.

(** ** Saving and loading a model, [ml_models/base_model.py] lines 39-60 *)

(** X19.  A model saved with [save_model] and read back with
    [load_model] through the same path argument, by a detector with the
    same [model_path], comes back as the object that was saved, with
    [is_loaded] set, also when the object is the [None] of a detector
    that was never trained; every other file is left as it was.  An
    empty path argument counts as none: the detector's own path is
    used. *)
Theorem X19_save_then_load {F : Type}
    (writable : string -> bool) (path : option string) (m m' : StoredModel F)
    (files files' : gmap string (option F)) :
  model_path m' = model_path m ->
  Persistence.save_model writable path m files = inr files' ->
  Persistence.load_model path m' files'
  = inr (mkStoredModel (model_path m') (mkBaseRiskModel true (model (detector m)))) /\
  Persistence.load_model (Some "") m' files' = Persistence.load_model None m' files' /\
  exists save_path,
    Persistence.chosen_path path (model_path m) = Some save_path /\
    files' = <[save_path := model (detector m)]> files.
Proof.
  intros Hp Hs. unfold Persistence.save_model in Hs. unfold Persistence.load_model.
  rewrite Hp.
  destruct (Persistence.chosen_path path (model_path m)) as [p|] eqn:E; [|discriminate].
  destruct (Persistence.bare_name p); [discriminate|].
  destruct (writable p); [|discriminate].
  injection Hs as <-. rewrite lookup_insert_eq.
  split; [reflexivity|]. split; [reflexivity|].
  exists p. split; reflexivity.
Qed.

Lemma X19_save_then_load_witness :
  Persistence.load_model None
    (mkStoredModel (Some "./ml_models/trained_models/datetime_model.pkl")
       DateTimeRiskModel.init)
    (<["./ml_models/trained_models/datetime_model.pkl" := None]> ∅)
  = inr (mkStoredModel (Some "./ml_models/trained_models/datetime_model.pkl")
           (mkBaseRiskModel true None)).
Proof.
  exact (proj1 (X19_save_then_load (fun _ => true) None
                  (mkStoredModel (Some "./ml_models/trained_models/datetime_model.pkl")
                     DateTimeRiskModel.init)
                  (mkStoredModel (Some "./ml_models/trained_models/datetime_model.pkl")
                     DateTimeRiskModel.init)
                  ∅ _ eq_refl eq_refl)).
Defined.

(** X20.  What [save_model] and [load_model] refuse: without a path
    argument and without a [model_path] both raise [ValueError];
    [save_model] to a path without a directory part raises
    [FileNotFoundError] and writes nothing, although [load_model] reads
    such a path; [load_model] of a path that holds no file raises
    [FileNotFoundError]. *)
Theorem X20_save_and_load_errors {F : Type}
    (writable : string -> bool) (path : option string) (m : StoredModel F)
    (files : gmap string (option F)) :
  (Persistence.chosen_path path (model_path m) = None ->
   Persistence.save_model writable path m files = inl ValueError /\
   Persistence.load_model path m files = inl ValueError) /\
  (Persistence.chosen_path path (model_path m) = None <->
   (path = None \/ path = Some "") /\ (model_path m = None \/ model_path m = Some "")) /\
  (forall p, Persistence.chosen_path path (model_path m) = Some p ->
     (PyStr.contains "/" p = false ->
      Persistence.save_model writable path m files = inl FileNotFoundError) /\
     (files !! p = None -> Persistence.load_model path m files = inl FileNotFoundError) /\
     (forall content, files !! p = Some content ->
        Persistence.load_model path m files
        = inr (mkStoredModel (model_path m) (mkBaseRiskModel true content)))).
Proof.
  split; [|split].
  - intros E. unfold Persistence.save_model, Persistence.load_model. rewrite E. auto.
  - unfold Persistence.chosen_path, Persistence.truthy.
    destruct path as [p|]; destruct (model_path m) as [q|];
      try destruct (String.eqb_spec p ""); try destruct (String.eqb_spec q "");
      subst; split; intros H; try discriminate; try tauto;
      try (split; auto);
      destruct H as [[H|H] [H'|H']]; congruence.
  - intros p E. unfold Persistence.save_model, Persistence.load_model. rewrite E.
    split; [|split].
    + intros Hb. unfold Persistence.bare_name. rewrite Hb. reflexivity.
    + intros ->. reflexivity.
    + intros content ->. reflexivity.
Qed.

(** X21.  [load_model] on the file of a detector that was never
    trained sets [is_loaded] and leaves the model object [None].  Such a
    detector, of any of the four kinds, counts as ready for the health
    probe, and scores 50 on every input. *)
Theorem X21_loaded_untrained_detector :
  (forall (F : Type) (path : option string) (m : StoredModel F)
          (files : gmap string (option F)) (load_path : string),
      Persistence.chosen_path path (model_path m) = Some load_path ->
      files !! load_path = Some None ->
      Persistence.load_model path m files
      = inr (mkStoredModel (model_path m) (mkBaseRiskModel true None))) /\
  (forall (ip_address : string -> option IPAddress)
          (parse : string -> option ParsedUserAgent) (local_hour : Z -> option Z)
          (math : MathLib) (bad : gset string) (d : RiskModel),
      In d (IPModel (IPRiskModel.mk (mkBaseRiskModel true None) bad)
            :: DateTimeModel (mkBaseRiskModel true None)
            :: UserAgentModel (mkBaseRiskModel true None)
            :: GeolocationModel (mkBaseRiskModel true None) :: nil) ->
      Api.model_ready d = true /\
      forall input h, Api.predict_risk ip_address parse local_hour math d input h = 50).
Proof.
  split.
  - intros F path m files load_path E Hf. unfold Persistence.load_model.
    rewrite E, Hf. reflexivity.
  - intros ip_address parse local_hour math bad d Hd. cbn [In] in Hd.
    destruct Hd as [<-|[<-|[<-|[<-|[]]]]]; split; reflexivity || (intros; reflexivity).
Qed.

(** ** Locations, [api/validators.py] lines 49-69 and [api/main.py]
    lines 175-203 *)

(** X22.  [validate_location] accepts a dictionary exactly when the
    four keys are present, the coordinates pass [validate_coordinates]
    of the analyzer, and country and city are not empty; and every
    location the address lookup of the handler returns is accepted, the
    placeholder of the private networks included. *)
Theorem X22_location_validation (location : LocationDict) :
  (LocationValidator.validate_location location = true <->
   exists lat lon country city,
     location = mkLocationDict (Some country) (Some city) (Some lat) (Some lon) /\
     GeoPatterns.validate_coordinates lat lon = true /\
     country <> "" /\ city <> "") /\
  (forall ip,
      LocationValidator.validate_location (location_dict (Api.get_location_from_ip ip))
      = true).
Proof.
  split.
  - unfold LocationValidator.validate_location, GeoPatterns.validate_coordinates,
      LocationValidator.missing.
    split.
    + destruct location as [c y lat lon].
      cbn [ld_latitude ld_longitude ld_country ld_city].
      destruct lat as [lat|]; [|discriminate]. destruct lon as [lon|]; [|discriminate].
      destruct (PyMath.float_le (float_lit (-90)) lat
                && PyMath.float_le lat (float_lit 90)) eqn:E1; [|discriminate].
      destruct (PyMath.float_le (float_lit (-180)) lon
                && PyMath.float_le lon (float_lit 180)) eqn:E2; [|discriminate].
      cbn [negb orb].
      destruct c as [c|]; [|discriminate].
      destruct (String.eqb_spec c ""); [discriminate|].
      destruct y as [y|]; [|discriminate].
      destruct (String.eqb_spec y ""); [discriminate|].
      intros _. exists lat, lon, c, y. rewrite E1, E2. auto.
    + intros (lat & lon & c & y & -> & Hv & Hc & Hy).
      cbn [ld_latitude ld_longitude ld_country ld_city].
      apply andb_prop in Hv as [-> ->]. cbn [negb orb].
      destruct (String.eqb_spec c ""); [contradiction|].
      destruct (String.eqb_spec y ""); [contradiction|]. reflexivity.
  - intros ip. unfold Api.get_location_from_ip.
    destruct (_ || _); [|destruct (PyStr.startswith ip "8.8")];
      vm_compute; reflexivity.
Qed.
